(** * A build-and-deploy pipeline script: model and properties

    Shallow embedding of the deployment script [turn_3_model_a.py]: its
    module-level configuration, the stage functions, the notification
    sender, the rollback stub and the orchestrating [main].

    The script talks to the outside world (file system, [os.system], the
    Docker client, an HTTP webhook).  Every such call is answered by a
    [World]: a record holding, for each external call the script can make,
    what that call returns or raises.  The script itself is a computation
    in a state-and-exception monad; the state holds the in-memory
    [ConfigParser] object, the config file (its text on disk, everything
    that was done to it, and what the open file object still buffers),
    the local variable [repository] of [main] and the trace of everything
    the run did: every function of the script records its entry, every
    log line and every external call is recorded where it happens.

    The two library objects [main] works on are modelled after CPython
    3.11: [ConfigParser] with its [DEFAULT] section and its
    [BasicInterpolation] of values, and the buffered text file returned
    by [open(path, 'w')].  What a process that dies in the middle of a
    run leaves on disk is read off the operations the run itself
    performed on the file. *)

From Stdlib Require Import ZArith String Ascii List Bool Lia DecimalString.
From stdpp Require Import base option strings gmap.
Import ListNotations.

Local Open Scope string_scope.

(** ** Python values used by the script *)

(** Exceptions derived from [Exception]; these are what
    [except Exception] catches.  [SystemExit] is not one of them and is a
    separate outcome of a computation (see [result]). *)
Inductive exc : Type :=
| FileNotFoundError (msg : string)
| NameError (name : string)
| UnboundLocalError (name : string)
| KeyError (key : string)
| OSError (msg : string)
| BuildError (msg : string)          (* docker.errors.BuildError *)
| APIError (msg : string)            (* docker.errors.APIError *)
| RequestException (msg : string)    (* requests.RequestException and subclasses *)
| OtherError (cls msg : string).     (* any other Exception subclass *)

(** [str(e)].  [KeyError] shows the [repr] of its key; the keys used by
    the script are plain identifiers, whose [repr] is the key in single
    quotes.  The text of [UnboundLocalError] is the one of Python 3.11
    and later. *)
Definition str (e : exc) : string :=
  match e with
  | FileNotFoundError msg => msg
  | NameError name => "name '" +:+ name +:+ "' is not defined"
  | UnboundLocalError name =>
      "cannot access local variable '" +:+ name
        +:+ "' where it is not associated with a value"
  | KeyError key => "'" +:+ key +:+ "'"
  | OSError msg => msg
  | BuildError msg => msg
  | APIError msg => msg
  | RequestException msg => msg
  | OtherError _ msg => msg
  end.

(** [isinstance(e, NameError)]: [UnboundLocalError] is a subclass. *)
Definition is_NameError (e : exc) : bool :=
  match e with NameError _ | UnboundLocalError _ => true | _ => false end.

Definition is_BuildError (e : exc) : bool :=
  match e with BuildError _ => true | _ => false end.

Definition is_APIError (e : exc) : bool :=
  match e with APIError _ => true | _ => false end.

Definition is_RequestException (e : exc) : bool :=
  match e with RequestException _ => true | _ => false end.

(** Bytes of the non-ASCII tails of the three notification texts, as they
    stand in the source file. *)
Definition bytes (l : list nat) : string :=
  string_of_list_ascii (map ascii_of_nat l).

Definition PARTY : string := bytes [239; 163; 191; 195; 188; 195; 169; 195; 162].
Definition CROSS : string := bytes [226; 128; 154; 195; 185; 195; 165].

(** ** Strings *)

(** ASCII white space, as [str.strip] sees it. *)
Definition is_space (c : ascii) : bool :=
  let n := nat_of_ascii c in
  ((9 <=? n)%nat && (n <=? 13)%nat) || ((28 <=? n)%nat && (n <=? 32)%nat).

Fixpoint lstrip (s : string) : string :=
  match s with
  | String c s' => if is_space c then lstrip s' else s
  | EmptyString => EmptyString
  end.

Fixpoint rstrip (s : string) : string :=
  match s with
  | String c s' =>
      match rstrip s' with
      | EmptyString => if is_space c then EmptyString else String c EmptyString
      | r => String c r
      end
  | EmptyString => EmptyString
  end.

Definition strip (s : string) : string := rstrip (lstrip s).

(** [str(n)] for an integer. *)
Definition str_int (n : Z) : string :=
  DecimalString.NilZero.string_of_int (Z.to_int n).

Definition NL : ascii := ascii_of_nat 10.
Definition TAB : ascii := ascii_of_nat 9.
Definition DQUOTE : ascii := ascii_of_nat 34.
Definition PERCENT : ascii := ascii_of_nat 37.
Definition QUOTE : ascii := ascii_of_nat 39.
Definition LPAREN : ascii := ascii_of_nat 40.
Definition RPAREN : ascii := ascii_of_nat 41.
Definition BACKSLASH : ascii := ascii_of_nat 92.
Definition LETTER_S : ascii := ascii_of_nat 115.

Definition nl : string := String NL EmptyString.

(** [c in s]. *)
Definition contains (c : ascii) (s : string) : bool :=
  existsb (Ascii.eqb c) (list_ascii_of_string s).

(** [s.find(c)]: the index of the first [c], [-1] when there is none. *)
Fixpoint find (c : ascii) (s : string) : Z :=
  match s with
  | EmptyString => (-1)%Z
  | String a s' =>
      if Ascii.eqb a c then 0%Z
      else let p := find c s' in if (p <? 0)%Z then p else (p + 1)%Z
  end.

(** The first [n] characters of a string (all of it when it is shorter),
    and what is left after them. *)
Fixpoint str_take (n : nat) (s : string) : string :=
  match n, s with
  | S n', String c s' => String c (str_take n' s')
  | _, _ => EmptyString
  end.

Fixpoint str_drop (n : nat) (s : string) : string :=
  match n, s with
  | S n', String _ s' => str_drop n' s'
  | _, _ => s
  end.

(** [s.startswith(p)]. *)
Fixpoint starts_with (p s : string) : bool :=
  match p with
  | EmptyString => true
  | String a p' =>
      match s with
      | String b s' => Ascii.eqb a b && starts_with p' s'
      | EmptyString => false
      end
  end.

(** [repr(s)] of a string: in single quotes, or in double quotes when the
    string holds a single quote and no double quote; the quote and the
    backslash are escaped, control characters are written as escapes.
    Bytes above 127 are taken to belong to printable characters. *)
Definition hex_digit (n : nat) : ascii :=
  nth n (list_ascii_of_string "0123456789abcdef") "0"%char.

Definition repr_char (quote c : ascii) : string :=
  let n := nat_of_ascii c in
  if Ascii.eqb c quote || Ascii.eqb c BACKSLASH then String BACKSLASH (String c "")
  else if (n =? 9)%nat then "\t"
  else if (n =? 10)%nat then "\n"
  else if (n =? 13)%nat then "\r"
  else if (n <? 32)%nat || (n =? 127)%nat
       then "\x" +:+ String (hex_digit (n / 16)) (String (hex_digit (n mod 16)) "")
  else String c "".

Fixpoint repr_body (quote : ascii) (s : string) : string :=
  match s with
  | EmptyString => EmptyString
  | String c s' => repr_char quote c +:+ repr_body quote s'
  end.

Definition repr (s : string) : string :=
  let quote := if contains QUOTE s && negb (contains DQUOTE s) then DQUOTE else QUOTE in
  String quote (repr_body quote s +:+ String quote "").

(** ** ConfigParser *)

(** A [ConfigParser()] after [read]: the options of the [DEFAULT]
    section ([parser._defaults]) and the other sections in file order
    ([parser._sections]), each with its options in file order.  Option
    names are stored the way [optionxform] leaves them (lower case);
    values are stored as read, before any interpolation. *)
Definition Options : Type := list (string * string).

Record Config : Type := mkConfig {
  cfg_defaults : Options;
  cfg_sections : list (string * Options)
}.

Definition DEFAULTSECT : string := "DEFAULT".
Definition MAX_INTERPOLATION_DEPTH : nat := 10.

Definition lower (c : ascii) : ascii :=
  let n := nat_of_ascii c in
  if (65 <=? n)%nat && (n <=? 90)%nat then ascii_of_nat (n + 32) else c.

Fixpoint optionxform (s : string) : string :=
  match s with
  | EmptyString => EmptyString
  | String c s' => String (lower c) (optionxform s')
  end.

Fixpoint assoc {A : Type} (k : string) (l : list (string * A)) : option A :=
  match l with
  | [] => None
  | (k', v) :: l' => if String.eqb k k' then Some v else assoc k l'
  end.

(** Replace the value of the first binding of [k], or append a new
    binding when there is none (a Python dict assignment). *)
Fixpoint assoc_set {A : Type} (k : string) (v : A) (l : list (string * A))
  : list (string * A) :=
  match l with
  | [] => [(k, v)]
  | (k', v') :: l' =>
      if String.eqb k k' then (k', v) :: l' else (k', v') :: assoc_set k v l'
  end.

Definition is_some {A} (o : option A) : bool :=
  match o with Some _ => true | None => false end.

(** [parser.has_section(section)]: [DEFAULT] is not acknowledged. *)
Definition has_section (c : Config) (section : string) : bool :=
  is_some (assoc section (cfg_sections c)).

(** [not section or section == parser.default_section]. *)
Definition is_default (section : string) : bool :=
  String.eqb section "" || String.eqb section DEFAULTSECT.

(** [parser.has_option(section, option)]: an option of [DEFAULT] is an
    option of every section. *)
Definition has_option (c : Config) (section option : string) : bool :=
  if is_default section then is_some (assoc (optionxform option) (cfg_defaults c))
  else
    match assoc section (cfg_sections c) with
    | None => false
    | Some sectdict =>
        is_some (assoc (optionxform option) sectdict)
        || is_some (assoc (optionxform option) (cfg_defaults c))
    end.

(** [parser._unify_values(section, None)[name]]: the section first, then
    [DEFAULT]. *)
Definition unify_values (c : Config) (section name : string) : option string :=
  let sectiondict :=
    match assoc section (cfg_sections c) with Some d => d | None => [] end in
  match assoc name sectiondict with
  | Some v => Some v
  | None => assoc name (cfg_defaults c)
  end.

(** The exceptions of [configparser] and their texts. *)
Definition NoSectionError (section : string) : exc :=
  OtherError "NoSectionError" ("No section: " +:+ repr section).

Definition InterpolationSyntaxError (msg : string) : exc :=
  OtherError "InterpolationSyntaxError" msg.

Definition InterpolationMissingOptionError (option section rawval reference : string)
  : exc :=
  OtherError "InterpolationMissingOptionError"
    ("Bad value substitution: option " +:+ repr option +:+ " in section " +:+ repr section
       +:+ " contains an interpolation key " +:+ repr reference
       +:+ " which is not a valid option name. Raw value: " +:+ repr rawval).

Definition InterpolationDepthError (option section rawval : string) : exc :=
  OtherError "InterpolationDepthError"
    ("Recursion limit exceeded in value substitution: option " +:+ repr option
       +:+ " in section " +:+ repr section
       +:+ " contains an interpolation key which cannot be substituted in "
       +:+ str_int (Z.of_nat MAX_INTERPOLATION_DEPTH) +:+ " steps. Raw value: "
       +:+ repr rawval).

Definition ValueError (msg : string) : exc := OtherError "ValueError" msg.

(** [accum.append(s)] in front of what the rest of the value gives. *)
Definition prepend (s : string) (r : exc + string) : exc + string :=
  match r with inr t => inr (s +:+ t) | inl e => inl e end.

Section Interpolation.

Variable c : Config.
Variables option section rawval : string.

(** The [while rest:] loop of [BasicInterpolation._interpolate_some],
    character by character; [nested] is the call one level deeper.  A
    [%] is followed by [%], or by [(name)s] with a name of at least one
    character other than [)] (the pattern [%\(([^)]+)\)s]); the name is
    looked up, lower-cased, in the section and then in [DEFAULT]. *)
Fixpoint interpolate_loop (nested : string -> exc + string) (rest : string) {struct rest}
  : exc + string :=
  match rest with
  | EmptyString => inr EmptyString
  | String a rest1 =>
      if negb (Ascii.eqb a PERCENT) then prepend (String a "") (interpolate_loop nested rest1)
      else
        match rest1 with
        | EmptyString =>
            inl (InterpolationSyntaxError
                   ("'%' must be followed by '%' or '(', found: " +:+ repr rest))
        | String b rest2 =>
            if Ascii.eqb b PERCENT then prepend "%" (interpolate_loop nested rest2)
            else if Ascii.eqb b LPAREN then
              (fix scan (name : string) (s : string) {struct s} : exc + string :=
                 match s with
                 | EmptyString =>
                     inl (InterpolationSyntaxError
                            ("bad interpolation variable reference " +:+ repr rest))
                 | String d s1 =>
                     if Ascii.eqb d RPAREN then
                       match name, s1 with
                       | String _ _, String e s2 =>
                           if Ascii.eqb e LETTER_S then
                             let var := optionxform name in
                             match unify_values c section var with
                             | None =>
                                 inl (InterpolationMissingOptionError
                                        option section rawval var)
                             | Some v =>
                                 match (if contains PERCENT v then nested v else inr v) with
                                 | inl x => inl x
                                 | inr v' => prepend v' (interpolate_loop nested s2)
                                 end
                             end
                           else
                             inl (InterpolationSyntaxError
                                    ("bad interpolation variable reference " +:+ repr rest))
                       | _, _ =>
                           inl (InterpolationSyntaxError
                                  ("bad interpolation variable reference " +:+ repr rest))
                       end
                     else scan (name +:+ String d "") s1
                 end) "" rest2
            else
              inl (InterpolationSyntaxError
                     ("'%' must be followed by '%' or '(', found: " +:+ repr rest))
        end
  end.

(** [_interpolate_some] at depth [MAX_INTERPOLATION_DEPTH + 1 - levels]:
    past the maximal depth it raises. *)
Fixpoint interpolate_some (levels : nat) (rest : string) : exc + string :=
  match levels with
  | O => inl (InterpolationDepthError option section rawval)
  | S levels' => interpolate_loop (interpolate_some levels') rest
  end.

End Interpolation.

(** [BasicInterpolation.before_get]. *)
Definition before_get (c : Config) (section option value : string) : exc + string :=
  interpolate_some c option section value MAX_INTERPOLATION_DEPTH value.

(** [config[section][key]]: [KeyError] on a missing section or option,
    else the value with its references expanded, or the error of the
    expansion. *)
Definition cfg_getitem (c : Config) (section key : string) : exc + string :=
  if negb (String.eqb section DEFAULTSECT) && negb (has_section c section)
  then inl (KeyError section)
  else if negb (has_option c section key) then inl (KeyError key)
  else
    match unify_values c section (optionxform key) with
    | None => inl (KeyError key)
    | Some value => before_get c section (optionxform key) value
    end.

(** [value.replace('%%', '')]. *)
Fixpoint remove_escaped (s : string) : string :=
  match s with
  | EmptyString => EmptyString
  | String a s1 =>
      match s1 with
      | EmptyString => s
      | String b s2 =>
          if Ascii.eqb a PERCENT && Ascii.eqb b PERCENT then remove_escaped s2
          else String a (remove_escaped s1)
      end
  end.

(** [_KEYCRE.sub('', s)]: every [%(name)s] is taken out, from the left. *)
Fixpoint remove_references (s : string) : string :=
  match s with
  | EmptyString => EmptyString
  | String a s1 =>
      let kept := String a (remove_references s1) in
      if Ascii.eqb a PERCENT then
        match s1 with
        | EmptyString => kept
        | String b s2 =>
            if Ascii.eqb b LPAREN then
              match
                (fix scan (empty : bool) (t : string) {struct t} : option string :=
                   match t with
                   | EmptyString => None
                   | String d t1 =>
                       if Ascii.eqb d RPAREN then
                         if empty then None
                         else
                           match t1 with
                           | EmptyString => None
                           | String e t2 =>
                               if Ascii.eqb e LETTER_S then Some (remove_references t2)
                               else None
                           end
                       else scan false t1
                   end) true s2
              with
              | Some r => r
              | None => kept
              end
            else kept
        end
      else kept
  end.

(** [BasicInterpolation.before_set]: a [%] that is neither doubled nor
    the start of a reference is refused. *)
Definition before_set (value : string) : exc + string :=
  let tmp_value := remove_references (remove_escaped value) in
  if contains PERCENT tmp_value
  then inl (ValueError
              ("invalid interpolation syntax in " +:+ repr value +:+ " at position "
                 +:+ str_int (find PERCENT tmp_value)))
  else inr value.

(** [config[section][key] = value]. *)
Definition cfg_setitem (c : Config) (section key value : string) : exc + Config :=
  if negb (String.eqb section DEFAULTSECT) && negb (has_section c section)
  then inl (KeyError section)
  else
    match (if String.eqb value "" then inr value else before_set value) with
    | inl e => inl e
    | inr value =>
        if is_default section
        then inr {| cfg_defaults := assoc_set (optionxform key) value (cfg_defaults c);
                    cfg_sections := cfg_sections c |}
        else
          match assoc section (cfg_sections c) with
          | None => inl (NoSectionError section)
          | Some sectdict =>
              inr {| cfg_defaults := cfg_defaults c;
                     cfg_sections :=
                       assoc_set section (assoc_set (optionxform key) value sectdict)
                         (cfg_sections c) |}
          end
    end.

(** What [config[section][key]] holds, when it holds something. *)
Definition cfg_lookup (c : Config) (section key : string) : option string :=
  match cfg_getitem c section key with inr v => Some v | inl _ => None end.


(** [value.replace('\n', '\n\t')], done by [ConfigParser.write]. *)
Fixpoint replace_nl (s : string) : string :=
  match s with
  | EmptyString => EmptyString
  | String c s' =>
      if Ascii.eqb c NL then String NL (String TAB (replace_nl s'))
      else String c (replace_nl s')
  end.


(** The successive [fp.write] calls of [ConfigParser._write_section]. *)
Definition write_section (name : string) (items : Options) : list string :=
  ("[" +:+ name +:+ "]" +:+ nl)
    :: map (fun kv => fst kv +:+ " = " +:+ replace_nl (snd kv) +:+ nl) items
    ++ [nl].

(** The successive [fp.write] calls of [ConfigParser.write]: the
    [DEFAULT] section first, when it has options, then every section. *)
Definition config_write (c : Config) : list string :=
  (match cfg_defaults c with
   | [] => []
   | _ :: _ => write_section DEFAULTSECT (cfg_defaults c)
   end)
    ++ concat (map (fun s => write_section (fst s) (snd s)) (cfg_sections c)).

(** The text of a file after the given writes. *)
Definition file_text (chunks : list string) : string :=
  fold_right String.append EmptyString chunks.

(** ** The outside world *)

(** One line of the Docker build log: the value under ['stream'], when
    the line has that key. *)
Definition build_log : Type := option string.

(** What [requests.post] does: a response with its status code and reason
    phrase, or a [requests.RequestException] (connection refused, bad URL,
    timeout, ...). *)
Inductive post_result : Type :=
| Response (status_code : Z) (reason : string)
| PostRaises (msg : string).

(** What one [fp.write(chunk)] does on the buffered text file.  The call
    returns with the chunk in the buffer, of which so many characters go
    on to the disk; or it raises before buffering anything (a chunk that
    cannot be encoded); or it buffers the chunk and the flush breaks off
    ([OSError]: disk full, quota, I/O error). *)
Inductive write_outcome : Type :=
| Accepted (flushed : nat)
| Rejected (e : exc)
| FlushFailed (flushed : nat) (e : exc).

(** What closing the file does: all of the buffer reaches the disk, or
    so many characters of it and then an [OSError]. *)
Inductive close_outcome : Type :=
| Closed
| CloseFailed (flushed : nat) (e : exc).

Record World : Type := mkWorld {
  w_environ : gmap string string;             (* os.environ *)
  w_platform : string;                        (* sys.platform *)
  w_path_join : list string -> string;        (* os.path.join *)
  w_config_read : exc + Config;               (* config.read(CONFIG_FILE) *)
  w_disk : string;                            (* text of CONFIG_FILE at start *)
  w_venv_create : option exc;                 (* venv.create *)
  w_path_exists : string -> bool;             (* os.path.exists *)
  w_os_system : string -> Z;                  (* os.system *)
  w_from_env_build : option exc;              (* docker.from_env(), build *)
  w_images_build : exc + (string * list build_log);  (* client.images.build *)
  w_image_tag : option exc;                   (* image.tag *)
  w_from_env_push : option exc;               (* docker.from_env(), push *)
  w_login : option exc;                       (* client.login *)
  w_images_push : list string * option exc;   (* lines streamed by push, then its end *)
  w_open_w : option exc;                      (* open(CONFIG_FILE, 'w') *)
  w_write : nat -> write_outcome;             (* the i-th fp.write *)
  w_close : close_outcome;                    (* closing the file *)
  w_post : nat -> post_result                 (* the i-th requests.post *)
}.

(** ** Traces *)

Inductive level : Type := INFO | WARNING | ERROR.

(** What a run does, in order: the functions of the script it enters,
    the lines it logs and the external calls it makes. *)
Inductive event : Type :=
(* functions of the script, on entry *)
| Call_load_config (config_file : string)
| Call_create_venv (venv_name : string)
| Call_install_dependencies (venv_python requirements_file : string)
| Call_run_tests (venv_python test_dir : string)
| Call_build_docker_image (image_name dockerfile_path build_context : string)
| Call_tag_docker_image (image repository tag : string)
| Call_push_docker_image (repository tag : string) (username password : option string)
| Call_send_slack_notification (message : string)
| Call_rollback_deployment (repository previous_tag : string)
(* logging *)
| Log (lvl : level) (msg : string)
(* external calls *)
| ConfigRead (path : string)
| VenvCreate (name : string)
| PathExists (path : string)
| OsSystem (cmd : string)
| DockerFromEnv
| ImagesBuild (path dockerfile tag : string)
| ImageTag (image repository tag : string)
| Login (username password : option string)
| ImagesPush (repository tag : string)
| OpenW (path : string)
| FpWrite (chunk : string)
| FpClose
| HttpPost (url text : string).

(** ** Writing a file in place *)

(** What happens to the file behind [open(path, 'w')]: opening truncates
    it, and what the file object flushes is appended. *)
Inductive file_op : Type :=
| Truncate
| Append (chunk : string).

Definition apply_op (op : file_op) (text : string) : string :=
  match op with
  | Truncate => EmptyString
  | Append chunk => text +:+ chunk
  end.

Definition disk_after (ops : list file_op) (text : string) : string :=
  fold_left (fun t op => apply_op op t) ops text.

(** ** State and the monad of the script *)

Record state : Type := mkState {
  st_config : Config;               (* the ConfigParser object [config] *)
  st_disk : string;                 (* text of CONFIG_FILE on disk *)
  st_disk_ops : list file_op;       (* what was done to CONFIG_FILE, oldest first *)
  st_buffer : string;               (* written to the file object, not yet on disk *)
  st_writes : nat;                  (* fp.write calls made so far *)
  st_repository : option string;    (* local [repository] of [main]; None: unbound *)
  st_posts : nat;                   (* requests.post calls made so far *)
  st_trace : list event             (* oldest first *)
}.

(** A computation returns, raises an [Exception], or leaves through
    [SystemExit], which [except Exception] does not catch. *)
Inductive result (A : Type) : Type :=
| Ret (a : A)
| Raise (e : exc)
| Exit (code : Z).
Arguments Ret {A} a.
Arguments Raise {A} e.
Arguments Exit {A} code.

Definition M (A : Type) : Type := state -> result A * state.

Definition ret {A} (a : A) : M A := fun st => (Ret a, st).

Definition bind {A B} (m : M A) (k : A -> M B) : M B :=
  fun st =>
    match m st with
    | (Ret a, st') => k a st'
    | (Raise e, st') => (Raise e, st')
    | (Exit c, st') => (Exit c, st')
    end.

Definition raise {A} (e : exc) : M A := fun st => (Raise e, st).

(** [sys.exit(code)]. *)
Definition sys_exit {A} (code : Z) : M A := fun st => (Exit code, st).

(** [try: body  except <class> as e: handler e], where [catches] tells
    the instances of the class. *)
Definition try_except {A} (catches : exc -> bool) (body : M A) (handler : exc -> M A)
  : M A :=
  fun st =>
    match body st with
    | (Raise e, st') => if catches e then handler e st' else (Raise e, st')
    | r => r
    end.

(** [try: body  finally: cleanup]: the cleanup runs however the body
    ends, and what it raises replaces the outcome of the body. *)
Definition try_finally {A} (body : M A) (cleanup : M unit) : M A :=
  fun st =>
    match body st with
    | (r, st') =>
        match cleanup st' with
        | (Ret _, st'') => (r, st'')
        | (Raise e, st'') => (Raise e, st'')
        | (Exit code, st'') => (Exit code, st'')
        end
    end.

Definition is_Exception (e : exc) : bool := true.

Declare Scope py_scope.
Delimit Scope py_scope with py.
Notation "x <- m ;; k" := (bind m (fun x => k))
  (at level 100, m at next level, right associativity) : py_scope.
Notation "m ;; k" := (bind m (fun _ => k))
  (at level 100, right associativity) : py_scope.
Local Open Scope py_scope.

Definition add_event (e : event) (st : state) : state :=
  {| st_config := st_config st; st_disk := st_disk st; st_disk_ops := st_disk_ops st;
     st_buffer := st_buffer st; st_writes := st_writes st;
     st_repository := st_repository st; st_posts := st_posts st;
     st_trace := st_trace st ++ [e] |}.

Definition with_config (c : Config) (st : state) : state :=
  {| st_config := c; st_disk := st_disk st; st_disk_ops := st_disk_ops st;
     st_buffer := st_buffer st; st_writes := st_writes st;
     st_repository := st_repository st; st_posts := st_posts st;
     st_trace := st_trace st |}.

(** The file and the file object: text on disk, operations done, buffer,
    number of writes. *)
Definition with_file (disk : string) (ops : list file_op) (buffer : string) (writes : nat)
    (st : state) : state :=
  {| st_config := st_config st; st_disk := disk; st_disk_ops := ops;
     st_buffer := buffer; st_writes := writes;
     st_repository := st_repository st; st_posts := st_posts st;
     st_trace := st_trace st |}.

Definition with_repository (r : string) (st : state) : state :=
  {| st_config := st_config st; st_disk := st_disk st; st_disk_ops := st_disk_ops st;
     st_buffer := st_buffer st; st_writes := st_writes st;
     st_repository := Some r; st_posts := st_posts st;
     st_trace := st_trace st |}.

Definition with_posts (n : nat) (st : state) : state :=
  {| st_config := st_config st; st_disk := st_disk st; st_disk_ops := st_disk_ops st;
     st_buffer := st_buffer st; st_writes := st_writes st;
     st_repository := st_repository st; st_posts := n;
     st_trace := st_trace st |}.

Definition emit (e : event) : M unit := fun st => (Ret tt, add_event e st).

Definition logger_info (msg : string) : M unit := emit (Log INFO msg).
Definition logger_warning (msg : string) : M unit := emit (Log WARNING msg).
Definition logger_error (msg : string) : M unit := emit (Log ERROR msg).

(** An external call that returns nothing or raises. *)
Definition external (e : event) (outcome : option exc) : M unit :=
  emit e ;; match outcome with Some x => raise x | None => ret tt end.

(** [for x in l: body x]. *)
Fixpoint for_each {A} (l : list A) (body : A -> M unit) : M unit :=
  match l with
  | [] => ret tt
  | x :: l' => body x ;; for_each l' body
  end.

(** Names bound at module level by the [import] statements. *)
Definition imports : list string :=
  ["configparser"; "docker"; "logging"; "os"; "requests"; "sys"; "venv"].

(** Reading a module-level name: [NameError] when nothing binds it. *)
Definition load_global (name : string) : M unit :=
  if existsb (String.eqb name) imports then ret tt else raise (NameError name).

(** One operation on the file, done and recorded. *)
Definition disk_do (op : file_op) (st : state) : state :=
  with_file (apply_op op (st_disk st)) (st_disk_ops st ++ [op])
    (st_buffer st) (st_writes st) st.

(** [chunk] goes into the buffer of the file object. *)
Definition to_buffer (chunk : string) (st : state) : state :=
  with_file (st_disk st) (st_disk_ops st) (st_buffer st +:+ chunk) (st_writes st) st.

(** The first [n] characters of the buffer go to the disk. *)
Definition flush (n : nat) (st : state) : state :=
  disk_do (Append (str_take n (st_buffer st)))
    (with_file (st_disk st) (st_disk_ops st) (str_drop n (st_buffer st)) (st_writes st) st).

(** One more [fp.write] was called. *)
Definition count_write (st : state) : state :=
  with_file (st_disk st) (st_disk_ops st) (st_buffer st) (S (st_writes st)) st.

(** The file object is gone, and its buffer with it. *)
Definition drop_buffer (st : state) : state :=
  with_file (st_disk st) (st_disk_ops st) EmptyString (st_writes st) st.

(** * The script *)

Section Script.

Variable w : World.

(** [os.environ.get(name, default)] and [os.environ.get(name)]. *)
Definition environ_get_default (name default : string) : string :=
  match w_environ w !! name with Some v => v | None => default end.

Definition environ_get (name : string) : option string := w_environ w !! name.

Definition CONFIG_FILE : string := environ_get_default "CONFIG_FILE" "config.ini".
Definition VENV_NAME : string := environ_get_default "VENV_NAME" "venv".
Definition REQUIREMENTS_FILE : string :=
  environ_get_default "REQUIREMENTS_FILE" "requirements.txt".
Definition TEST_DIR : string := environ_get_default "TEST_DIR" "tests".
Definition DOCKERFILE : string := environ_get_default "DOCKERFILE" "Dockerfile".
Definition BUILD_CONTEXT : string := environ_get_default "BUILD_CONTEXT" ".".

Definition DOCKER_USERNAME : option string := environ_get "DOCKER_USERNAME".
Definition DOCKER_PASSWORD : option string := environ_get "DOCKER_PASSWORD".

Definition SLACK_WEBHOOK_URL : option string := environ_get "SLACK_WEBHOOK_URL".

(** Truth value of an optional string: [None] and [""] are false. *)
Definition truthy (s : option string) : option string :=
  match s with
  | Some (String c s') => Some (String c s')
  | _ => None
  end.

(** [config.read(path)] into a fresh parser, which becomes [config]. *)
Definition load_config (config_file : string) : M unit :=
  emit (Call_load_config config_file) ;;
  logger_info ("Loading configuration from " +:+ config_file) ;;
  emit (ConfigRead config_file) ;;
  match w_config_read w with
  | inl e => raise e
  | inr c => fun st => (Ret tt, with_config c st)
  end.

(** [config[section][key]] on the parser held in [config]. *)
Definition config_getitem (section key : string) : M string :=
  fun st =>
    match cfg_getitem (st_config st) section key with
    | inl e => (Raise e, st)
    | inr v => (Ret v, st)
    end.

(** [config[section][key] = value]. *)
Definition config_setitem (section key value : string) : M unit :=
  fun st =>
    match cfg_setitem (st_config st) section key value with
    | inl e => (Raise e, st)
    | inr c => (Ret tt, with_config c st)
    end.

Definition create_venv (venv_name : string) : M unit :=
  emit (Call_create_venv venv_name) ;;
  logger_info ("Creating virtual environment: " +:+ venv_name) ;;
  external (VenvCreate venv_name) (w_venv_create w).

Definition get_venv_python (venv_name : string) : string :=
  if String.eqb (w_platform w) "win32"
  then w_path_join w [venv_name; "Scripts"; "python.exe"]
  else w_path_join w [venv_name; "bin"; "python"].

Definition os_path_exists (path : string) : M bool :=
  emit (PathExists path) ;; ret (w_path_exists w path).

Definition os_system (cmd : string) : M Z :=
  emit (OsSystem cmd) ;; ret (w_os_system w cmd).

Definition install_dependencies (venv_python requirements_file : string) : M unit :=
  emit (Call_install_dependencies venv_python requirements_file) ;;
  found <- os_path_exists requirements_file ;;
  if found : bool then
    logger_info ("Installing dependencies from " +:+ requirements_file) ;;
    _ <- os_system (venv_python +:+ " -m pip install -r " +:+ requirements_file) ;;
    ret tt
  else
    raise (FileNotFoundError
             ("Requirements file " +:+ requirements_file +:+ " not found.")).

(** The module does not import [subprocess]: building the exception of
    the failing branch reads an unbound global. *)
Definition run_tests (venv_python test_dir : string) : M unit :=
  emit (Call_run_tests venv_python test_dir) ;;
  logger_info "Running unit tests" ;;
  result <- os_system (venv_python +:+ " -m unittest discover " +:+ test_dir) ;;
  if negb (result =? 0)%Z then
    load_global "subprocess" ;;
    raise (OtherError "CalledProcessError"
             ("Command '" +:+ venv_python +:+ " -m unittest discover " +:+ test_dir
                +:+ "' returned non-zero exit status " +:+ str_int result +:+ "."))
  else ret tt.

Definition build_docker_image (image_name dockerfile_path build_context : string)
  : M string :=
  emit (Call_build_docker_image image_name dockerfile_path build_context) ;;
  logger_info ("Building Docker image: " +:+ image_name) ;;
  external DockerFromEnv (w_from_env_build w) ;;
  try_except is_BuildError
    (emit (ImagesBuild build_context dockerfile_path image_name) ;;
     match w_images_build w with
     | inl e => raise e
     | inr (image, build_logs) =>
         for_each build_logs
           (fun log => match log with
                       | Some stream => logger_info (strip stream)
                       | None => ret tt
                       end) ;;
         ret image
     end)
    (fun e => logger_error ("Docker build failed: " +:+ str e) ;; raise e).

Definition tag_docker_image (image repository tag : string) : M unit :=
  emit (Call_tag_docker_image image repository tag) ;;
  logger_info ("Tagging Docker image: " +:+ repository +:+ ":" +:+ tag) ;;
  try_except is_APIError
    (external (ImageTag image repository tag) (w_image_tag w))
    (fun e => logger_error ("Failed to tag Docker image: " +:+ str e) ;; raise e).

Definition push_docker_image (repository tag : string) (username password : option string)
  : M unit :=
  emit (Call_push_docker_image repository tag username password) ;;
  logger_info ("Pushing Docker image: " +:+ repository +:+ ":" +:+ tag) ;;
  external DockerFromEnv (w_from_env_push w) ;;
  try_except is_APIError
    (external (Login username password) (w_login w) ;;
     emit (ImagesPush repository tag) ;;
     for_each (fst (w_images_push w)) logger_info ;;
     match snd (w_images_push w) with Some e => raise e | None => ret tt end)
    (fun e => logger_error ("Failed to push Docker image: " +:+ str e) ;; raise e).

(** [requests.post(url, json={"text": message})]. *)
Definition requests_post (url message : string) : M (Z * string) :=
  emit (HttpPost url message) ;;
  fun st =>
    match w_post w (st_posts st) with
    | Response code reason => (Ret (code, reason), with_posts (S (st_posts st)) st)
    | PostRaises msg => (Raise (RequestException msg), with_posts (S (st_posts st)) st)
    end.

(** [response.raise_for_status()]: [HTTPError], a [RequestException],
    on a 4xx or 5xx status. *)
Definition raise_for_status (url : string) (response : Z * string) : M unit :=
  let '(code, reason) := response in
  if (400 <=? code)%Z && (code <? 500)%Z then
    raise (RequestException
             (str_int code +:+ " Client Error: " +:+ reason +:+ " for url: " +:+ url))
  else if (500 <=? code)%Z && (code <? 600)%Z then
    raise (RequestException
             (str_int code +:+ " Server Error: " +:+ reason +:+ " for url: " +:+ url))
  else ret tt.

Definition send_slack_notification (message : string) : M unit :=
  emit (Call_send_slack_notification message) ;;
  match truthy SLACK_WEBHOOK_URL with
  | Some url =>
      try_except is_RequestException
        (response <- requests_post url message ;;
         raise_for_status url response ;;
         logger_info "Slack notification sent successfully")
        (fun e => logger_error ("Failed to send Slack notification: " +:+ str e))
  | None =>
      logger_warning "Slack webhook URL not configured. Skipping notification."
  end.

Definition rollback_deployment (repository previous_tag : string) : M unit :=
  emit (Call_rollback_deployment repository previous_tag) ;;
  logger_info ("Rolling back to previous deployment: "
                 +:+ repository +:+ ":" +:+ previous_tag) ;;
  try_except is_Exception
    (ret tt)
    (fun e => logger_error ("Rollback failed: " +:+ str e) ;; raise e).

(** [repository = ...] and the later read of [repository] in [main]. *)
Definition store_repository (r : string) : M unit :=
  fun st => (Ret tt, with_repository r st).

Definition load_repository : M string :=
  fun st =>
    match st_repository st with
    | Some r => (Ret r, st)
    | None => (Raise (UnboundLocalError "repository"), st)
    end.

(** [open(path, 'w')]: raises without touching the file, or truncates
    it and gives a file object with an empty buffer. *)
Definition open_w (path : string) : M unit :=
  external (OpenW path) (w_open_w w) ;;
  fun st => (Ret tt, disk_do Truncate (drop_buffer st)).

(** [fp.write(chunk)] on that file object. *)
Definition fp_write (chunk : string) : M unit :=
  emit (FpWrite chunk) ;;
  fun st =>
    match w_write w (st_writes st) with
    | Accepted flushed => (Ret tt, flush flushed (to_buffer chunk (count_write st)))
    | Rejected e => (Raise e, count_write st)
    | FlushFailed flushed e => (Raise e, flush flushed (to_buffer chunk (count_write st)))
    end.

(** Closing the file object, as the [with] statement does on the way
    out: what is left in the buffer goes to the disk. *)
Definition fp_close : M unit :=
  emit FpClose ;;
  fun st =>
    match w_close w with
    | Closed => (Ret tt, flush (String.length (st_buffer st)) st)
    | CloseFailed flushed e => (Raise e, drop_buffer (flush flushed st))
    end.

(** [with open(path, 'w') as fp: body]. *)
Definition with_open_w {A} (path : string) (body : M A) : M A :=
  open_w path ;; try_finally body fp_close.

(** [config.write(configfile)]. *)
Definition config_write_file : M unit :=
  fun st => for_each (config_write (st_config st)) fp_write st.

(** The body of the [try] of [main]. *)
Definition pipeline : M unit :=
  create_venv VENV_NAME ;;
  let venv_python := get_venv_python VENV_NAME in
  install_dependencies venv_python REQUIREMENTS_FILE ;;
  run_tests venv_python TEST_DIR ;;
  image_name <- config_getitem "Docker" "ImageName" ;;
  repository <- config_getitem "Docker" "Repository" ;;
  store_repository repository ;;
  version <- config_getitem "Docker" "Version" ;;
  let new_tag := "v" +:+ version in
  image <- build_docker_image image_name DOCKERFILE BUILD_CONTEXT ;;
  tag_docker_image image repository new_tag ;;
  push_docker_image repository new_tag DOCKER_USERNAME DOCKER_PASSWORD ;;
  config_setitem "Docker" "Tag" new_tag ;;
  with_open_w CONFIG_FILE config_write_file ;;
  logger_info "Build and deployment process completed successfully!" ;;
  send_slack_notification ("Deployment successful! " +:+ PARTY).

(** The [except Exception as e] clause of [main]. *)
Definition on_failure (previous_tag : string) (e : exc) : M unit :=
  logger_error ("Build and deployment process failed: " +:+ str e) ;;
  send_slack_notification ("Deployment failed: " +:+ str e +:+ " " +:+ CROSS) ;;
  try_except is_Exception
    (repository <- load_repository ;;
     rollback_deployment repository previous_tag ;;
     send_slack_notification ("Rolled back to previous version: " +:+ previous_tag))
    (fun rollback_error =>
       logger_error ("Rollback failed: " +:+ str rollback_error) ;;
       send_slack_notification
         ("Rollback failed: " +:+ str rollback_error +:+ " " +:+ CROSS +:+ CROSS)) ;;
  sys_exit 1.

Definition main : M unit :=
  load_config CONFIG_FILE ;;
  previous_tag <- config_getitem "Docker" "Tag" ;;
  try_except is_Exception pipeline (on_failure previous_tag).

(** The process: [main()] from a fresh interpreter. *)
Definition init_state : state :=
  {| st_config := mkConfig [] []; st_disk := w_disk w; st_disk_ops := [];
     st_buffer := EmptyString; st_writes := 0; st_repository := None;
     st_posts := 0; st_trace := [] |}.

Definition run : result unit * state := main init_state.

End Script.

(** Exit status of the process: 0 when [main] returns, the argument of
    [sys.exit], 1 after an uncaught exception. *)
Definition exit_status {A} (r : result A) : Z :=
  match r with
  | Ret _ => 0
  | Exit code => code
  | Raise _ => 1
  end.

Definition run_exit (w : World) : Z := exit_status (fst (run w)).
Definition run_trace (w : World) : list event := st_trace (snd (run w)).
Definition run_disk (w : World) : string := st_disk (snd (run w)).
Definition run_disk_ops (w : World) : list file_op := st_disk_ops (snd (run w)).

(** * Observations *)

(** The events that tell what the orchestrator did: the functions it
    entered and what it asked of the config file, the opening and the
    writes.  Log lines, the other external calls and the closing of the
    file by the [with] statement are left out. *)
Definition visible (e : event) : bool :=
  match e with
  | Log _ _ | ConfigRead _ | VenvCreate _ | PathExists _ | OsSystem _
  | DockerFromEnv | ImagesBuild _ _ _ | ImageTag _ _ _ | Login _ _
  | ImagesPush _ _ | FpClose | HttpPost _ _ => false
  | _ => true
  end.

Definition observe (t : list event) : list event := List.filter visible t.

(** The texts passed to [send_slack_notification], in order. *)
Definition notifications (t : list event) : list string :=
  flat_map (fun e => match e with
                     | Call_send_slack_notification m => [m]
                     | _ => []
                     end) t.

(** The arguments of the calls of [rollback_deployment], in order. *)
Definition rollbacks (t : list event) : list (string * string) :=
  flat_map (fun e => match e with
                     | Call_rollback_deployment r p => [(r, p)]
                     | _ => []
                     end) t.

(** The chunks written to the config file, in order. *)
Definition writes (t : list event) : list string :=
  flat_map (fun e => match e with FpWrite chunk => [chunk] | _ => [] end) t.

(** The test stage was entered. *)
Definition test_stage_entered (t : list event) : bool :=
  existsb (fun e => match e with Call_run_tests _ _ => true | _ => false end) t.

(** Some stage function of the pipeline was entered. *)
Definition stage_entered (t : list event) : bool :=
  existsb (fun e => match e with
                    | Call_create_venv _ | Call_install_dependencies _ _
                    | Call_run_tests _ _ | Call_build_docker_image _ _ _
                    | Call_tag_docker_image _ _ _ | Call_push_docker_image _ _ _ _ => true
                    | _ => false
                    end) t.

Fixpoint final {A} (l : list A) : option A :=
  match l with
  | [] => None
  | [x] => Some x
  | _ :: l' => final l'
  end.

(** How a run ended, as its last notification tells it. *)
Inductive status : Type := Success | RolledBack | RollbackFailed.

Definition classify (message : string) : option status :=
  if starts_with "Deployment successful!" message then Some Success
  else if starts_with "Rolled back to previous version: " message then Some RolledBack
  else if starts_with "Rollback failed: " message then Some RollbackFailed
  else None.

Definition terminal_status (t : list event) : option status :=
  match final (notifications t) with
  | Some m => classify m
  | None => None
  end.

(** The three texts of the failure path and the one of success. *)
Definition msg_success : string := "Deployment successful! " +:+ PARTY.
Definition msg_failed (e : exc) : string :=
  "Deployment failed: " +:+ str e +:+ " " +:+ CROSS.
Definition msg_rolled_back (previous_tag : string) : string :=
  "Rolled back to previous version: " +:+ previous_tag.
Definition msg_rollback_failed (e : exc) : string :=
  "Rollback failed: " +:+ str e +:+ " " +:+ CROSS +:+ CROSS.

(** * When every stage succeeds *)

Definition is_none {A} (o : option A) : bool :=
  match o with None => true | Some _ => false end.

Definition is_inr {A B} (s : A + B) : bool :=
  match s with inr _ => true | inl _ => false end.

Definition test_cmd (w : World) : string :=
  get_venv_python w (VENV_NAME w) +:+ " -m unittest discover " +:+ TEST_DIR w.

Definition is_accepted (o : write_outcome) : bool :=
  match o with Accepted _ => true | _ => false end.

Definition is_closed (o : close_outcome) : bool :=
  match o with Closed => true | CloseFailed _ _ => false end.

(** The [n] calls of [fp.write] from the [first] on are all accepted. *)
Definition writes_accepted (w : World) (first n : nat) : bool :=
  forallb (fun k => is_accepted (w_write w k)) (seq first n).

(** The persist step goes through: the parser takes the new tag, the
    config file opens for writing, every write of the new config is
    accepted and the file closes. *)
Definition persists (w : World) (c : Config) : bool :=
  match cfg_getitem c "Docker" "Version" with
  | inl _ => false
  | inr version =>
      match cfg_setitem c "Docker" "Tag" ("v" +:+ version) with
      | inl _ => false
      | inr c' =>
          is_none (w_open_w w)
          && writes_accepted w 0 (length (config_write c'))
          && is_closed (w_close w)
      end
  end.

(** Every step of the run returns without raising: the config loads and
    gives the keys read from it, the environment is created, the
    requirements file is there (the status of pip is not looked at), the
    tests exit with 0, the image is built, tagged and pushed, and the
    new tag is persisted. *)
Definition stages_succeed (w : World) : bool :=
  match w_config_read w with
  | inl _ => false
  | inr c =>
      is_inr (cfg_getitem c "Docker" "Tag")
      && is_none (w_venv_create w)
      && w_path_exists w (REQUIREMENTS_FILE w)
      && (w_os_system w (test_cmd w) =? 0)%Z
      && is_inr (cfg_getitem c "Docker" "ImageName")
      && is_inr (cfg_getitem c "Docker" "Repository")
      && is_inr (cfg_getitem c "Docker" "Version")
      && is_none (w_from_env_build w)
      && is_inr (w_images_build w)
      && is_none (w_image_tag w)
      && is_none (w_from_env_push w)
      && is_none (w_login w)
      && is_none (snd (w_images_push w))
      && persists w c
  end.

(** A stage fails before [main] reads the Docker values of the config:
    creating the environment, installing or testing. *)
Definition early_failure (w : World) : bool :=
  negb (is_none (w_venv_create w))
  || negb (w_path_exists w (REQUIREMENTS_FILE w))
  || negb (w_os_system w (test_cmd w) =? 0)%Z.

(** The same world with other answers from the webhook. *)
Definition set_post (post : nat -> post_result) (w : World) : World :=
  {| w_environ := w_environ w; w_platform := w_platform w; w_path_join := w_path_join w;
     w_config_read := w_config_read w; w_disk := w_disk w;
     w_venv_create := w_venv_create w; w_path_exists := w_path_exists w;
     w_os_system := w_os_system w; w_from_env_build := w_from_env_build w;
     w_images_build := w_images_build w; w_image_tag := w_image_tag w;
     w_from_env_push := w_from_env_push w; w_login := w_login w;
     w_images_push := w_images_push w; w_open_w := w_open_w w;
     w_write := w_write w; w_close := w_close w;
     w_post := post |}.

(** * The orchestration skeleton

    [main] with every stage function cut down to what the orchestrator
    sees of it: that it was entered and how it ended. *)

Section Skeleton.

Variable w : World.

Definition opt_result (o : option exc) : result unit :=
  match o with Some e => Raise e | None => Ret tt end.

Definition stage {A} (c : event) (r : result A) : M A :=
  fun st => (r, add_event c st).

Definition install_result (requirements_file : string) : result unit :=
  if w_path_exists w requirements_file then Ret tt
  else Raise (FileNotFoundError
                ("Requirements file " +:+ requirements_file +:+ " not found.")).

Definition tests_result (venv_python test_dir : string) : result unit :=
  if negb (w_os_system w (venv_python +:+ " -m unittest discover " +:+ test_dir) =? 0)%Z
  then Raise (NameError "subprocess") else Ret tt.

Definition build_result : result string :=
  match w_from_env_build w with
  | Some e => Raise e
  | None =>
      match w_images_build w with
      | inl e => Raise e
      | inr (image, _) => Ret image
      end
  end.

Definition push_result : result unit :=
  match w_from_env_push w with
  | Some e => Raise e
  | None =>
      match w_login w with
      | Some e => Raise e
      | None => opt_result (snd (w_images_push w))
      end
  end.

Definition load_config_skeleton (config_file : string) : M unit :=
  emit (Call_load_config config_file) ;;
  match w_config_read w with
  | inl e => raise e
  | inr c => fun st => (Ret tt, with_config c st)
  end.

Definition pipeline_skeleton : M unit :=
  stage (Call_create_venv (VENV_NAME w)) (opt_result (w_venv_create w)) ;;
  let venv_python := get_venv_python w (VENV_NAME w) in
  stage (Call_install_dependencies venv_python (REQUIREMENTS_FILE w))
        (install_result (REQUIREMENTS_FILE w)) ;;
  stage (Call_run_tests venv_python (TEST_DIR w))
        (tests_result venv_python (TEST_DIR w)) ;;
  image_name <- config_getitem "Docker" "ImageName" ;;
  repository <- config_getitem "Docker" "Repository" ;;
  store_repository repository ;;
  version <- config_getitem "Docker" "Version" ;;
  let new_tag := "v" +:+ version in
  image <- stage (Call_build_docker_image image_name (DOCKERFILE w) (BUILD_CONTEXT w))
                 build_result ;;
  stage (Call_tag_docker_image image repository new_tag) (opt_result (w_image_tag w)) ;;
  stage (Call_push_docker_image repository new_tag (DOCKER_USERNAME w) (DOCKER_PASSWORD w))
        push_result ;;
  config_setitem "Docker" "Tag" new_tag ;;
  with_open_w w (CONFIG_FILE w) (config_write_file w) ;;
  stage (Call_send_slack_notification msg_success) (Ret tt).

Definition on_failure_skeleton (previous_tag : string) (e : exc) : M unit :=
  stage (Call_send_slack_notification (msg_failed e)) (Ret tt) ;;
  try_except is_Exception
    (repository <- load_repository ;;
     stage (Call_rollback_deployment repository previous_tag) (Ret tt) ;;
     stage (Call_send_slack_notification (msg_rolled_back previous_tag)) (Ret tt))
    (fun rollback_error =>
       stage (Call_send_slack_notification (msg_rollback_failed rollback_error))
             (Ret tt)) ;;
  sys_exit 1.

Definition main_skeleton : M unit :=
  load_config_skeleton (CONFIG_FILE w) ;;
  previous_tag <- config_getitem "Docker" "Tag" ;;
  try_except is_Exception pipeline_skeleton (on_failure_skeleton previous_tag).

End Skeleton.

(** The file and the file object of a state. *)
Definition file_of (st : state) : string * list file_op * string * nat :=
  (st_disk st, st_disk_ops st, st_buffer st, st_writes st).

(** Two states the orchestrator cannot tell apart. *)
Definition same_view (st st' : state) : Prop :=
  st_config st = st_config st' /\ file_of st = file_of st'
  /\ st_repository st = st_repository st'
  /\ observe (st_trace st) = observe (st_trace st').

(** Two computations that end the same way from states that look the same. *)
Definition eqv {A} (m m' : M A) : Prop :=
  forall st st', same_view st st' ->
    fst (m st) = fst (m' st') /\ same_view (snd (m st)) (snd (m' st')).

Definition extend (evs : list event) (st : state) : state :=
  {| st_config := st_config st; st_disk := st_disk st; st_disk_ops := st_disk_ops st;
     st_buffer := st_buffer st; st_writes := st_writes st;
     st_repository := st_repository st; st_posts := st_posts st;
     st_trace := st_trace st ++ evs |}.

(** A computation that only adds events, the visible ones being [cs],
    and ends with [r]. *)
Definition enters {A} (cs : list event) (r : result A) (m : M A) : Prop :=
  forall st, exists evs n,
    m st = (r, with_posts n (extend evs st)) /\ observe evs = cs.

Definition run_skeleton (w : World) : result unit * state :=
  main_skeleton w (init_state w).


(** * More observations *)

(** The HTTP posts of a run: URL and text, in order. *)
Definition posts (t : list event) : list (string * string) :=
  flat_map (fun e => match e with HttpPost url text => [(url, text)] | _ => [] end) t.

(** The commands handed to [os.system], in order. *)
Definition shell_commands (t : list event) : list string :=
  flat_map (fun e => match e with OsSystem cmd => [cmd] | _ => [] end) t.

(** Some call went to the Docker client. *)
Definition is_docker_call (e : event) : bool :=
  match e with
  | DockerFromEnv | ImagesBuild _ _ _ | ImageTag _ _ _ | Login _ _ | ImagesPush _ _ => true
  | _ => false
  end.

Definition docker_contacted (t : list event) : bool := existsb is_docker_call t.

Definition build_entered (t : list event) : bool :=
  existsb (fun e => match e with Call_build_docker_image _ _ _ => true | _ => false end) t.

Definition tag_entered (t : list event) : bool :=
  existsb (fun e => match e with Call_tag_docker_image _ _ _ => true | _ => false end) t.

Definition push_entered (t : list event) : bool :=
  existsb (fun e => match e with Call_push_docker_image _ _ _ _ => true | _ => false end) t.

(** One of the three Docker stages was entered. *)
Definition docker_stage_entered (t : list event) : bool :=
  build_entered t || tag_entered t || push_entered t.

(** The config file was opened for writing. *)
Definition opened_for_writing (t : list event) : list string :=
  flat_map (fun e => match e with OpenW path => [path] | _ => [] end) t.

Definition pip_cmd (w : World) : string :=
  get_venv_python w (VENV_NAME w) +:+ " -m pip install -r " +:+ REQUIREMENTS_FILE w.

(** The environment was created, the manifest is there and the tests
    exit with 0. *)
Definition tests_pass (w : World) : bool :=
  is_none (w_venv_create w)
  && w_path_exists w (REQUIREMENTS_FILE w)
  && (w_os_system w (test_cmd w) =? 0)%Z.

(** The lines of a build log that get logged: the stripped ['stream']
    values, in order. *)
Definition streams (logs : list build_log) : list string :=
  flat_map (fun log => match log with Some stream => [strip stream] | None => [] end) logs.

(** The webhook the script posts to, when it posts. *)
Definition webhook (w : World) : option string := truthy (SLACK_WEBHOOK_URL w).

(** A 4xx or 5xx status. *)
Definition is_http_error (code : Z) : bool := (400 <=? code)%Z && (code <? 600)%Z.

Definition http_error_text (code : Z) (reason url : string) : string :=
  str_int code +:+ (if (code <? 500)%Z then " Client Error: " else " Server Error: ")
    +:+ reason +:+ " for url: " +:+ url.

(** A computation keeps a property of the trace. *)
Definition keeps (I : list event -> Prop) {A} (m : M A) : Prop :=
  forall st, I (st_trace st) -> I (st_trace (snd (m st))).

(** Every notification so far went out as one post, in order, to the
    webhook; no post when there is no webhook. *)
Definition posted_once (w : World) (t : list event) : Prop :=
  posts t = match webhook w with
            | Some url => map (fun m => (url, m)) (notifications t)
            | None => []
            end.

(** The Docker client is only called from inside a Docker stage. *)
Definition docker_inside_stage (t : list event) : Prop :=
  docker_contacted t = true -> docker_stage_entered t = true.

(** The only shell commands are pip, with the manifest present, and the
    test run. *)
Definition allowed_command (w : World) (cmd : string) : Prop :=
  (cmd = pip_cmd w /\ w_path_exists w (REQUIREMENTS_FILE w) = true) \/ cmd = test_cmd w.

Definition commands_allowed (w : World) (t : list event) : Prop :=
  forall cmd, In cmd (shell_commands t) -> allowed_command w cmd.

(** The config was read and holds the four keys [main] reads. *)
Definition config_complete (w : World) : bool :=
  match w_config_read w with
  | inl _ => false
  | inr c =>
      is_inr (cfg_getitem c "Docker" "Tag")
      && is_inr (cfg_getitem c "Docker" "ImageName")
      && is_inr (cfg_getitem c "Docker" "Repository")
      && is_inr (cfg_getitem c "Docker" "Version")
  end.

(** The Docker client was reached and built the image. *)
Definition built (w : World) : bool :=
  is_none (w_from_env_build w) && is_inr (w_images_build w).

(** The Docker client was reached, took the login and pushed to the end. *)
Definition pushed (w : World) : bool :=
  is_none (w_from_env_push w) && is_none (w_login w) && is_none (snd (w_images_push w)).

(** What is neither a log line, a post, a notification nor a rollback:
    the forward work of the pipeline. *)
Definition is_forward (e : event) : bool :=
  match e with
  | Log _ _ | HttpPost _ _ | Call_send_slack_notification _
  | Call_rollback_deployment _ _ => false
  | _ => true
  end.

Definition forward_events (t : list event) : list event := List.filter is_forward t.

(** The credentials every login of the trace was made with are the ones
    of the environment. *)
Definition logins_from_environ (w : World) (t : list event) : Prop :=
  forall username password,
    In (Login username password) t ->
    username = w_environ w !! "DOCKER_USERNAME"
    /\ password = w_environ w !! "DOCKER_PASSWORD".

(** * The file after a crash *)

(** The text of the config file when the process dies after [k] of the
    operations the run performs on it and, when the next one appends,
    after [m] characters of what it appends. *)
Definition crash_disk (w : World) (k m : nat) : string :=
  let ops := run_disk_ops w in
  disk_after (firstn k ops) (w_disk w)
    +:+ match nth_error ops k with
        | Some (Append text) => str_take m text
        | _ => EmptyString
        end.


(** Every stage up to and including the push returns without raising. *)
Definition published (w : World) : bool :=
  tests_pass w && config_complete w && built w && is_none (w_image_tag w) && pushed w.

(** * The persist step, as a whole *)

(** The state after [with open(path, 'w') as fp: config.write(fp)] got
    the file open: [j] calls of [fp.write] were made, [pieces] went to
    the disk one after the other, and the file object is gone. *)
Definition persist_state (path : string) (j : nat) (pieces : list string) (st : state)
  : state :=
  {| st_config := st_config st;
     st_disk := file_text pieces;
     st_disk_ops := (st_disk_ops st ++ Truncate :: map Append pieces)%list;
     st_buffer := EmptyString;
     st_writes := st_writes st + j;
     st_repository := st_repository st;
     st_posts := st_posts st;
     st_trace := (st_trace st ++ OpenW path
                    :: map FpWrite (firstn j (config_write (st_config st)))
                    ++ [FpClose])%list |}.

(** The three ways the persist step can go: the file does not open; it
    opens, takes every write and closes; it opens and a write or the
    closing fails, leaving a part of the new text. *)
Inductive persisted (w : World) (path : string) (st : state)
  : result unit -> state -> Prop :=
| persist_unopened (e : exc) :
    w_open_w w = Some e ->
    persisted w path st (Raise e) (add_event (OpenW path) st)
| persist_done (pieces : list string) :
    w_open_w w = None ->
    writes_accepted w (st_writes st) (length (config_write (st_config st))) = true ->
    w_close w = Closed ->
    file_text pieces = file_text (config_write (st_config st)) ->
    persisted w path st (Ret tt)
      (persist_state path (length (config_write (st_config st))) pieces st)
| persist_broken (e : exc) (j : nat) (pieces : list string) :
    w_open_w w = None ->
    writes_accepted w (st_writes st) (length (config_write (st_config st)))
      && is_closed (w_close w) = false ->
    starts_with (file_text pieces) (file_text (config_write (st_config st))) = true ->
    persisted w path st (Raise e) (persist_state path j pieces st).

(** The five ways a run can end, with what each leaves behind. *)
Inductive shape (w : World) (r : result unit) (st : state) : Prop :=
| shape_uncaught (e : exc) :
    r = Raise e ->
    (w_config_read w = inl e
     \/ exists c, w_config_read w = inr c /\ cfg_getitem c "Docker" "Tag" = inl e) ->
    stages_succeed w = false ->
    st_disk st = w_disk w ->
    notifications (st_trace st) = [] ->
    rollbacks (st_trace st) = [] ->
    writes (st_trace st) = [] ->
    test_stage_entered (st_trace st) = false ->
    stage_entered (st_trace st) = false ->
    st_repository st = None ->
    st_disk_ops st = [] ->
    shape w r st
| shape_success (c c' : Config) (prev repository version : string) :
    r = Ret tt ->
    w_config_read w = inr c ->
    cfg_getitem c "Docker" "Tag" = inr prev ->
    cfg_getitem c "Docker" "Repository" = inr repository ->
    cfg_getitem c "Docker" "Version" = inr version ->
    cfg_setitem c "Docker" "Tag" ("v" +:+ version) = inr c' ->
    stages_succeed w = true ->
    early_failure w = false ->
    st_disk st = file_text (config_write c') ->
    st_config st = c' ->
    notifications (st_trace st) = [msg_success] ->
    rollbacks (st_trace st) = [] ->
    writes (st_trace st) = config_write c' ->
    test_stage_entered (st_trace st) = true ->
    st_repository st = Some repository ->
    (exists pieces,
        st_disk_ops st = Truncate :: map Append pieces
        /\ file_text pieces = file_text (config_write c')) ->
    published w = true ->
    shape w r st
| shape_rollback_failed (c : Config) (prev : string) (e : exc) :
    r = Exit 1 ->
    w_config_read w = inr c ->
    cfg_getitem c "Docker" "Tag" = inr prev ->
    stages_succeed w = false ->
    st_disk st = w_disk w ->
    notifications (st_trace st)
      = [msg_failed e; msg_rollback_failed (UnboundLocalError "repository")] ->
    rollbacks (st_trace st) = [] ->
    writes (st_trace st) = [] ->
    test_stage_entered (st_trace st)
      = is_none (w_venv_create w) && w_path_exists w (REQUIREMENTS_FILE w) ->
    st_repository st = None ->
    st_disk_ops st = [] ->
    shape w r st
| shape_rolled_back (c : Config) (prev repository : string) (e : exc) :
    r = Exit 1 ->
    w_config_read w = inr c ->
    cfg_getitem c "Docker" "Tag" = inr prev ->
    cfg_getitem c "Docker" "Repository" = inr repository ->
    stages_succeed w = false ->
    early_failure w = false ->
    st_disk st = w_disk w ->
    notifications (st_trace st) = [msg_failed e; msg_rolled_back prev] ->
    rollbacks (st_trace st) = [(repository, prev)] ->
    writes (st_trace st) = [] ->
    test_stage_entered (st_trace st) = true ->
    st_repository st = Some repository ->
    st_disk_ops st = [] ->
    shape w r st
| shape_persist_failed (c c' : Config) (prev repository version : string) (e : exc) :
    r = Exit 1 ->
    w_config_read w = inr c ->
    cfg_getitem c "Docker" "Tag" = inr prev ->
    cfg_getitem c "Docker" "Repository" = inr repository ->
    cfg_getitem c "Docker" "Version" = inr version ->
    cfg_setitem c "Docker" "Tag" ("v" +:+ version) = inr c' ->
    stages_succeed w = false ->
    early_failure w = false ->
    w_open_w w = None ->
    st_config st = c' ->
    notifications (st_trace st) = [msg_failed e; msg_rolled_back prev] ->
    rollbacks (st_trace st) = [(repository, prev)] ->
    (exists j, writes (st_trace st) = firstn j (config_write c')) ->
    test_stage_entered (st_trace st) = true ->
    st_repository st = Some repository ->
    (exists pieces,
        st_disk_ops st = Truncate :: map Append pieces
        /\ st_disk st = file_text pieces
        /\ starts_with (file_text pieces) (file_text (config_write c')) = true) ->
    published w = true ->
    shape w r st.

(** * Sample worlds *)

Module Samples.

Definition docker_section : Options :=
  [("imagename", "app"); ("repository", "acme/app"); ("tag", "v1.0"); ("version", "2.0")].

Definition config0 : Config := mkConfig [] [("Docker", docker_section)].

Definition posix_join (parts : list string) : string := String.concat "/" parts.

(** Everything succeeds; no webhook is configured. *)
Definition all_good : World :=
  {| w_environ := ∅;
     w_platform := "linux";
     w_path_join := posix_join;
     w_config_read := inr config0;
     w_disk := file_text (config_write config0);
     w_venv_create := None;
     w_path_exists := fun _ => true;
     w_os_system := fun _ => 0%Z;
     w_from_env_build := None;
     w_images_build := inr ("sha256:1f2e", [Some "Step 1/2 : FROM python "; None]);
     w_image_tag := None;
     w_from_env_push := None;
     w_login := None;
     w_images_push := (["{'status': 'Pushed'}"], None);
     w_open_w := None;
     w_write := fun _ => Accepted 0;
     w_close := Closed;
     w_post := fun _ => Response 200 "OK" |}.

Definition set_environ (env : gmap string string) (w : World) : World :=
  {| w_environ := env; w_platform := w_platform w; w_path_join := w_path_join w;
     w_config_read := w_config_read w; w_disk := w_disk w;
     w_venv_create := w_venv_create w; w_path_exists := w_path_exists w;
     w_os_system := w_os_system w; w_from_env_build := w_from_env_build w;
     w_images_build := w_images_build w; w_image_tag := w_image_tag w;
     w_from_env_push := w_from_env_push w; w_login := w_login w;
     w_images_push := w_images_push w; w_open_w := w_open_w w;
     w_write := w_write w; w_close := w_close w;
     w_post := w_post w |}.

Definition set_path_exists (f : string -> bool) (w : World) : World :=
  {| w_environ := w_environ w; w_platform := w_platform w; w_path_join := w_path_join w;
     w_config_read := w_config_read w; w_disk := w_disk w;
     w_venv_create := w_venv_create w; w_path_exists := f;
     w_os_system := w_os_system w; w_from_env_build := w_from_env_build w;
     w_images_build := w_images_build w; w_image_tag := w_image_tag w;
     w_from_env_push := w_from_env_push w; w_login := w_login w;
     w_images_push := w_images_push w; w_open_w := w_open_w w;
     w_write := w_write w; w_close := w_close w;
     w_post := w_post w |}.

Definition set_os_system (f : string -> Z) (w : World) : World :=
  {| w_environ := w_environ w; w_platform := w_platform w; w_path_join := w_path_join w;
     w_config_read := w_config_read w; w_disk := w_disk w;
     w_venv_create := w_venv_create w; w_path_exists := w_path_exists w;
     w_os_system := f; w_from_env_build := w_from_env_build w;
     w_images_build := w_images_build w; w_image_tag := w_image_tag w;
     w_from_env_push := w_from_env_push w; w_login := w_login w;
     w_images_push := w_images_push w; w_open_w := w_open_w w;
     w_write := w_write w; w_close := w_close w;
     w_post := w_post w |}.

Definition set_images_build (b : exc + (string * list build_log)) (w : World) : World :=
  {| w_environ := w_environ w; w_platform := w_platform w; w_path_join := w_path_join w;
     w_config_read := w_config_read w; w_disk := w_disk w;
     w_venv_create := w_venv_create w; w_path_exists := w_path_exists w;
     w_os_system := w_os_system w; w_from_env_build := w_from_env_build w;
     w_images_build := b; w_image_tag := w_image_tag w;
     w_from_env_push := w_from_env_push w; w_login := w_login w;
     w_images_push := w_images_push w; w_open_w := w_open_w w;
     w_write := w_write w; w_close := w_close w;
     w_post := w_post w |}.

Definition set_images_push (p : list string * option exc) (w : World) : World :=
  {| w_environ := w_environ w; w_platform := w_platform w; w_path_join := w_path_join w;
     w_config_read := w_config_read w; w_disk := w_disk w;
     w_venv_create := w_venv_create w; w_path_exists := w_path_exists w;
     w_os_system := w_os_system w; w_from_env_build := w_from_env_build w;
     w_images_build := w_images_build w; w_image_tag := w_image_tag w;
     w_from_env_push := w_from_env_push w; w_login := w_login w;
     w_images_push := p; w_open_w := w_open_w w;
     w_write := w_write w; w_close := w_close w;
     w_post := w_post w |}.

Definition set_open_w (o : option exc) (w : World) : World :=
  {| w_environ := w_environ w; w_platform := w_platform w; w_path_join := w_path_join w;
     w_config_read := w_config_read w; w_disk := w_disk w;
     w_venv_create := w_venv_create w; w_path_exists := w_path_exists w;
     w_os_system := w_os_system w; w_from_env_build := w_from_env_build w;
     w_images_build := w_images_build w; w_image_tag := w_image_tag w;
     w_from_env_push := w_from_env_push w; w_login := w_login w;
     w_images_push := w_images_push w; w_open_w := o;
     w_write := w_write w; w_close := w_close w;
     w_post := w_post w |}.

(** The requirements file is missing. *)
Definition no_manifest : World := set_path_exists (fun _ => false) all_good.

(** pip exits with status 1 ([os.system] returns 256); all else succeeds. *)
Definition pip_fails : World :=
  set_os_system
    (fun cmd => if String.eqb cmd "venv/bin/python -m pip install -r requirements.txt"
                then 256%Z else 0%Z)
    all_good.

(** The test suite fails. *)
Definition tests_fail : World :=
  set_os_system
    (fun cmd => if String.eqb cmd "venv/bin/python -m unittest discover tests"
                then 256%Z else 0%Z)
    all_good.

(** The image build fails. *)
Definition build_fails : World :=
  set_images_build (inl (BuildError "The command returned a non-zero code: 1")) all_good.

(** The push is rejected after the image was tagged. *)
Definition push_fails : World :=
  set_images_push ([], Some (APIError "unauthorized: authentication required")) all_good.

(** The virtual environment cannot be created. *)
Definition venv_fails : World :=
  {| w_environ := w_environ all_good; w_platform := w_platform all_good;
     w_path_join := w_path_join all_good;
     w_config_read := w_config_read all_good; w_disk := w_disk all_good;
     w_venv_create := Some (OSError "[Errno 28] No space left on device");
     w_path_exists := w_path_exists all_good;
     w_os_system := w_os_system all_good; w_from_env_build := w_from_env_build all_good;
     w_images_build := w_images_build all_good; w_image_tag := w_image_tag all_good;
     w_from_env_push := w_from_env_push all_good; w_login := w_login all_good;
     w_images_push := w_images_push all_good; w_open_w := w_open_w all_good;
     w_write := w_write all_good; w_close := w_close all_good;
     w_post := w_post all_good |}.

(** The config file cannot be opened for writing. *)
Definition open_fails : World :=
  set_open_w (Some (OSError "[Errno 13] Permission denied: 'config.ini'")) all_good.

(** A webhook is configured and unreachable. *)
Definition webhook_down (w : World) : World :=
  set_post (fun _ => PostRaises "Connection refused")
    (set_environ {[ "SLACK_WEBHOOK_URL" := "https://hooks.example/T0" ]} w).

Definition set_config_read (c : exc + Config) (w : World) : World :=
  {| w_environ := w_environ w; w_platform := w_platform w; w_path_join := w_path_join w;
     w_config_read := c; w_disk := w_disk w;
     w_venv_create := w_venv_create w; w_path_exists := w_path_exists w;
     w_os_system := w_os_system w; w_from_env_build := w_from_env_build w;
     w_images_build := w_images_build w; w_image_tag := w_image_tag w;
     w_from_env_push := w_from_env_push w; w_login := w_login w;
     w_images_push := w_images_push w; w_open_w := w_open_w w;
     w_write := w_write w; w_close := w_close w;
     w_post := w_post w |}.

Definition set_login (o : option exc) (w : World) : World :=
  {| w_environ := w_environ w; w_platform := w_platform w; w_path_join := w_path_join w;
     w_config_read := w_config_read w; w_disk := w_disk w;
     w_venv_create := w_venv_create w; w_path_exists := w_path_exists w;
     w_os_system := w_os_system w; w_from_env_build := w_from_env_build w;
     w_images_build := w_images_build w; w_image_tag := w_image_tag w;
     w_from_env_push := w_from_env_push w; w_login := o;
     w_images_push := w_images_push w; w_open_w := w_open_w w;
     w_write := w_write w; w_close := w_close w;
     w_post := w_post w |}.

(** The config file does not exist: [config.read] leaves the parser empty. *)
Definition missing_config : World := set_config_read (inr (mkConfig [] [])) all_good.

(** The config has no [ImageName]. *)
Definition no_image_name : World :=
  set_config_read
    (inr (mkConfig [] [("Docker", [("repository", "acme/app"); ("tag", "v1.0");
                                   ("version", "2.0")])]))
    all_good.

(** The config has no [Version]. *)
Definition no_version : World :=
  set_config_read
    (inr (mkConfig [] [("Docker", [("imagename", "app"); ("repository", "acme/app");
                                   ("tag", "v1.0")])]))
    all_good.

(** The registry refuses the login. *)
Definition login_fails : World :=
  set_login (Some (APIError "401 Client Error: Unauthorized")) all_good.

(** The push breaks off after two lines. *)
Definition push_breaks_off : World :=
  set_images_push (["{'status': 'Preparing'}"; "{'status': 'Pushing'}"],
                   Some (OtherError "ConnectionError" "Connection aborted."))
    all_good.

(** A webhook is configured and answers with the given status. *)
Definition webhook_answers (code : Z) (reason : string) (w : World) : World :=
  set_post (fun _ => Response code reason)
    (set_environ {[ "SLACK_WEBHOOK_URL" := "https://hooks.example/T0" ]} w).

(** [SLACK_WEBHOOK_URL] is set to the empty string. *)
Definition empty_webhook (w : World) : World :=
  set_environ {[ "SLACK_WEBHOOK_URL" := "" ]} w.

Definition set_write (f : nat -> write_outcome) (o : close_outcome) (w : World) : World :=
  {| w_environ := w_environ w; w_platform := w_platform w; w_path_join := w_path_join w;
     w_config_read := w_config_read w; w_disk := w_disk w;
     w_venv_create := w_venv_create w; w_path_exists := w_path_exists w;
     w_os_system := w_os_system w; w_from_env_build := w_from_env_build w;
     w_images_build := w_images_build w; w_image_tag := w_image_tag w;
     w_from_env_push := w_from_env_push w; w_login := w_login w;
     w_images_push := w_images_push w; w_open_w := w_open_w w;
     w_write := f; w_close := o;
     w_post := w_post w |}.


(** The third write breaks off after the first ten characters buffered
    so far went to the disk. *)
Definition write_breaks_off : World :=
  set_write (fun k => if (k =? 2)%nat
                      then FlushFailed 10 (OSError "[Errno 5] Input/output error")
                      else Accepted 0)
    Closed all_good.


(** [Version] holds an escaped percent sign: the tag made of it is not
    one the parser accepts. *)
Definition percent_version : World :=
  set_config_read
    (inr (mkConfig [] [("Docker", [("imagename", "app"); ("repository", "acme/app");
                                   ("tag", "v1.0"); ("version", "2.0%%rc1")])]))
    all_good.

End Samples.

(** * Proofs: strings and files *)

Local Open Scope list_scope.

Lemma append_cons (a : ascii) (s t : string) : String a s +:+ t = String a (s +:+ t).
Proof. reflexivity. Qed.

Lemma append_nil_r (s : string) : s +:+ "" = s.
Proof.
  induction s as [|a s IH]; [reflexivity|]. rewrite append_cons. congruence.
Qed.

Lemma append_assoc (s t u : string) : (s +:+ t) +:+ u = s +:+ (t +:+ u).
Proof.
  induction s as [|a s IH]; [reflexivity|]. rewrite !append_cons. congruence.
Qed.

Lemma str_take_drop (n : nat) (s : string) : str_take n s +:+ str_drop n s = s.
Proof.
  revert s. induction n as [|n IH]; intros [|a s]; try reflexivity.
  simpl. rewrite append_cons. now rewrite IH.
Qed.

Lemma str_take_all (s : string) : str_take (String.length s) s = s.
Proof. induction s as [|a s IH]; simpl; congruence. Qed.

Lemma str_drop_all (s : string) : str_drop (String.length s) s = "".
Proof. induction s as [|a s IH]; simpl; congruence. Qed.


Lemma starts_with_append (p rest : string) : starts_with p (p +:+ rest) = true.
Proof.
  induction p as [|a p IH]; [reflexivity|]. rewrite append_cons. simpl.
  now rewrite Ascii.eqb_refl.
Qed.

Lemma starts_with_split (p s : string) :
  starts_with p s = true -> exists rest, s = p +:+ rest.
Proof.
  revert s. induction p as [|a p IH]; intros s H.
  - now exists s.
  - destruct s as [|b s]; [discriminate|]. simpl in H.
    apply andb_true_iff in H as [Hab Hp]. apply Ascii.eqb_eq in Hab. subst b.
    destruct (IH s Hp) as [rest ->]. now exists rest.
Qed.

Lemma starts_with_trans (p q s : string) :
  starts_with p q = true -> starts_with q s = true -> starts_with p s = true.
Proof.
  intros Hpq Hqs.
  destruct (starts_with_split _ _ Hpq) as [r1 ->].
  destruct (starts_with_split _ _ Hqs) as [r2 ->].
  rewrite append_assoc. apply starts_with_append.
Qed.

Lemma file_text_cons (chunk : string) (chunks : list string) :
  file_text (chunk :: chunks) = chunk +:+ file_text chunks.
Proof. reflexivity. Qed.

Lemma file_text_app (l l' : list string) :
  file_text (l ++ l') = file_text l +:+ file_text l'.
Proof.
  induction l as [|c l IH]; [reflexivity|].
  simpl app. rewrite !file_text_cons, IH. now rewrite append_assoc.
Qed.

Lemma file_text_firstn (i : nat) (chunks : list string) :
  starts_with (file_text (firstn i chunks)) (file_text chunks) = true.
Proof.
  rewrite <- (firstn_skipn i chunks) at 2. rewrite file_text_app.
  apply starts_with_append.
Qed.

Lemma disk_after_appends (chunks : list string) (text : string) :
  disk_after (map Append chunks) text = text +:+ file_text chunks.
Proof.
  unfold disk_after. revert text.
  induction chunks as [|c l IH]; intros text; simpl.
  - now rewrite append_nil_r.
  - rewrite IH. apply append_assoc.
Qed.

(** The file after it was opened for writing and [pieces] were flushed. *)
Lemma disk_after_truncate (pieces : list string) (old : string) :
  disk_after (Truncate :: map Append pieces) old = file_text pieces.
Proof.
  change (disk_after (Truncate :: map Append pieces) old)
    with (disk_after (map Append pieces) "").
  now rewrite disk_after_appends.
Qed.

Lemma classify_success : classify msg_success = Some Success.
Proof. reflexivity. Qed.

Lemma classify_rolled_back (previous_tag : string) :
  classify (msg_rolled_back previous_tag) = Some RolledBack.
Proof. reflexivity. Qed.

Lemma classify_rollback_failed (e : exc) :
  classify (msg_rollback_failed e) = Some RollbackFailed.
Proof. reflexivity. Qed.





Lemma cfg_lookup_getitem (c : Config) (section key value : string) :
  cfg_getitem c section key = inr value -> cfg_lookup c section key = Some value.
Proof. unfold cfg_lookup. now intros ->. Qed.

(** ** What an assignment does to the parser *)










(** * Proofs: traces and views *)

Lemma observe_app (t t' : list event) : observe (t ++ t') = observe t ++ observe t'.
Proof. unfold observe. apply List.filter_app. Qed.

Lemma notifications_observe (t : list event) : notifications (observe t) = notifications t.
Proof.
  unfold observe. induction t as [|e t IH]; simpl; [reflexivity|].
  destruct e; simpl; rewrite ?IH; reflexivity.
Qed.

Lemma rollbacks_observe (t : list event) : rollbacks (observe t) = rollbacks t.
Proof.
  unfold observe. induction t as [|e t IH]; simpl; [reflexivity|].
  destruct e; simpl; rewrite ?IH; reflexivity.
Qed.

Lemma writes_observe (t : list event) : writes (observe t) = writes t.
Proof.
  unfold observe. induction t as [|e t IH]; simpl; [reflexivity|].
  destruct e; simpl; rewrite ?IH; reflexivity.
Qed.

Lemma test_stage_entered_observe (t : list event) :
  test_stage_entered (observe t) = test_stage_entered t.
Proof.
  unfold observe. induction t as [|e t IH]; simpl; [reflexivity|].
  destruct e; simpl; rewrite ?IH; reflexivity.
Qed.

Lemma stage_entered_observe (t : list event) :
  stage_entered (observe t) = stage_entered t.
Proof.
  unfold observe. induction t as [|e t IH]; simpl; [reflexivity|].
  destruct e; simpl; rewrite ?IH; reflexivity.
Qed.

Lemma observe_writes (chunks : list string) :
  observe (map FpWrite chunks) = map FpWrite chunks.
Proof. unfold observe. induction chunks as [|c l IH]; simpl; [reflexivity|]. now rewrite IH. Qed.

Lemma same_view_refl (st : state) : same_view st st.
Proof. repeat split. Qed.

Lemma same_view_extend (evs evs' : list event) (n n' : nat) (st st' : state) :
  same_view st st' -> observe evs = observe evs' ->
  same_view (with_posts n (extend evs st)) (with_posts n' (extend evs' st')).
Proof.
  intros (Hc & Hd & Hr & Ht) He. repeat split; simpl; try assumption.
  rewrite !observe_app. congruence.
Qed.

(** * Proofs: the monad *)

Lemma eqv_ret {A} (a : A) : eqv (ret a) (ret a).
Proof. intros st st' H. split; [reflexivity | exact H]. Qed.

Lemma eqv_raise {A} (e : exc) : eqv (@raise A e) (raise e).
Proof. intros st st' H. split; [reflexivity | exact H]. Qed.

Lemma eqv_sys_exit {A} (code : Z) : eqv (@sys_exit A code) (sys_exit code).
Proof. intros st st' H. split; [reflexivity | exact H]. Qed.

Lemma eqv_bind {A B} (m m' : M A) (k k' : A -> M B) :
  eqv m m' -> (forall a, eqv (k a) (k' a)) -> eqv (bind m k) (bind m' k').
Proof.
  intros Hm Hk st st' H. unfold bind.
  destruct (Hm st st' H) as [Hr Hs].
  destruct (m st) as [r s], (m' st') as [r' s']. simpl in Hr, Hs. subst r'.
  destruct r as [a|e|c]; simpl; [apply Hk; exact Hs | split; [reflexivity | exact Hs] ..].
Qed.

Lemma eqv_try_except {A} (catches : exc -> bool) (m m' : M A) (h h' : exc -> M A) :
  eqv m m' -> (forall e, eqv (h e) (h' e)) ->
  eqv (try_except catches m h) (try_except catches m' h').
Proof.
  intros Hm Hh st st' H. unfold try_except.
  destruct (Hm st st' H) as [Hr Hs].
  destruct (m st) as [r s], (m' st') as [r' s']. simpl in Hr, Hs. subst r'.
  destruct r as [a|e|c]; simpl; try (split; [reflexivity | exact Hs]).
  destruct (catches e); [apply Hh; exact Hs | split; [reflexivity | exact Hs]].
Qed.

Lemma eqv_emit (e : event) : eqv (emit e) (emit e).
Proof.
  intros st st' (Hc & Hd & Hr & Ht). split; [reflexivity|].
  repeat split; simpl; try assumption. rewrite !observe_app. congruence.
Qed.

Lemma enters_eqv {A} (c : event) (r : result A) (m : M A) :
  visible c = true -> enters [c] r m -> eqv m (stage c r).
Proof.
  intros Hc Hm st st' H. destruct (Hm st) as (evs & n & -> & Hobs). unfold stage. simpl.
  split; [reflexivity|].
  change (add_event c st') with (with_posts (st_posts st') (extend [c] st')).
  apply same_view_extend; [exact H | rewrite Hobs; simpl; now rewrite Hc].
Qed.

(** * Proofs: what a stage function shows of itself *)

Lemma extend_extend (evs evs' : list event) (n n' : nat) (st : state) :
  with_posts n' (extend evs' (with_posts n (extend evs st)))
  = with_posts n' (extend (evs ++ evs') st).
Proof. unfold with_posts, extend. simpl. now rewrite app_assoc. Qed.

Lemma enters_weaken {A} (cs cs' : list event) (r : result A) (m : M A) :
  enters cs r m -> cs = cs' -> enters cs' r m.
Proof. now intros H <-. Qed.

Lemma enters_ret {A} (a : A) : enters [] (Ret a) (ret a).
Proof.
  intros st. exists [], (st_posts st). split; [|reflexivity].
  unfold ret, with_posts, extend. simpl. rewrite app_nil_r. now destruct st.
Qed.

Lemma enters_raise {A} (e : exc) : enters [] (Raise e) (@raise A e).
Proof.
  intros st. exists [], (st_posts st). split; [|reflexivity].
  unfold raise, with_posts, extend. simpl. rewrite app_nil_r. now destruct st.
Qed.

Lemma enters_emit (e : event) : enters (observe [e]) (Ret tt) (emit e).
Proof. intros st. exists [e], (st_posts st). split; reflexivity. Qed.

Lemma enters_bind {A B} (cs cs' : list event) (a : A) (r : result B)
      (m : M A) (k : A -> M B) :
  enters cs (Ret a) m -> enters cs' r (k a) -> enters (cs ++ cs') r (bind m k).
Proof.
  intros Hm Hk st. destruct (Hm st) as (evs & n & Em & Hobs).
  destruct (Hk (with_posts n (extend evs st))) as (evs' & n' & Ek & Hobs').
  exists (evs ++ evs'), n'. unfold bind. rewrite Em, Ek, extend_extend.
  split; [reflexivity|]. rewrite observe_app. congruence.
Qed.

Lemma enters_bind_raise {A B} (cs : list event) (e : exc) (m : M A) (k : A -> M B) :
  enters cs (Raise e) m -> enters cs (Raise e) (bind m k).
Proof.
  intros Hm st. destruct (Hm st) as (evs & n & Em & Hobs).
  exists evs, n. unfold bind. rewrite Em. split; [reflexivity | exact Hobs].
Qed.

Lemma enters_try_ret {A} (catches : exc -> bool) (cs : list event) (a : A)
      (m : M A) (h : exc -> M A) :
  enters cs (Ret a) m -> enters cs (Ret a) (try_except catches m h).
Proof.
  intros Hm st. destruct (Hm st) as (evs & n & Em & Hobs).
  exists evs, n. unfold try_except. rewrite Em. split; [reflexivity | exact Hobs].
Qed.

Lemma enters_try_caught {A} (catches : exc -> bool) (cs cs' : list event) (e : exc)
      (r : result A) (m : M A) (h : exc -> M A) :
  enters cs (Raise e) m -> catches e = true -> enters cs' r (h e) ->
  enters (cs ++ cs') r (try_except catches m h).
Proof.
  intros Hm Hc Hh st. destruct (Hm st) as (evs & n & Em & Hobs).
  destruct (Hh (with_posts n (extend evs st))) as (evs' & n' & Eh & Hobs').
  exists (evs ++ evs'), n'. unfold try_except. rewrite Em, Hc, Eh, extend_extend.
  split; [reflexivity|]. rewrite observe_app. congruence.
Qed.

Lemma enters_try_uncaught {A} (catches : exc -> bool) (cs : list event) (e : exc)
      (m : M A) (h : exc -> M A) :
  enters cs (Raise e) m -> catches e = false ->
  enters cs (Raise e) (try_except catches m h).
Proof.
  intros Hm Hc st. destruct (Hm st) as (evs & n & Em & Hobs).
  exists evs, n. unfold try_except. rewrite Em, Hc. split; [reflexivity | exact Hobs].
Qed.

(** A handler that logs and raises again lets the exception through
    whether or not it catches it. *)
Lemma enters_try_reraise {A} (catches : exc -> bool) (cs : list event) (e : exc)
      (m : M A) (h : exc -> M A) :
  enters cs (Raise e) m -> enters [] (Raise e) (h e) ->
  enters cs (Raise e) (try_except catches m h).
Proof.
  intros Hm Hh. destruct (catches e) eqn:Hc.
  - eapply enters_weaken; [eapply enters_try_caught; eassumption | apply app_nil_r].
  - now apply enters_try_uncaught.
Qed.

Lemma enters_for_each {A} (l : list A) (body : A -> M unit) :
  (forall x, enters [] (Ret tt) (body x)) -> enters [] (Ret tt) (for_each l body).
Proof.
  intros Hb. induction l as [|x l IH]; simpl.
  - apply enters_ret.
  - eapply enters_weaken; [eapply enters_bind; [apply Hb | exact IH] | reflexivity].
Qed.

Lemma enters_log (lvl : level) (msg : string) : enters [] (Ret tt) (emit (Log lvl msg)).
Proof. apply (enters_emit (Log lvl msg)). Qed.

Lemma enters_external_ok (e : event) :
  visible e = false -> enters [] (Ret tt) (external e None).
Proof.
  intros He. unfold external.
  eapply enters_weaken; [eapply enters_bind; [apply enters_emit | apply enters_ret]|].
  simpl. now rewrite He.
Qed.

Lemma enters_external_raise (e : event) (x : exc) :
  visible e = false -> enters [] (Raise x) (external e (Some x)).
Proof.
  intros He. unfold external.
  eapply enters_weaken; [eapply enters_bind; [apply enters_emit | apply enters_raise]|].
  simpl. now rewrite He.
Qed.

(** Steps through a computation made of the pieces above. *)
Ltac enters_steps :=
  repeat first
    [ apply enters_ret
    | apply enters_raise
    | apply enters_log
    | apply enters_external_ok; reflexivity
    | apply enters_external_raise; reflexivity
    | apply enters_emit
    | eapply enters_bind; [ solve [enters_steps] | ]
    | eapply enters_bind_raise; solve [enters_steps] ].

Ltac enters_done := eapply enters_weaken; [ enters_steps | reflexivity ].

Lemma create_venv_enters (w : World) (venv_name : string) :
  enters [Call_create_venv venv_name] (opt_result (w_venv_create w))
         (create_venv w venv_name).
Proof.
  unfold create_venv, logger_info. destruct (w_venv_create w); simpl; enters_done.
Qed.

Lemma install_dependencies_enters (w : World) (venv_python requirements_file : string) :
  enters [Call_install_dependencies venv_python requirements_file]
         (install_result w requirements_file)
         (install_dependencies w venv_python requirements_file).
Proof.
  unfold install_dependencies, install_result, os_path_exists, os_system, logger_info.
  destruct (w_path_exists w requirements_file); simpl.
  - eapply enters_weaken.
    + eapply enters_bind; [apply enters_emit|].
      eapply enters_bind; [eapply enters_bind; [apply enters_emit | apply enters_ret]|].
      simpl. enters_steps.
    + reflexivity.
  - eapply enters_weaken.
    + eapply enters_bind; [apply enters_emit|].
      eapply enters_bind; [eapply enters_bind; [apply enters_emit | apply enters_ret]|].
      simpl. enters_steps.
    + reflexivity.
Qed.

Lemma run_tests_enters (w : World) (venv_python test_dir : string) :
  enters [Call_run_tests venv_python test_dir]
         (tests_result w venv_python test_dir)
         (run_tests w venv_python test_dir).
Proof.
  unfold run_tests, tests_result, os_system, logger_info.
  destruct (negb (w_os_system w (venv_python +:+ " -m unittest discover " +:+ test_dir) =? 0)%Z)
    eqn:Hres.
  - eapply enters_weaken.
    + eapply enters_bind; [apply enters_emit|].
      eapply enters_bind; [apply enters_log|].
      eapply enters_bind; [eapply enters_bind; [apply enters_emit | apply enters_ret]|].
      rewrite Hres. unfold load_global. simpl.
      eapply enters_bind_raise. apply enters_raise.
    + reflexivity.
  - eapply enters_weaken.
    + eapply enters_bind; [apply enters_emit|].
      eapply enters_bind; [apply enters_log|].
      eapply enters_bind; [eapply enters_bind; [apply enters_emit | apply enters_ret]|].
      rewrite Hres. apply enters_ret.
    + reflexivity.
Qed.

Lemma build_docker_image_enters (w : World) (image_name dockerfile_path build_context : string) :
  enters [Call_build_docker_image image_name dockerfile_path build_context]
         (build_result w)
         (build_docker_image w image_name dockerfile_path build_context).
Proof.
  unfold build_docker_image, build_result, logger_info, logger_error.
  destruct (w_from_env_build w) as [e|]; [enters_done|].
  destruct (w_images_build w) as [e|[image build_logs]].
  - eapply enters_weaken.
    + eapply enters_bind; [apply enters_emit|].
      eapply enters_bind; [apply enters_log|].
      eapply enters_bind; [apply enters_external_ok; reflexivity|].
      eapply enters_try_reraise; [enters_steps | enters_done].
    + reflexivity.
  - eapply enters_weaken.
    + eapply enters_bind; [apply enters_emit|].
      eapply enters_bind; [apply enters_log|].
      eapply enters_bind; [apply enters_external_ok; reflexivity|].
      eapply enters_try_ret.
      eapply enters_bind; [apply enters_emit|].
      eapply enters_bind; [|apply enters_ret].
      apply enters_for_each. intros [stream|]; [apply enters_log | apply enters_ret].
    + reflexivity.
Qed.

Lemma tag_docker_image_enters (w : World) (image repository tag : string) :
  enters [Call_tag_docker_image image repository tag]
         (opt_result (w_image_tag w))
         (tag_docker_image w image repository tag).
Proof.
  unfold tag_docker_image, logger_info, logger_error.
  destruct (w_image_tag w) as [e|]; simpl.
  - eapply enters_weaken.
    + eapply enters_bind; [apply enters_emit|].
      eapply enters_bind; [apply enters_log|].
      eapply enters_try_reraise; [enters_steps | enters_done].
    + reflexivity.
  - eapply enters_weaken.
    + eapply enters_bind; [apply enters_emit|].
      eapply enters_bind; [apply enters_log|].
      eapply enters_try_ret. enters_steps.
    + reflexivity.
Qed.

Lemma push_docker_image_enters (w : World) (repository tag : string)
      (username password : option string) :
  enters [Call_push_docker_image repository tag username password]
         (push_result w)
         (push_docker_image w repository tag username password).
Proof.
  unfold push_docker_image, push_result, logger_info, logger_error.
  destruct (w_from_env_push w) as [e|]; [enters_done|].
  destruct (w_login w) as [e|].
  - eapply enters_weaken.
    + eapply enters_bind; [apply enters_emit|].
      eapply enters_bind; [apply enters_log|].
      eapply enters_bind; [apply enters_external_ok; reflexivity|].
      eapply enters_try_reraise; [enters_steps | enters_done].
    + reflexivity.
  - destruct (snd (w_images_push w)) as [e|]; simpl.
    + eapply enters_weaken.
      * eapply enters_bind; [apply enters_emit|].
        eapply enters_bind; [apply enters_log|].
        eapply enters_bind; [apply enters_external_ok; reflexivity|].
        eapply enters_try_reraise; [|enters_done].
        eapply enters_bind; [apply enters_external_ok; reflexivity|].
        eapply enters_bind; [apply enters_emit|].
        eapply enters_bind; [apply enters_for_each; intros line; apply enters_log|].
        apply enters_raise.
      * reflexivity.
    + eapply enters_weaken.
      * eapply enters_bind; [apply enters_emit|].
        eapply enters_bind; [apply enters_log|].
        eapply enters_bind; [apply enters_external_ok; reflexivity|].
        eapply enters_try_ret.
        eapply enters_bind; [apply enters_external_ok; reflexivity|].
        eapply enters_bind; [apply enters_emit|].
        eapply enters_bind; [apply enters_for_each; intros line; apply enters_log|].
        apply enters_ret.
      * reflexivity.
Qed.

Lemma rollback_deployment_enters (repository previous_tag : string) :
  enters [Call_rollback_deployment repository previous_tag] (Ret tt)
         (rollback_deployment repository previous_tag).
Proof.
  unfold rollback_deployment, logger_info.
  eapply enters_weaken.
  - eapply enters_bind; [apply enters_emit|].
    eapply enters_bind; [apply enters_log|].
    apply enters_try_ret, enters_ret.
  - reflexivity.
Qed.

(** [send_slack_notification] returns whatever the webhook does. *)
Lemma send_slack_notification_enters (w : World) (message : string) :
  enters [Call_send_slack_notification message] (Ret tt)
         (send_slack_notification w message).
Proof.
  intros st. unfold send_slack_notification.
  destruct (truthy (SLACK_WEBHOOK_URL w)) as [url|].
  - cbv [bind emit try_except requests_post raise_for_status logger_info logger_error
         raise ret]; simpl.
    destruct (w_post w (st_posts st)) as [code reason|msg]; simpl;
      [destruct ((400 <=? code)%Z && (code <? 500)%Z);
         [|destruct ((500 <=? code)%Z && (code <? 600)%Z)]; simpl|];
      eexists _, (S (st_posts st));
      (split; [unfold add_event, with_posts, extend; simpl;
               rewrite <- !app_assoc; simpl; reflexivity
              | reflexivity]).
  - unfold logger_warning. enters_done.
Qed.

(** * Proofs: [main] and its skeleton *)

Lemma eqv_bind_silent {A} (m0 : M unit) (m m' : M A) :
  enters [] (Ret tt) m0 -> eqv m m' -> eqv (bind m0 (fun _ => m)) m'.
Proof.
  intros H0 Hm st st' H. unfold bind.
  destruct (H0 st) as (evs & n & -> & Hobs).
  apply Hm. destruct H as (Hc & Hd & Hr & Ht).
  repeat split; simpl; try assumption.
  rewrite observe_app, Hobs, app_nil_r. exact Ht.
Qed.

Lemma config_getitem_eqv (section key : string) :
  eqv (config_getitem section key) (config_getitem section key).
Proof.
  intros st st' H. unfold config_getitem. rewrite <- (proj1 H).
  destruct (cfg_getitem (st_config st) section key); simpl;
    (split; [reflexivity | exact H]).
Qed.

Lemma config_setitem_eqv (section key value : string) :
  eqv (config_setitem section key value) (config_setitem section key value).
Proof.
  intros st st' H. unfold config_setitem. rewrite <- (proj1 H).
  destruct H as (Hc & Hd & Hr & Ht).
  destruct (cfg_setitem (st_config st) section key value); simpl;
    (split; [reflexivity | repeat split; assumption]).
Qed.

Lemma store_repository_eqv (r : string) : eqv (store_repository r) (store_repository r).
Proof.
  intros st st' (Hc & Hd & Hr & Ht). split; [reflexivity | repeat split; assumption].
Qed.

Lemma load_repository_eqv : eqv load_repository load_repository.
Proof.
  intros st st' H. unfold load_repository.
  rewrite <- (proj1 (proj2 (proj2 H))).
  destruct (st_repository st); simpl; (split; [reflexivity | exact H]).
Qed.

Lemma open_w_eqv (w : World) (path : string) : eqv (open_w w path) (open_w w path).
Proof.
  unfold open_w, external. apply eqv_bind.
  - apply eqv_bind; [apply eqv_emit|]. intros _.
    destruct (w_open_w w); [apply eqv_raise | apply eqv_ret].
  - intros _ st st' (Hc & Hd & Hr & Ht). split; [reflexivity|].
    unfold file_of in *. injection Hd as Hd1 Hd2 Hd3 Hd4.
    repeat split; unfold file_of; simpl; congruence.
Qed.

Lemma fp_write_eqv (w : World) (chunk : string) :
  eqv (fp_write w chunk) (fp_write w chunk).
Proof.
  unfold fp_write. apply eqv_bind; [apply eqv_emit|]. intros _.
  intros st st' (Hc & Hd & Hr & Ht).
  unfold file_of in *. injection Hd as Hd1 Hd2 Hd3 Hd4. rewrite <- Hd4.
  destruct (w_write w (st_writes st)); (split; [reflexivity|]);
    repeat split; unfold file_of; simpl; congruence.
Qed.

Lemma fp_close_eqv (w : World) : eqv (fp_close w) (fp_close w).
Proof.
  unfold fp_close. apply eqv_bind; [apply eqv_emit|]. intros _.
  intros st st' (Hc & Hd & Hr & Ht).
  unfold file_of in *. injection Hd as Hd1 Hd2 Hd3 Hd4.
  destruct (w_close w); (split; [reflexivity|]);
    repeat split; unfold file_of; simpl; congruence.
Qed.

Lemma eqv_for_each {A} (l : list A) (body : A -> M unit) :
  (forall x, eqv (body x) (body x)) -> eqv (for_each l body) (for_each l body).
Proof.
  intros Hb. induction l as [|x l IH]; simpl.
  - apply eqv_ret.
  - apply eqv_bind; [apply Hb | intros _; exact IH].
Qed.

Lemma config_write_file_eqv (w : World) : eqv (config_write_file w) (config_write_file w).
Proof.
  intros st st' H. unfold config_write_file. rewrite <- (proj1 H).
  apply eqv_for_each; [|exact H]. intros chunk. apply fp_write_eqv.
Qed.

Lemma eqv_try_finally {A} (m m' : M A) (cleanup cleanup' : M unit) :
  eqv m m' -> eqv cleanup cleanup' -> eqv (try_finally m cleanup) (try_finally m' cleanup').
Proof.
  intros Hm Hc st st' H. unfold try_finally.
  destruct (Hm st st' H) as [Hr Hs].
  destruct (m st) as [r s], (m' st') as [r' s']. simpl in Hr, Hs. subst r'.
  destruct (Hc s s' Hs) as [Hr' Hs'].
  destruct (cleanup s) as [q t], (cleanup' s') as [q' t']. simpl in Hr', Hs'. subst q'.
  destruct q as [[]|e|code]; simpl; (split; [reflexivity | exact Hs']).
Qed.

Lemma with_open_w_eqv {A} (w : World) (path : string) (m m' : M A) :
  eqv m m' -> eqv (with_open_w w path m) (with_open_w w path m').
Proof.
  intros Hm. unfold with_open_w. apply eqv_bind; [apply open_w_eqv|]. intros _.
  apply eqv_try_finally; [exact Hm | apply fp_close_eqv].
Qed.

(** ** The writes of [config.write], one after the other *)

Lemma writes_accepted_cons (w : World) (first n : nat) :
  writes_accepted w first (S n)
  = is_accepted (w_write w first) && writes_accepted w (S first) n.
Proof. reflexivity. Qed.

Lemma fp_write_unfold (w : World) (chunk : string) (st : state) :
  fp_write w chunk st
  = match w_write w (st_writes st) with
    | Accepted flushed =>
        (Ret tt, flush flushed (to_buffer chunk (count_write (add_event (FpWrite chunk) st))))
    | Rejected e => (Raise e, count_write (add_event (FpWrite chunk) st))
    | FlushFailed flushed e =>
        (Raise e, flush flushed (to_buffer chunk (count_write (add_event (FpWrite chunk) st))))
    end.
Proof. reflexivity. Qed.

Lemma for_each_cons {A} (x : A) (l : list A) (body : A -> M unit) (st : state) :
  for_each (x :: l) body st
  = match body x st with
    | (Ret _, st') => for_each l body st'
    | (Raise e, st') => (Raise e, st')
    | (Exit code, st') => (Exit code, st')
    end.
Proof. reflexivity. Qed.

(** What the loop of [fp.write] calls leaves: [j] calls were made,
    [pieces] went to the disk, and the disk with the buffer holds the
    first [i] chunks, all of them when every call returned. *)
Lemma for_each_fp_write (w : World) (chunks : list string) (st : state) :
  exists j pieces i r buffer,
    for_each chunks (fp_write w) st
    = (r, {| st_config := st_config st;
             st_disk := st_disk st +:+ file_text pieces;
             st_disk_ops := st_disk_ops st ++ map Append pieces;
             st_buffer := buffer;
             st_writes := st_writes st + j;
             st_repository := st_repository st;
             st_posts := st_posts st;
             st_trace := st_trace st ++ map FpWrite (firstn j chunks) |})
    /\ (st_disk st +:+ file_text pieces) +:+ buffer
       = (st_disk st +:+ st_buffer st) +:+ file_text (firstn i chunks)
    /\ (writes_accepted w (st_writes st) (length chunks) = true ->
        r = Ret tt /\ j = length chunks /\ i = length chunks)
    /\ (writes_accepted w (st_writes st) (length chunks) = false ->
        exists e, r = Raise e).
Proof.
  revert st. induction chunks as [|chunk chunks IH]; intros st.
  - exists 0, [], 0, (Ret tt), (st_buffer st). simpl.
    rewrite !append_nil_r, !app_nil_r, Nat.add_0_r.
    repeat split; [now destruct st | discriminate].
  - rewrite for_each_cons, fp_write_unfold. simpl length. rewrite writes_accepted_cons.
    destruct (w_write w (st_writes st)) as [flushed|e|flushed e] eqn:Hw.
    + destruct (IH (flush flushed (to_buffer chunk (count_write
                                                      (add_event (FpWrite chunk) st)))))
        as (j & pieces & i & r & buffer & Hst & Htext & Hok & Hko).
      exists (S j), (str_take flushed (st_buffer st +:+ chunk) :: pieces), (S i), r, buffer.
      simpl in Hst, Htext, Hok, Hko. split; [|split; [|split]].
      * rewrite Hst. f_equal. f_equal.
        -- now rewrite file_text_cons, append_assoc.
        -- now rewrite <- app_assoc.
        -- lia.
        -- now rewrite <- app_assoc.
      * rewrite firstn_cons, !file_text_cons.
        rewrite !append_assoc in Htext. rewrite !append_assoc, Htext. f_equal.
        rewrite <- !append_assoc. now rewrite str_take_drop.
      * simpl. intros Hall. destruct (Hok Hall) as (Hr & -> & ->). auto.
      * simpl. exact Hko.
    + exists 1, [], 0, (Raise e), (st_buffer st). simpl.
      rewrite !append_nil_r, !app_nil_r. split; [|split; [|split]].
      * unfold count_write, with_file, add_event. simpl. repeat f_equal. lia.
      * reflexivity.
      * discriminate.
      * intros _. now exists e.
    + exists 1, [str_take flushed (st_buffer st +:+ chunk)], 1, (Raise e),
        (str_drop flushed (st_buffer st +:+ chunk)). simpl.
      rewrite !append_nil_r. split; [|split; [|split]].
      * unfold flush, disk_do, to_buffer, count_write, with_file, add_event. simpl.
        repeat f_equal. lia.
      * rewrite !append_assoc. f_equal. now rewrite str_take_drop.
      * discriminate.
      * intros _. now exists e.
Qed.

(** The persist step goes one of its three ways. *)
Lemma with_open_w_persisted (w : World) (path : string) (st : state) :
  persisted w path st
    (fst (with_open_w w path (config_write_file w) st))
    (snd (with_open_w w path (config_write_file w) st)).
Proof.
  unfold with_open_w, open_w, external, bind, emit.
  destruct (w_open_w w) as [e|] eqn:Hopen; simpl; [now apply persist_unopened|].
  unfold try_finally, config_write_file. simpl.
  set (chunks := config_write (st_config st)).
  match goal with
  | |- context [for_each chunks (fp_write w) ?s] =>
      destruct (for_each_fp_write w chunks s)
        as (j & pieces & i & r & buffer & Hst & Htext & Hok & Hko)
  end.
  simpl in Hst, Htext, Hok, Hko. rewrite Hst. clear Hst.
  change (file_text pieces +:+ buffer = file_text (firstn i chunks)) in Htext.
  assert (Hpre : forall n,
             starts_with (file_text (pieces ++ [str_take n buffer])) (file_text chunks)
             = true).
  { intros n. eapply starts_with_trans; [|apply (file_text_firstn i)].
    rewrite <- Htext, file_text_app. simpl. rewrite append_nil_r.
    rewrite <- (str_take_drop n buffer) at 2.
    rewrite <- append_assoc. apply starts_with_append. }
  assert (Hstate : forall n,
             {| st_config := st_config st;
                st_disk := ("" +:+ file_text pieces) +:+ str_take n buffer;
                st_disk_ops := ((st_disk_ops st ++ [Truncate]) ++ map Append pieces)
                                 ++ [Append (str_take n buffer)];
                st_buffer := "";
                st_writes := st_writes st + j;
                st_repository := st_repository st;
                st_posts := st_posts st;
                st_trace := ((st_trace st ++ [OpenW path])
                               ++ map FpWrite (firstn j chunks)) ++ [FpClose] |}
             = persist_state path j (pieces ++ [str_take n buffer]) st).
  { intros n. unfold persist_state. fold chunks.
    rewrite file_text_app, map_app. simpl. rewrite append_nil_r.
    f_equal; rewrite <- ?app_assoc; simpl; rewrite <- ?app_assoc; reflexivity. }
  unfold fp_close, bind, emit. simpl.
  destruct (writes_accepted w (st_writes st) (length chunks)) eqn:Hall.
  - destruct (Hok eq_refl) as (-> & -> & ->). rewrite firstn_all in Htext.
    destruct (w_close w) as [|flushed e] eqn:Hclose; simpl.
    + unfold flush, disk_do, with_file, add_event. simpl.
      rewrite str_drop_all, Hstate, str_take_all.
      apply persist_done; try assumption.
      rewrite file_text_app. simpl. rewrite append_nil_r. exact Htext.
    + unfold drop_buffer, flush, disk_do, with_file, add_event. simpl.
      rewrite Hstate.
      apply persist_broken; [assumption | rewrite Hclose; apply andb_false_r | apply Hpre].
  - destruct (Hko eq_refl) as [e ->].
    destruct (w_close w) as [|flushed e'] eqn:Hclose; simpl.
    + unfold flush, disk_do, with_file, add_event. simpl.
      rewrite str_drop_all, Hstate.
      apply persist_broken; [assumption | fold chunks; now rewrite Hall | apply Hpre].
    + unfold drop_buffer, flush, disk_do, with_file, add_event. simpl.
      rewrite Hstate.
      apply persist_broken; [assumption | fold chunks; now rewrite Hall | apply Hpre].
Qed.

Lemma load_config_eqv (w : World) (config_file : string) :
  eqv (load_config w config_file) (load_config_skeleton w config_file).
Proof.
  unfold load_config, load_config_skeleton, logger_info.
  apply eqv_bind; [apply eqv_emit|]. intros _.
  apply eqv_bind_silent; [apply enters_log|].
  apply eqv_bind_silent; [apply (enters_emit (ConfigRead config_file))|].
  destruct (w_config_read w) as [e|c]; [apply eqv_raise|].
  intros st st' (Hc & Hd & Hr & Ht). split; [reflexivity | repeat split; assumption].
Qed.

Lemma pipeline_eqv (w : World) : eqv (pipeline w) (pipeline_skeleton w).
Proof.
  unfold pipeline, pipeline_skeleton. cbv zeta.
  apply eqv_bind; [apply enters_eqv; [reflexivity | apply create_venv_enters]|]. intros _.
  apply eqv_bind; [apply enters_eqv; [reflexivity | apply install_dependencies_enters]|].
  intros _.
  apply eqv_bind; [apply enters_eqv; [reflexivity | apply run_tests_enters]|]. intros _.
  apply eqv_bind; [apply config_getitem_eqv|]. intros image_name.
  apply eqv_bind; [apply config_getitem_eqv|]. intros repository.
  apply eqv_bind; [apply store_repository_eqv|]. intros _.
  apply eqv_bind; [apply config_getitem_eqv|]. intros version.
  apply eqv_bind; [apply enters_eqv; [reflexivity | apply build_docker_image_enters]|].
  intros image.
  apply eqv_bind; [apply enters_eqv; [reflexivity | apply tag_docker_image_enters]|].
  intros _.
  apply eqv_bind; [apply enters_eqv; [reflexivity | apply push_docker_image_enters]|].
  intros _.
  apply eqv_bind; [apply config_setitem_eqv|]. intros _.
  apply eqv_bind; [apply with_open_w_eqv, config_write_file_eqv|]. intros _.
  apply eqv_bind_silent; [apply enters_log|].
  apply enters_eqv; [reflexivity | apply send_slack_notification_enters].
Qed.

Lemma on_failure_eqv (w : World) (previous_tag : string) (e : exc) :
  eqv (on_failure w previous_tag e) (on_failure_skeleton previous_tag e).
Proof.
  unfold on_failure, on_failure_skeleton, logger_error.
  apply eqv_bind_silent; [apply enters_log|].
  apply eqv_bind; [apply enters_eqv; [reflexivity | apply send_slack_notification_enters]|].
  intros _.
  apply eqv_bind; [|intros _; apply eqv_sys_exit].
  apply eqv_try_except.
  - apply eqv_bind; [apply load_repository_eqv|]. intros repository.
    apply eqv_bind; [apply enters_eqv; [reflexivity | apply rollback_deployment_enters]|].
    intros _.
    apply enters_eqv; [reflexivity | apply send_slack_notification_enters].
  - intros rollback_error.
    apply eqv_bind_silent; [apply enters_log|].
    apply enters_eqv; [reflexivity | apply send_slack_notification_enters].
Qed.

Lemma main_eqv (w : World) : eqv (main w) (main_skeleton w).
Proof.
  unfold main, main_skeleton.
  apply eqv_bind; [apply load_config_eqv|]. intros _.
  apply eqv_bind; [apply config_getitem_eqv|]. intros previous_tag.
  apply eqv_try_except; [apply pipeline_eqv | apply on_failure_eqv].
Qed.

(** What [main] does, read off its skeleton. *)
Lemma run_as_skeleton (w : World) :
  fst (run w) = fst (run_skeleton w)
  /\ run_disk w = st_disk (snd (run_skeleton w))
  /\ st_config (snd (run w)) = st_config (snd (run_skeleton w))
  /\ observe (run_trace w) = observe (st_trace (snd (run_skeleton w))).
Proof.
  destruct (main_eqv w (init_state w) (init_state w) (same_view_refl _))
    as (Hr & Hc & Hd & _ & Ht).
  unfold file_of in Hd. injection Hd as Hd _ _ _.
  unfold run, run_skeleton, run_disk, run_trace. auto.
Qed.

(** * Proofs: how a run ends *)

Lemma notifications_app (t t' : list event) :
  notifications (t ++ t') = notifications t ++ notifications t'.
Proof. apply flat_map_app. Qed.

Lemma rollbacks_app (t t' : list event) : rollbacks (t ++ t') = rollbacks t ++ rollbacks t'.
Proof. apply flat_map_app. Qed.

Lemma writes_app (t t' : list event) : writes (t ++ t') = writes t ++ writes t'.
Proof. apply flat_map_app. Qed.

Lemma test_stage_entered_app (t t' : list event) :
  test_stage_entered (t ++ t') = test_stage_entered t || test_stage_entered t'.
Proof. apply existsb_app. Qed.

Lemma notifications_writes (chunks : list string) : notifications (map FpWrite chunks) = [].
Proof. induction chunks; simpl; auto. Qed.

Lemma rollbacks_writes (chunks : list string) : rollbacks (map FpWrite chunks) = [].
Proof. induction chunks; simpl; auto. Qed.

Lemma writes_writes (chunks : list string) : writes (map FpWrite chunks) = chunks.
Proof. induction chunks; simpl; congruence. Qed.

Lemma test_stage_entered_writes (chunks : list string) :
  test_stage_entered (map FpWrite chunks) = false.
Proof. induction chunks; simpl; auto. Qed.

Ltac use_equations :=
  repeat match goal with
         | H : ?l = _ |- context [?l] => rewrite H
         end.

Ltac world_fact :=
  unfold stages_succeed, persists, early_failure, test_cmd;
  use_equations; simpl; use_equations; simpl;
  rewrite ?andb_false_r; reflexivity.

Ltac trace_fact :=
  simpl; use_equations; simpl; rewrite ?firstn_all;
  rewrite ?notifications_app, ?rollbacks_app, ?writes_app, ?test_stage_entered_app,
    ?notifications_writes, ?rollbacks_writes, ?writes_writes, ?test_stage_entered_writes;
  simpl; rewrite ?app_nil_r, ?andb_false_r; reflexivity.

Ltac shape_leaf :=
  simpl;
  first
    [ eapply shape_uncaught;
      [ reflexivity | solve [eauto] | world_fact | reflexivity | trace_fact ..]
    | eapply shape_rollback_failed;
      [ reflexivity | eassumption | eassumption | world_fact | reflexivity | trace_fact .. ]
    | eapply shape_rolled_back;
      [ reflexivity | eassumption | eassumption | eassumption | world_fact | world_fact
      | reflexivity | trace_fact .. ] ].

Ltac published_fact :=
  unfold published, tests_pass, config_complete, built, pushed, test_cmd;
  use_equations; reflexivity.

(** The persist step met in the middle of a computation: its three ways. *)
Ltac persist_cases :=
  match goal with
  | |- context [with_open_w ?w ?p ?b ?s] =>
      let Hp := fresh "Hp" in
      pose proof (with_open_w_persisted w p s) as Hp;
      destruct (with_open_w w p b s) as [r' st'];
      simpl in Hp;
      destruct Hp as [e Hopen | pieces Hopen Hacc Hclose Htext | e j pieces Hopen Hbad Hpre];
      simpl in *
  end.

Local Opaque with_open_w.

Lemma run_skeleton_shape (w : World) :
  shape w (fst (run_skeleton w)) (snd (run_skeleton w)).
Proof.
  unfold run_skeleton, main_skeleton, load_config_skeleton, pipeline_skeleton,
    on_failure_skeleton.
  cbv [bind stage emit try_except config_getitem config_setitem store_repository
       load_repository raise ret sys_exit is_Exception].
  cbv zeta. simpl.
  destruct (w_config_read w) as [e|c] eqn:Hcfg; simpl; [shape_leaf|].
  destruct (cfg_getitem c "Docker" "Tag") as [e|prev] eqn:Htag; simpl; [shape_leaf|].
  destruct (w_venv_create w) as [e|] eqn:Hvenv; simpl; [shape_leaf|].
  unfold install_result.
  destruct (w_path_exists w (REQUIREMENTS_FILE w)) eqn:Hreq; simpl; [|shape_leaf].
  unfold tests_result.
  destruct (w_os_system w
              (get_venv_python w (VENV_NAME w) +:+ " -m unittest discover " +:+ TEST_DIR w)
            =? 0)%Z eqn:Htest; simpl; [|shape_leaf].
  destruct (cfg_getitem c "Docker" "ImageName") as [e|image_name] eqn:Himg; simpl;
    [shape_leaf|].
  destruct (cfg_getitem c "Docker" "Repository") as [e|repository] eqn:Hrepo; simpl;
    [shape_leaf|].
  destruct (cfg_getitem c "Docker" "Version") as [e|version] eqn:Hver; simpl;
    [shape_leaf|].
  unfold build_result.
  destruct (w_from_env_build w) as [e|] eqn:Hfeb; simpl; [shape_leaf|].
  destruct (w_images_build w) as [e|[image build_logs]] eqn:Hbuild; simpl; [shape_leaf|].
  destruct (w_image_tag w) as [e|] eqn:Himgtag; simpl; [shape_leaf|].
  unfold push_result.
  destruct (w_from_env_push w) as [e|] eqn:Hfep; simpl; [shape_leaf|].
  destruct (w_login w) as [e|] eqn:Hlogin; simpl; [shape_leaf|].
  destruct (snd (w_images_push w)) as [e|] eqn:Hpush; simpl; [shape_leaf|].
  destruct (cfg_setitem c "Docker" "Tag" ("v" +:+ version)) as [e|c'] eqn:Hset; simpl;
    [shape_leaf|].
  persist_cases; simpl.
  - shape_leaf.
  - eapply shape_success;
      [ reflexivity | eassumption | eassumption | eassumption | eassumption | eassumption
      | world_fact | world_fact | simpl; exact Htext | reflexivity
      | trace_fact | trace_fact | trace_fact | trace_fact | trace_fact | |].
    + exists pieces. split; [reflexivity | exact Htext].
    + published_fact.
  - eapply shape_persist_failed;
      [ reflexivity | eassumption | eassumption | eassumption | eassumption | eassumption
      | world_fact | world_fact | assumption | reflexivity | trace_fact | trace_fact
      | | trace_fact | reflexivity | |].
    + exists j. trace_fact.
    + exists pieces. repeat split. exact Hpre.
    + published_fact.
Qed.

Local Transparent with_open_w.

Lemma shape_same_view (w : World) (r : result unit) (st st' : state) :
  same_view st st' -> shape w r st' -> shape w r st.
Proof.
  intros (Hc & Hd & Hr & Ht) H.
  assert (Hdisk : st_disk st = st_disk st') by (unfold file_of in Hd; congruence).
  assert (Hops : st_disk_ops st = st_disk_ops st') by (unfold file_of in Hd; congruence).
  assert (Hn : notifications (st_trace st) = notifications (st_trace st'))
    by (rewrite <- (notifications_observe (st_trace st)), Ht; apply notifications_observe).
  assert (Hb : rollbacks (st_trace st) = rollbacks (st_trace st'))
    by (rewrite <- (rollbacks_observe (st_trace st)), Ht; apply rollbacks_observe).
  assert (Hw : writes (st_trace st) = writes (st_trace st'))
    by (rewrite <- (writes_observe (st_trace st)), Ht; apply writes_observe).
  assert (Hs : test_stage_entered (st_trace st) = test_stage_entered (st_trace st'))
    by (rewrite <- (test_stage_entered_observe (st_trace st)), Ht;
        apply test_stage_entered_observe).
  assert (Hg : stage_entered (st_trace st) = stage_entered (st_trace st'))
    by (rewrite <- (stage_entered_observe (st_trace st)), Ht;
        apply stage_entered_observe).
  destruct H;
    [ eapply shape_uncaught | eapply shape_success
    | eapply shape_rollback_failed | eapply shape_rolled_back
    | eapply shape_persist_failed ];
    rewrite ?Hdisk, ?Hops, ?Hc, ?Hr, ?Hn, ?Hb, ?Hw, ?Hs, ?Hg; eassumption.
Qed.

(** Every run of [main] ends in one of the four ways. *)
Lemma run_shape (w : World) : shape w (fst (run w)) (snd (run w)).
Proof.
  destruct (main_eqv w (init_state w) (init_state w) (same_view_refl _)) as (Hr & Hv).
  unfold run. rewrite Hr. eapply shape_same_view; [exact Hv|].
  apply run_skeleton_shape.
Qed.

(** The exit status goes with the way the run ends. *)
Lemma run_exit_shape (w : World) (r : result unit) (st : state) :
  shape w r st -> exit_status r = (if stages_succeed w then 0 else 1)%Z.
Proof.
  intros H; destruct H; subst r; simpl;
    match goal with Hs : stages_succeed w = _ |- _ => rewrite Hs end; reflexivity.
Qed.

(** * Checked properties *)

Import Samples.

(** ** C1: a missing dependency manifest *)

(** C1, as stated, fails: with the requirements file missing,
    [install_dependencies] raises an error, the test stage is never
    entered and the process exits with status 1. *)
Lemma C1_missing_manifest_aborts :
  fst (install_dependencies no_manifest "venv/bin/python" "requirements.txt"
         (init_state no_manifest))
  = Raise (FileNotFoundError "Requirements file requirements.txt not found.")
  /\ test_stage_entered (run_trace no_manifest) = false
  /\ run_exit no_manifest = 1%Z.
Proof. vm_compute. repeat split. Qed.

(** C1, amended: for every run in which the dependency manifest does not
    exist, [install_dependencies] raises [FileNotFoundError]; the run
    never enters the test stage and the process exits with status 1. *)
Theorem C1_missing_manifest_is_an_error (w : World) :
  w_path_exists w (REQUIREMENTS_FILE w) = false ->
  (forall venv_python st,
      fst (install_dependencies w venv_python (REQUIREMENTS_FILE w) st)
      = Raise (FileNotFoundError
                 ("Requirements file " +:+ REQUIREMENTS_FILE w +:+ " not found.")))
  /\ test_stage_entered (run_trace w) = false
  /\ run_exit w = 1%Z.
Proof.
  intros Hreq. split; [|split].
  - intros venv_python st.
    destruct (install_dependencies_enters w venv_python (REQUIREMENTS_FILE w) st)
      as (evs & n & -> & _).
    unfold install_result. now rewrite Hreq.
  - unfold run_trace.
    destruct (run_shape w) as [e| | | |];
      try (unfold early_failure in *; rewrite Hreq, ?orb_true_r in *; discriminate);
      try assumption.
    match goal with H : test_stage_entered _ = _ |- _ => rewrite H end.
    rewrite Hreq. apply andb_false_r.
  - unfold run_exit. rewrite (run_exit_shape w _ _ (run_shape w)).
    unfold stages_succeed. destruct (w_config_read w); [reflexivity|].
    now rewrite Hreq, andb_false_r.
Qed.

Lemma C1_missing_manifest_is_an_error_witness :
  (forall venv_python st,
      fst (install_dependencies no_manifest venv_python (REQUIREMENTS_FILE no_manifest) st)
      = Raise (FileNotFoundError
                 ("Requirements file " +:+ REQUIREMENTS_FILE no_manifest +:+ " not found.")))
  /\ test_stage_entered (run_trace no_manifest) = false
  /\ run_exit no_manifest = 1%Z.
Proof. apply (C1_missing_manifest_is_an_error no_manifest). reflexivity. Defined.

(** ** C2: when and how the persisted Tag is rewritten *)






(** The scenario of the specification: [Tag=v1.0], [Version=2.0], all
    stages succeed; the file then holds [tag = v2.0]. *)
Example all_good_persists_v2 :
  run_exit all_good = 0%Z
  /\ run_disk all_good
     = file_text ["[Docker]" +:+ nl; "imagename = app" +:+ nl;
                  "repository = acme/app" +:+ nl; "tag = v2.0" +:+ nl;
                  "version = 2.0" +:+ nl; nl]
  /\ notifications (run_trace all_good) = [msg_success].
Proof. vm_compute. repeat split. Qed.

(** A new tag the parser refuses: every stage up to the push succeeded,
    the assignment raises [ValueError] and the file is not opened. *)
Example refused_tag_leaves_the_file :
  published percent_version = true
  /\ notifications (run_trace percent_version)
     = [msg_failed (ValueError "invalid interpolation syntax in 'v2.0%rc1' at position 4");
        msg_rolled_back "v1.0"]
  /\ run_disk_ops percent_version = []
  /\ run_disk percent_version = w_disk percent_version.
Proof. vm_compute. repeat split. Qed.

(** ** C3: the persist step under a crash *)

(** The file during the persist step: after the opening and some of the
    flushes, whole or cut off, it holds a part of what the flushes
    bring in all, from its start. *)
Lemma crash_in_pieces (pieces : list string) (old : string) (k m : nat) :
  starts_with
    (disk_after (firstn (S k) (Truncate :: map Append pieces)) old
       +:+ match nth_error (Truncate :: map Append pieces) (S k) with
           | Some (Append text) => str_take m text
           | _ => ""
           end)
    (file_text pieces) = true.
Proof.
  rewrite firstn_cons. cbn [nth_error]. rewrite firstn_map, disk_after_truncate.
  rewrite nth_error_map.
  destruct (nth_error pieces k) as [p|] eqn:Hp; simpl.
  - destruct (nth_error_split pieces k Hp) as (l1 & l2 & -> & <-).
    rewrite firstn_app, firstn_all, Nat.sub_diag. simpl firstn. rewrite app_nil_r.
    rewrite file_text_app, file_text_cons.
    rewrite <- (str_take_drop m p) at 2. rewrite append_assoc.
    rewrite <- append_assoc. apply starts_with_append.
  - rewrite append_nil_r. apply file_text_firstn.
Qed.

Lemma crash_after_all (ops : list file_op) (old : string) (k m : nat) :
  length ops <= k ->
  disk_after (firstn k ops) old
    +:+ match nth_error ops k with
        | Some (Append text) => str_take m text
        | _ => ""
        end
  = disk_after ops old.
Proof.
  intros Hk. rewrite firstn_all2 by exact Hk.
  rewrite (proj2 (nth_error_None ops k) Hk). apply append_nil_r.
Qed.

(** C3, as stated, fails.  In a run in which everything succeeds, a
    crash right after the config file was opened for writing leaves it
    empty: the old text is gone and nothing of the new text is there. *)
Lemma C3_crash_after_open_leaves_empty_file :
  stages_succeed all_good = true
  /\ w_disk all_good
     = file_text ["[Docker]" +:+ nl; "imagename = app" +:+ nl;
                  "repository = acme/app" +:+ nl; "tag = v1.0" +:+ nl;
                  "version = 2.0" +:+ nl; nl]
  /\ run_disk all_good
     = file_text ["[Docker]" +:+ nl; "imagename = app" +:+ nl;
                  "repository = acme/app" +:+ nl; "tag = v2.0" +:+ nl;
                  "version = 2.0" +:+ nl; nl]
  /\ nth_error (run_disk_ops all_good) 0 = Some Truncate
  /\ crash_disk all_good 1 0 = "".
Proof. vm_compute. repeat split. Qed.

(** C3, amended: the persist step rewrites the file in place.  Whenever
    the process dies, the config file holds its old text if it was not
    opened for writing yet, and else a part of the new text, from its
    start: nothing right after the opening, then what the file object
    has flushed so far, possibly cut off in the middle of a flush.  It
    holds what the run leaves at its end once the run has done all it
    does to the file, which in a run that succeeds is the whole new
    text. *)
Theorem C3_crash_leaves_prefix_of_new_text (w : World) (k m : nat) :
  (k = 0 \/ run_disk_ops w = [] -> crash_disk w k m = w_disk w)
  /\ (k <> 0 -> run_disk_ops w <> [] ->
      exists c version c',
        w_config_read w = inr c
        /\ cfg_getitem c "Docker" "Version" = inr version
        /\ cfg_setitem c "Docker" "Tag" ("v" +:+ version) = inr c'
        /\ starts_with (crash_disk w k m) (file_text (config_write c')) = true
        /\ (stages_succeed w = true -> length (run_disk_ops w) <= k ->
            crash_disk w k m = file_text (config_write c')))
  /\ (length (run_disk_ops w) <= k -> crash_disk w k m = run_disk w).
Proof.
  unfold crash_disk, run_disk, run_disk_ops.
  assert (Hnone : forall old, disk_after (firstn k []) old
                              +:+ match nth_error (@nil file_op) k with
                                  | Some (Append text) => str_take m text
                                  | _ => ""
                                  end = old).
  { intros old. rewrite firstn_nil. destruct k; simpl; apply append_nil_r. }
  destruct (run_shape w) as [e Hr Hwhy Hok Hdisk Hn Hb Hw Hs Hg Hrepo Hops
                            |c c' prev repository version Hr Hcfg Htag Hrep Hver Hset
                               Hok Hearly Hdisk Hconf Hn Hb Hw Hs Hrepo Hops Hpub
                            |c prev e Hr Hcfg Htag Hok Hdisk Hn Hb Hw Hs Hrepo Hops
                            |c prev repository e Hr Hcfg Htag Hrep Hok Hearly Hdisk
                               Hn Hb Hw Hs Hrepo Hops
                            |c c' prev repository version e Hr Hcfg Htag Hrep Hver Hset
                               Hok Hearly Hopen Hconf Hn Hb Hw Hs Hrepo Hops Hpub].
  - rewrite Hops, Hdisk, Hnone. repeat split; congruence.
  - destruct Hops as (pieces & Hops & Htext). rewrite Hops, Hdisk. split; [|split].
    + intros [->|[=]]. simpl. apply append_nil_r.
    + intros Hk _. destruct k as [|k]; [congruence|].
      exists c, version, c'. repeat split; auto.
      * rewrite <- Htext. apply crash_in_pieces.
      * intros _ Hlen. rewrite crash_after_all by exact Hlen.
        now rewrite disk_after_truncate.
    + intros Hlen. rewrite crash_after_all by exact Hlen.
      now rewrite disk_after_truncate.
  - rewrite Hops, Hdisk, Hnone. repeat split; congruence.
  - rewrite Hops, Hdisk, Hnone. repeat split; congruence.
  - destruct Hops as (pieces & Hops & Hdisk & Hpre). rewrite Hops, Hdisk. split; [|split].
    + intros [->|[=]]. simpl. apply append_nil_r.
    + intros Hk _. destruct k as [|k]; [congruence|].
      exists c, version, c'. repeat split; auto.
      * eapply starts_with_trans; [apply crash_in_pieces | exact Hpre].
      * congruence.
    + intros Hlen. rewrite crash_after_all by exact Hlen.
      now rewrite disk_after_truncate.
Qed.

Lemma C3_crash_leaves_prefix_of_new_text_witness :
  exists c version c',
    w_config_read write_breaks_off = inr c
    /\ cfg_getitem c "Docker" "Version" = inr version
    /\ cfg_setitem c "Docker" "Tag" ("v" +:+ version) = inr c'
    /\ starts_with (crash_disk write_breaks_off 4 3) (file_text (config_write c')) = true
    /\ (stages_succeed write_breaks_off = true ->
        length (run_disk_ops write_breaks_off) <= 4 ->
        crash_disk write_breaks_off 4 3 = file_text (config_write c')).
Proof.
  apply (proj1 (proj2 (C3_crash_leaves_prefix_of_new_text write_breaks_off 4 3)));
    vm_compute; discriminate.
Defined.

(** The file of a run whose third write breaks off, at some of the
    points where the process can die. *)
Example crash_points_of_a_broken_write :
  crash_disk write_breaks_off 0 0 = w_disk write_breaks_off
  /\ crash_disk write_breaks_off 1 0 = ""
  /\ crash_disk write_breaks_off 3 4 = "[Doc"
  /\ crash_disk write_breaks_off 4 0 = "[Docker]" +:+ nl +:+ "i"
  /\ crash_disk write_breaks_off 5 0 = run_disk write_breaks_off
  /\ run_disk write_breaks_off
     = file_text ["[Docker]" +:+ nl; "imagename = app" +:+ nl;
                  "repository = acme/app" +:+ nl].
Proof. vm_compute. repeat split. Qed.

(** ** C4: the install tool exits nonzero *)

(** [install_dependencies] never looks at what [os.system] returns. *)
Lemma install_dependencies_ignores_status (w : World) (venv_python requirements_file : string)
      (st : state) :
  w_path_exists w requirements_file = true ->
  fst (install_dependencies w venv_python requirements_file st) = Ret tt.
Proof.
  intros Hreq.
  destruct (install_dependencies_enters w venv_python requirements_file st)
    as (evs & n & -> & _).
  unfold install_result. now rewrite Hreq.
Qed.

(** C4 fails on the code: with the manifest present and pip exiting with
    status 1, [install_dependencies] returns normally, the test stage is
    entered and the whole run succeeds. *)
Theorem C4_pip_exit_status_is_ignored :
  w_path_exists pip_fails (REQUIREMENTS_FILE pip_fails) = true
  /\ w_os_system pip_fails "venv/bin/python -m pip install -r requirements.txt" = 256%Z
  /\ In (OsSystem "venv/bin/python -m pip install -r requirements.txt") (run_trace pip_fails)
  /\ fst (install_dependencies pip_fails "venv/bin/python" "requirements.txt"
            (init_state pip_fails)) = Ret tt
  /\ test_stage_entered (run_trace pip_fails) = true
  /\ run_exit pip_fails = 0%Z.
Proof. vm_compute. repeat split. intuition. Qed.

(** ** C5: what the orchestrator does after a stage failed *)

(** C5 fails on the code when the failing stage comes before the
    assignment of [repository]: here the tests fail, both notifications
    are sent and the process exits with 1, but [rollback_deployment] is
    never entered. *)
Theorem C5_rollback_not_entered_after_test_failure :
  early_failure tests_fail = true
  /\ notifications (run_trace tests_fail)
     = [msg_failed (NameError "subprocess");
        msg_rollback_failed (UnboundLocalError "repository")]
  /\ rollbacks (run_trace tests_fail) = []
  /\ run_exit tests_fail = 1%Z.
Proof. vm_compute. repeat split. Qed.

(** Past that assignment the sequence of C5 is what happens: a failure
    notification with the error, one call of [rollback_deployment], the
    rolled-back notification, exit status 1. *)
Lemma failure_sequence_with_repository_bound (w : World) :
  stages_succeed w = false -> early_failure w = false ->
  st_repository (snd (run w)) <> None ->
  exists prev repository e,
    notifications (run_trace w) = [msg_failed e; msg_rolled_back prev]
    /\ rollbacks (run_trace w) = [(repository, prev)]
    /\ run_exit w = 1%Z.
Proof.
  intros Hok Hearly Hrepo. unfold run_trace, run_exit.
  destruct (run_shape w) as [| | |c prev repository e Hr
                            |c c' prev repository version e Hr]; try congruence;
    exists prev, repository, e; rewrite Hr; repeat split; assumption.
Qed.

(** ** C6: the tag handed to rollback *)

(** C6: the snapshot is taken before any stage runs: a run that enters a
    stage function has loaded the config and read its [Tag].  And
    whenever [rollback_deployment] is entered, its [previous_tag] is that
    [Tag], the one of the config as it was loaded at the start of the
    run. *)
Theorem C6_rollback_receives_snapshot (w : World) :
  (stage_entered (run_trace w) = true ->
   exists c prev, w_config_read w = inr c /\ cfg_lookup c "Docker" "Tag" = Some prev)
  /\ (forall repository previous_tag,
         In (repository, previous_tag) (rollbacks (run_trace w)) ->
         exists c,
           w_config_read w = inr c
           /\ cfg_lookup c "Docker" "Tag" = Some previous_tag
           /\ rollbacks (run_trace w) = [(repository, previous_tag)]).
Proof.
  unfold run_trace. split.
  - intros Hin.
    destruct (run_shape w) as [e Hr Hwhy Hok Hdisk Hn Hb Hw Hs Hg Hrepo
                              |c c' prev repository version Hr Hcfg Htag
                              |c prev e Hr Hcfg Htag
                              |c prev repository e Hr Hcfg Htag
                              |c c' prev repository version e Hr Hcfg Htag];
      [congruence | exists c, prev; split; [assumption | now apply cfg_lookup_getitem] ..].
  - intros repository previous_tag Hin.
    destruct (run_shape w) as [| | |c prev repo e Hr Hcfg Htag Hrep Hok Hearly Hdisk
                                     Hn Hb Hw Hs Hrepo
                              |c c' prev repo version e Hr Hcfg Htag Hrep Hver Hset
                                 Hok Hearly Hopen Hconf Hn Hb];
      try match goal with H : rollbacks _ = [] |- _ => rewrite H in Hin; destruct Hin end;
      rewrite Hb in Hin; destruct Hin as [[= <- <-]|[]];
      exists c; (repeat split; [assumption | now apply cfg_lookup_getitem | assumption]).
Qed.

Lemma C6_rollback_receives_snapshot_witness :
  exists c,
    w_config_read push_fails = inr c
    /\ cfg_lookup c "Docker" "Tag" = Some "v1.0"
    /\ rollbacks (run_trace push_fails) = [("acme/app", "v1.0")].
Proof.
  apply (proj2 (C6_rollback_receives_snapshot push_fails) "acme/app" "v1.0").
  vm_compute. left. reflexivity.
Defined.

(** The scenario of the specification: the push is rejected after the
    image was tagged; rollback gets [v1.0] and the file keeps [tag = v1.0]. *)
Example push_failure_rolls_back_to_v1 :
  rollbacks (run_trace push_fails) = [("acme/app", "v1.0")]
  /\ notifications (run_trace push_fails)
     = [msg_failed (APIError "unauthorized: authentication required");
        msg_rolled_back "v1.0"]
  /\ run_disk push_fails = w_disk push_fails
  /\ run_exit push_fails = 1%Z.
Proof. vm_compute. repeat split. Qed.

(** The tag is the snapshot even when [config] was changed in memory:
    here the config file cannot be opened, after [config['Docker']['Tag']]
    was assigned. *)
Example snapshot_survives_mutation :
  cfg_lookup (st_config (snd (run open_fails))) "Docker" "Tag" = Some "v2.0"
  /\ rollbacks (run_trace open_fails) = [("acme/app", "v1.0")]
  /\ run_disk open_fails = w_disk open_fails.
Proof. vm_compute. repeat split. Qed.

(** ** C7: notifications never change the outcome *)



Lemma same_view_notifications (st st' : state) :
  same_view st st' -> notifications (st_trace st) = notifications (st_trace st').
Proof.
  intros (_ & _ & _ & Ht).
  rewrite <- (notifications_observe (st_trace st)), Ht. apply notifications_observe.
Qed.

Lemma same_view_rollbacks (st st' : state) :
  same_view st st' -> rollbacks (st_trace st) = rollbacks (st_trace st').
Proof.
  intros (_ & _ & _ & Ht).
  rewrite <- (rollbacks_observe (st_trace st)), Ht. apply rollbacks_observe.
Qed.




(** A webhook that answers with a server error: the text that is logged. *)
Example server_error_is_logged :
  http_error_text 500 "Internal Server Error" "https://hooks.example/T0"
  = "500 Server Error: Internal Server Error for url: https://hooks.example/T0"
  /\ In (Log ERROR ("Failed to send Slack notification: 500 Server Error: "
                      +:+ "Internal Server Error for url: https://hooks.example/T0"))
        (run_trace (webhook_answers 500 "Internal Server Error" all_good))
  /\ run_exit (webhook_answers 500 "Internal Server Error" all_good) = 0%Z.
Proof. vm_compute. split; [reflexivity|]. split; [|reflexivity]. intuition. Qed.

(** An unreachable webhook against a working one, on a failing run. *)
Example webhook_down_same_outcome :
  run_exit (webhook_down build_fails) = run_exit build_fails
  /\ terminal_status (run_trace (webhook_down build_fails)) = Some RolledBack
  /\ terminal_status (run_trace build_fails) = Some RolledBack.
Proof. vm_compute. repeat split. Qed.

(** ** C8: the exit status *)

Lemma terminal_status_shape (w : World) (r : result unit) (st : state) :
  shape w r st ->
  (terminal_status (st_trace st) = Some Success <-> stages_succeed w = true)
  /\ (terminal_status (st_trace st) = Some RolledBack -> exit_status r = 1%Z)
  /\ (terminal_status (st_trace st) = Some RollbackFailed -> exit_status r = 1%Z).
Proof.
  intros H. pose proof (run_exit_shape w r st H) as Hexit.
  unfold terminal_status.
  destruct H as [e Hr Hwhy Hok Hdisk Hn Hb Hw Hs Hg Hrepo
                |c c' prev repository version Hr Hcfg Htag Hrep Hver Hset
                   Hok Hearly Hdisk Hconf Hn Hb Hw Hs Hrepo
                |c prev e Hr Hcfg Htag Hok Hdisk Hn Hb Hw Hs Hrepo
                |c prev repository e Hr Hcfg Htag Hrep Hok Hearly Hdisk
                   Hn Hb Hw Hs Hrepo
                |c c' prev repository version e Hr Hcfg Htag Hrep Hver Hset
                   Hok Hearly Hopen Hconf Hn Hb Hw Hs Hrepo];
    rewrite Hn, Hok in *; simpl final; cbv beta iota;
    rewrite ?classify_success, ?classify_rolled_back, ?classify_rollback_failed;
    repeat split; congruence.
Qed.

(** C8, as stated, fails: a run whose rollback succeeds and a run whose
    rollback fails exit with the same status. *)
Lemma C8_rollback_outcomes_share_exit_status :
  terminal_status (run_trace build_fails) = Some RolledBack
  /\ terminal_status (run_trace tests_fail) = Some RollbackFailed
  /\ run_exit build_fails = run_exit tests_fail.
Proof. vm_compute. repeat split. Qed.

(** C8, amended: the exit status is 0 when every stage succeeds and 1
    otherwise.  It tells success from failure, and is 1 both when the
    rollback succeeded and when it failed. *)
Theorem C8_exit_status_tells_success_from_failure (w : World) :
  run_exit w = (if stages_succeed w then 0 else 1)%Z
  /\ (terminal_status (run_trace w) = Some Success <-> run_exit w = 0%Z)
  /\ (terminal_status (run_trace w) = Some RolledBack -> run_exit w = 1%Z)
  /\ (terminal_status (run_trace w) = Some RollbackFailed -> run_exit w = 1%Z).
Proof.
  unfold run_exit, run_trace.
  pose proof (run_exit_shape w _ _ (run_shape w)) as Hexit.
  destruct (terminal_status_shape w _ _ (run_shape w)) as (Hs & Hb & Hf).
  repeat split; try assumption.
  - intros H. apply Hs in H. now rewrite Hexit, H.
  - intros H. apply Hs. rewrite Hexit in H. now destruct (stages_succeed w).
Qed.

Lemma C8_exit_status_tells_success_from_failure_witness :
  run_exit build_fails = 1%Z /\ run_exit tests_fail = 1%Z.
Proof.
  split.
  - apply (proj1 (proj2 (proj2 (C8_exit_status_tells_success_from_failure build_fails)))).
    vm_compute. reflexivity.
  - apply (proj2 (proj2 (proj2 (C8_exit_status_tells_success_from_failure tests_fail)))).
    vm_compute. reflexivity.
Defined.

(** ** C9: a failure before [repository] is assigned *)

(** C9: when the environment cannot be created, the manifest is missing
    or the tests fail, [repository] is still unbound when the handler
    reads it: the read raises [UnboundLocalError], a [NameError];
    [rollback_deployment] is not entered; the notifications are the
    failure one and the rollback-failure one carrying that error; and
    the process exits with status 1. *)
Theorem C9_early_failure_makes_rollback_raise (w : World) (c : Config) (prev : string) :
  w_config_read w = inr c ->
  cfg_getitem c "Docker" "Tag" = inr prev ->
  early_failure w = true ->
  st_repository (snd (run w)) = None
  /\ fst (load_repository (snd (run w))) = Raise (UnboundLocalError "repository")
  /\ is_NameError (UnboundLocalError "repository") = true
  /\ rollbacks (run_trace w) = []
  /\ (exists e,
         notifications (run_trace w)
         = [msg_failed e; msg_rollback_failed (UnboundLocalError "repository")])
  /\ terminal_status (run_trace w) = Some RollbackFailed
  /\ run_exit w = 1%Z.
Proof.
  intros Hcfg Htag Hearly. unfold run_trace, run_exit, terminal_status, load_repository.
  destruct (run_shape w)
    as [e Hr [Hwhy|(c0 & Hc0 & Hwhy)]| |c0 prev0 e Hr _ _ _ _ Hn Hb _ _ Hrepo| |];
    try congruence.
  rewrite Hr, Hn, Hb, Hrepo. repeat split. now exists e.
Qed.

Lemma C9_early_failure_makes_rollback_raise_witness :
  st_repository (snd (run venv_fails)) = None
  /\ fst (load_repository (snd (run venv_fails))) = Raise (UnboundLocalError "repository")
  /\ is_NameError (UnboundLocalError "repository") = true
  /\ rollbacks (run_trace venv_fails) = []
  /\ (exists e,
         notifications (run_trace venv_fails)
         = [msg_failed e; msg_rollback_failed (UnboundLocalError "repository")])
  /\ terminal_status (run_trace venv_fails) = Some RollbackFailed
  /\ run_exit venv_fails = 1%Z.
Proof.
  apply (C9_early_failure_makes_rollback_raise venv_fails config0 "v1.0");
    reflexivity.
Defined.

(** The three early failures, run. *)
Example early_failures_run :
  notifications (run_trace venv_fails)
  = [msg_failed (OSError "[Errno 28] No space left on device");
     msg_rollback_failed (UnboundLocalError "repository")]
  /\ notifications (run_trace no_manifest)
     = [msg_failed (FileNotFoundError "Requirements file requirements.txt not found.");
        msg_rollback_failed (UnboundLocalError "repository")]
  /\ notifications (run_trace tests_fail)
     = [msg_failed (NameError "subprocess");
        msg_rollback_failed (UnboundLocalError "repository")].
Proof. vm_compute. repeat split. Qed.

(** ** C10: the rollback stub *)

(** The handler, entered with [repository] bound. *)
Lemma on_failure_with_repository_bound (w : World) (previous_tag repository : string)
      (e : exc) (st : state) :
  st_repository st = Some repository ->
  exists st',
    on_failure w previous_tag e st = (Exit 1, st')
    /\ notifications (st_trace st')
       = notifications (st_trace st) ++ [msg_failed e; msg_rolled_back previous_tag]
    /\ rollbacks (st_trace st') = rollbacks (st_trace st) ++ [(repository, previous_tag)]
    /\ st_config st' = st_config st /\ st_disk st' = st_disk st.
Proof.
  intros Hrepo.
  destruct (on_failure_eqv w previous_tag e st st (same_view_refl st)) as (Hr & Hv).
  revert Hr Hv. unfold on_failure_skeleton.
  cbv [bind stage emit try_except load_repository sys_exit is_Exception]. simpl.
  rewrite Hrepo. simpl. intros Hr Hv.
  exists (snd (on_failure w previous_tag e st)). split; [|split; [|split]].
  - rewrite <- Hr. now destruct (on_failure w previous_tag e st).
  - rewrite (same_view_notifications _ _ Hv). simpl.
    rewrite !notifications_app. simpl. now rewrite <- !app_assoc.
  - rewrite (same_view_rollbacks _ _ Hv). simpl.
    rewrite !rollbacks_app. simpl. now rewrite !app_nil_r.
  - destruct Hv as (Hc & Hd & _). unfold file_of in Hd. simpl in Hc, Hd.
    split; congruence.
Qed.

(** C10: [rollback_deployment] returns normally on every input and does
    nothing but record its entry and log one line: the config, the file
    and every other part of the state stay as they were, and no Docker
    call is made.  Hence the handler, entered with [repository] bound,
    sends the rolled-back notification and never the rollback-failure
    one; and in every run that enters [rollback_deployment] the
    notifications are the failure one and the rolled-back one. *)
Theorem C10_rollback_is_a_noop_that_never_fails (w : World) :
  (forall repository previous_tag st,
      rollback_deployment repository previous_tag st
      = (Ret tt,
         extend [Call_rollback_deployment repository previous_tag;
                 Log INFO ("Rolling back to previous deployment: "
                             +:+ repository +:+ ":" +:+ previous_tag)]
                st))
  /\ (forall previous_tag repository e st,
         st_repository st = Some repository ->
         exists st',
           on_failure w previous_tag e st = (Exit 1, st')
           /\ notifications (st_trace st')
              = notifications (st_trace st) ++ [msg_failed e; msg_rolled_back previous_tag]
           /\ rollbacks (st_trace st')
              = rollbacks (st_trace st) ++ [(repository, previous_tag)])
  /\ (forall repository previous_tag,
         In (repository, previous_tag) (rollbacks (run_trace w)) ->
         st_repository (snd (run w)) = Some repository
         /\ (exists e,
                notifications (run_trace w) = [msg_failed e; msg_rolled_back previous_tag])
         /\ terminal_status (run_trace w) = Some RolledBack).
Proof.
  split; [|split].
  - intros repository previous_tag st.
    unfold rollback_deployment, logger_info, bind, emit, try_except, ret, add_event, extend.
    simpl. now rewrite <- app_assoc.
  - intros previous_tag repository e st Hrepo.
    destruct (on_failure_with_repository_bound w previous_tag repository e st Hrepo)
      as (st' & H1 & H2 & H3 & _).
    exists st'. auto.
  - unfold run_trace, terminal_status. intros repository previous_tag Hin.
    destruct (run_shape w) as [| | |c prev repo e Hr Hcfg Htag Hrep Hok Hearly Hdisk
                                     Hn Hb Hw Hs Hrepo
                              |c c' prev repo version e Hr Hcfg Htag Hrep Hver Hset
                                 Hok Hearly Hopen Hconf Hn Hb Hw Hs Hrepo];
      try match goal with H : rollbacks _ = [] |- _ => rewrite H in Hin; destruct Hin end;
      rewrite Hb in Hin; destruct Hin as [[= <- <-]|[]];
      rewrite Hn; (repeat split; [assumption | now exists e]).
Qed.

Lemma C10_rollback_is_a_noop_that_never_fails_witness :
  st_repository (snd (run build_fails)) = Some "acme/app"
  /\ (exists e,
         notifications (run_trace build_fails) = [msg_failed e; msg_rolled_back "v1.0"])
  /\ terminal_status (run_trace build_fails) = Some RolledBack.
Proof.
  apply (proj2 (proj2 (C10_rollback_is_a_noop_that_never_fails build_fails))
           "acme/app" "v1.0").
  vm_compute. left. reflexivity.
Defined.

(** * Further properties *)

(** ** Traces: one more round of bookkeeping *)

Lemma extend_nil (st : state) : extend [] st = st.
Proof. unfold extend. rewrite app_nil_r. now destruct st. Qed.

Lemma extend_app (evs evs' : list event) (st : state) :
  extend evs' (extend evs st) = extend (evs ++ evs') st.
Proof. unfold extend. simpl. now rewrite app_assoc. Qed.

Lemma add_event_extend (e : event) (evs : list event) (st : state) :
  add_event e (extend evs st) = extend (evs ++ [e]) st.
Proof. unfold add_event, extend. simpl. now rewrite app_assoc. Qed.

Lemma add_event_is_extend (e : event) (st : state) : add_event e st = extend [e] st.
Proof. reflexivity. Qed.

Lemma for_each_logger_info (lines : list string) (st : state) :
  for_each lines logger_info st = (Ret tt, extend (map (Log INFO) lines) st).
Proof.
  revert st. induction lines as [|l lines IH]; intros st; simpl.
  - unfold ret. now rewrite extend_nil.
  - unfold bind at 1. unfold logger_info at 1, emit. rewrite IH.
    now rewrite add_event_is_extend, extend_app.
Qed.

Lemma for_each_build_logs (logs : list build_log) (st : state) :
  for_each logs
    (fun log => match log with
                | Some stream => logger_info (strip stream)
                | None => ret tt
                end) st
  = (Ret tt, extend (map (Log INFO) (streams logs)) st).
Proof.
  revert st. induction logs as [|[stream|] logs IH]; intros st; simpl.
  - unfold ret. now rewrite extend_nil.
  - unfold bind at 1. unfold logger_info at 1, emit. rewrite IH.
    now rewrite add_event_is_extend, extend_app.
  - unfold bind at 1. unfold ret at 1. apply IH.
Qed.

(** Brings a state built by successive [add_event]s to the form
    [extend evs st]. *)
Ltac as_extend :=
  rewrite ?add_event_is_extend, ?extend_app; simpl app; try reflexivity.

(** ** The stage functions, event by event *)

(** X1: [run_tests] returns exactly when the test command exits with 0.
    When it exits with anything else the function raises [NameError] for
    the name [subprocess], which the module never imports, and not the
    [CalledProcessError] of its docstring.  Either way it runs the one
    command [<venv_python> -m unittest discover <test_dir>]. *)
Theorem X1_run_tests_raises_name_error (w : World) (venv_python test_dir : string)
        (st : state) :
  let cmd := venv_python +:+ " -m unittest discover " +:+ test_dir in
  run_tests w venv_python test_dir st
  = (if (w_os_system w cmd =? 0)%Z then Ret tt else Raise (NameError "subprocess"),
     extend [Call_run_tests venv_python test_dir; Log INFO "Running unit tests";
             OsSystem cmd] st).
Proof.
  intros cmd. unfold run_tests, os_system, logger_info.
  cbv [bind emit ret]. fold cmd.
  destruct (w_os_system w cmd =? 0)%Z; simpl; as_extend.
Qed.

(** X2: with a webhook configured and answering, [send_slack_notification]
    posts once and returns.  It logs the call as sent when the status is
    below 400 or at least 600, and as failed, with the text of
    [raise_for_status], when the status is from 400 to 599: a client
    error up to 499, a server error from 500. *)
Theorem X2_send_slack_notification_http_status (w : World) (url message reason : string)
        (code : Z) (st : state) :
  webhook w = Some url ->
  w_post w (st_posts st) = Response code reason ->
  send_slack_notification w message st
  = (Ret tt,
     with_posts (S (st_posts st))
       (extend [Call_send_slack_notification message;
                HttpPost url message;
                if is_http_error code
                then Log ERROR ("Failed to send Slack notification: "
                                  +:+ http_error_text code reason url)
                else Log INFO "Slack notification sent successfully"]
               st)).
Proof.
  unfold webhook. intros Hurl Hpost. unfold send_slack_notification. rewrite Hurl.
  cbv [bind emit try_except requests_post raise_for_status logger_info logger_error
       raise ret]. simpl. rewrite Hpost. simpl.
  unfold is_http_error, http_error_text.
  destruct (400 <=? code)%Z eqn:H400; simpl.
  - destruct (code <? 500)%Z eqn:H500; simpl.
    + assert ((code <? 600)%Z = true) as -> by lia. simpl.
      unfold add_event, with_posts, extend. simpl. now rewrite <- !app_assoc.
    + assert ((500 <=? code)%Z = true) as -> by lia. simpl.
      destruct (code <? 600)%Z; simpl;
        unfold add_event, with_posts, extend; simpl; now rewrite <- !app_assoc.
  - assert ((500 <=? code)%Z = false) as -> by lia. simpl.
    unfold add_event, with_posts, extend. simpl. now rewrite <- !app_assoc.
Qed.

Lemma X2_send_slack_notification_http_status_witness :
  let w := Samples.webhook_answers 404 "Not Found" Samples.all_good in
  send_slack_notification w msg_success (init_state w)
  = (Ret tt,
     with_posts 1
       (extend [Call_send_slack_notification msg_success;
                HttpPost "https://hooks.example/T0" msg_success;
                Log ERROR ("Failed to send Slack notification: "
                             +:+ "404 Client Error: Not Found for url: https://hooks.example/T0")]
               (init_state w))).
Proof.
  intros w.
  apply (X2_send_slack_notification_http_status w "https://hooks.example/T0" msg_success
           "Not Found" 404 (init_state w)); reflexivity.
Defined.

(** The bounds of the two ranges. *)
Example http_status_bounds :
  map is_http_error [399; 400; 499; 500; 599; 600]%Z
  = [false; true; true; true; true; false]
  /\ http_error_text 499 "x" "u" = "499 Client Error: x for url: u"
  /\ http_error_text 500 "x" "u" = "500 Server Error: x for url: u".
Proof. vm_compute. repeat split. Qed.

(** X3: an empty [SLACK_WEBHOOK_URL] counts as none.  With the variable
    unset or set to the empty string a call posts nothing: it records
    its entry, logs one warning and returns. *)
Theorem X3_empty_webhook_url_is_no_webhook (w : World) (message : string) (st : state) :
  w_environ w !! "SLACK_WEBHOOK_URL" = None
  \/ w_environ w !! "SLACK_WEBHOOK_URL" = Some "" ->
  send_slack_notification w message st
  = (Ret tt,
     extend [Call_send_slack_notification message;
             Log WARNING "Slack webhook URL not configured. Skipping notification."]
            st)
  /\ posts (st_trace (snd (send_slack_notification w message st))) = posts (st_trace st).
Proof.
  intros Henv.
  assert (Hurl : truthy (SLACK_WEBHOOK_URL w) = None)
    by (unfold SLACK_WEBHOOK_URL, environ_get; destruct Henv as [-> | ->]; reflexivity).
  unfold send_slack_notification. rewrite Hurl.
  unfold logger_warning. cbv [bind emit]. split.
  - as_extend.
  - simpl. unfold posts. rewrite !flat_map_app. simpl. now rewrite !app_nil_r.
Qed.

Lemma X3_empty_webhook_url_is_no_webhook_witness :
  let w := Samples.empty_webhook Samples.all_good in
  send_slack_notification w msg_success (init_state w)
  = (Ret tt,
     extend [Call_send_slack_notification msg_success;
             Log WARNING "Slack webhook URL not configured. Skipping notification."]
            (init_state w))
  /\ posts (st_trace (snd (send_slack_notification w msg_success (init_state w))))
     = posts (st_trace (init_state w)).
Proof.
  intros w. apply (X3_empty_webhook_url_is_no_webhook w msg_success (init_state w)).
  right. reflexivity.
Defined.

(** X4: a build that succeeds returns the image the client built and
    logs, after the opening line, the ['stream'] value of every log entry
    that has one, stripped, in the order of the log; entries without
    ['stream'] leave no line.  The client is asked once, with the build
    context as path, the Dockerfile and the image name as tag. *)
Theorem X4_build_docker_image_logs_streams (w : World)
        (image_name dockerfile_path build_context image : string)
        (build_logs : list build_log) (st : state) :
  w_from_env_build w = None ->
  w_images_build w = inr (image, build_logs) ->
  build_docker_image w image_name dockerfile_path build_context st
  = (Ret image,
     extend ([Call_build_docker_image image_name dockerfile_path build_context;
              Log INFO ("Building Docker image: " +:+ image_name);
              DockerFromEnv;
              ImagesBuild build_context dockerfile_path image_name]
               ++ map (Log INFO) (streams build_logs)) st).
Proof.
  intros Henv Hbuild. unfold build_docker_image, external, logger_info.
  rewrite Henv, Hbuild. cbv [bind emit try_except ret]. simpl.
  rewrite for_each_build_logs. simpl. as_extend.
Qed.

Lemma X4_build_docker_image_logs_streams_witness :
  build_docker_image Samples.all_good "app" "Dockerfile" "." (init_state Samples.all_good)
  = (Ret "sha256:1f2e",
     extend [Call_build_docker_image "app" "Dockerfile" ".";
             Log INFO "Building Docker image: app";
             DockerFromEnv;
             ImagesBuild "." "Dockerfile" "app";
             Log INFO "Step 1/2 : FROM python"]
            (init_state Samples.all_good)).
Proof.
  apply (X4_build_docker_image_logs_streams Samples.all_good "app" "Dockerfile" "."
           "sha256:1f2e" [Some "Step 1/2 : FROM python "; None]); reflexivity.
Defined.

(** X5: [push_docker_image] logs in before it pushes, with the
    credentials it was given.  Once logged in it asks for one push, logs
    every line the push streams, in order, and ends as the stream ends:
    it returns, or raises what the stream raised, with an error line
    first when that is an [APIError]. *)
Theorem X5_push_docker_image_streams_then_ends (w : World) (repository tag : string)
        (username password : option string) (st : state) :
  w_from_env_push w = None ->
  w_login w = None ->
  push_docker_image w repository tag username password st
  = (opt_result (snd (w_images_push w)),
     extend ([Call_push_docker_image repository tag username password;
              Log INFO ("Pushing Docker image: " +:+ repository +:+ ":" +:+ tag);
              DockerFromEnv;
              Login username password;
              ImagesPush repository tag]
               ++ map (Log INFO) (fst (w_images_push w))
               ++ match snd (w_images_push w) with
                  | Some e =>
                      if is_APIError e
                      then [Log ERROR ("Failed to push Docker image: " +:+ str e)]
                      else []
                  | None => []
                  end) st).
Proof.
  intros Henv Hlogin. unfold push_docker_image, external, logger_info, logger_error.
  rewrite Henv, Hlogin. cbv [bind emit try_except ret raise]. simpl.
  rewrite for_each_logger_info. simpl.
  destruct (snd (w_images_push w)) as [e|]; simpl.
  - destruct (is_APIError e); simpl; as_extend.
    rewrite app_nil_r. reflexivity.
  - as_extend. rewrite app_nil_r. reflexivity.
Qed.

Lemma X5_push_docker_image_streams_then_ends_witness :
  push_docker_image Samples.push_breaks_off "acme/app" "v2.0" None None
    (init_state Samples.push_breaks_off)
  = (Raise (OtherError "ConnectionError" "Connection aborted."),
     extend [Call_push_docker_image "acme/app" "v2.0" None None;
             Log INFO "Pushing Docker image: acme/app:v2.0";
             DockerFromEnv;
             Login None None;
             ImagesPush "acme/app" "v2.0";
             Log INFO "{'status': 'Preparing'}";
             Log INFO "{'status': 'Pushing'}"]
            (init_state Samples.push_breaks_off)).
Proof.
  apply (X5_push_docker_image_streams_then_ends Samples.push_breaks_off "acme/app" "v2.0"
           None None); reflexivity.
Defined.

(** X6: a refused login stops [push_docker_image] before any push: the
    exception of [client.login] is raised again as it is, after an error
    line when it is an [APIError], and [client.images.push] is not
    called. *)
Theorem X6_push_docker_image_needs_login (w : World) (repository tag : string)
        (username password : option string) (e : exc) (st : state) :
  w_from_env_push w = None ->
  w_login w = Some e ->
  push_docker_image w repository tag username password st
  = (Raise e,
     extend ([Call_push_docker_image repository tag username password;
              Log INFO ("Pushing Docker image: " +:+ repository +:+ ":" +:+ tag);
              DockerFromEnv;
              Login username password]
               ++ if is_APIError e
                  then [Log ERROR ("Failed to push Docker image: " +:+ str e)]
                  else []) st).
Proof.
  intros Henv Hlogin. unfold push_docker_image, external, logger_info, logger_error.
  rewrite Henv, Hlogin. cbv [bind emit try_except ret raise]. simpl.
  destruct (is_APIError e); simpl; as_extend.
Qed.

Lemma X6_push_docker_image_needs_login_witness :
  push_docker_image Samples.login_fails "acme/app" "v2.0" None None
    (init_state Samples.login_fails)
  = (Raise (APIError "401 Client Error: Unauthorized"),
     extend [Call_push_docker_image "acme/app" "v2.0" None None;
             Log INFO "Pushing Docker image: acme/app:v2.0";
             DockerFromEnv;
             Login None None;
             Log ERROR "Failed to push Docker image: 401 Client Error: Unauthorized"]
            (init_state Samples.login_fails)).
Proof.
  apply (X6_push_docker_image_needs_login Samples.login_fails "acme/app" "v2.0"
           None None (APIError "401 Client Error: Unauthorized")); reflexivity.
Defined.

(** X7: the three Docker stages hand on the exception of the client
    unchanged, and write their own error line exactly for the class they
    catch: [BuildError] in [build_docker_image], [APIError] in
    [tag_docker_image].  An exception of [docker.from_env] is outside the
    [try]: it gets no error line and the build is not asked for. *)
Theorem X7_docker_stages_reraise (w : World) (e : exc) (st : state) :
  (forall image_name dockerfile_path build_context,
      w_from_env_build w = Some e ->
      build_docker_image w image_name dockerfile_path build_context st
      = (Raise e,
         extend [Call_build_docker_image image_name dockerfile_path build_context;
                 Log INFO ("Building Docker image: " +:+ image_name);
                 DockerFromEnv] st))
  /\ (forall image_name dockerfile_path build_context,
         w_from_env_build w = None ->
         w_images_build w = inl e ->
         build_docker_image w image_name dockerfile_path build_context st
         = (Raise e,
            extend ([Call_build_docker_image image_name dockerfile_path build_context;
                     Log INFO ("Building Docker image: " +:+ image_name);
                     DockerFromEnv;
                     ImagesBuild build_context dockerfile_path image_name]
                      ++ if is_BuildError e
                         then [Log ERROR ("Docker build failed: " +:+ str e)]
                         else []) st))
  /\ (forall image repository tag,
         w_image_tag w = Some e ->
         tag_docker_image w image repository tag st
         = (Raise e,
            extend ([Call_tag_docker_image image repository tag;
                     Log INFO ("Tagging Docker image: " +:+ repository +:+ ":" +:+ tag);
                     ImageTag image repository tag]
                      ++ if is_APIError e
                         then [Log ERROR ("Failed to tag Docker image: " +:+ str e)]
                         else []) st)).
Proof.
  split; [|split].
  - intros image_name dockerfile_path build_context Henv.
    unfold build_docker_image, external, logger_info. rewrite Henv.
    cbv [bind emit raise]. as_extend.
  - intros image_name dockerfile_path build_context Henv Hbuild.
    unfold build_docker_image, external, logger_info, logger_error.
    rewrite Henv, Hbuild. cbv [bind emit try_except ret raise]. simpl.
    destruct (is_BuildError e); simpl; as_extend.
  - intros image repository tag Htag.
    unfold tag_docker_image, external, logger_info, logger_error. rewrite Htag.
    cbv [bind emit try_except ret raise]. simpl.
    destruct (is_APIError e); simpl; as_extend.
Qed.

Lemma X7_docker_stages_reraise_witness :
  build_docker_image Samples.build_fails "app" "Dockerfile" "."
    (init_state Samples.build_fails)
  = (Raise (BuildError "The command returned a non-zero code: 1"),
     extend [Call_build_docker_image "app" "Dockerfile" ".";
             Log INFO "Building Docker image: app";
             DockerFromEnv;
             ImagesBuild "." "Dockerfile" "app";
             Log ERROR "Docker build failed: The command returned a non-zero code: 1"]
            (init_state Samples.build_fails)).
Proof.
  apply (proj1 (proj2 (X7_docker_stages_reraise Samples.build_fails
                         (BuildError "The command returned a non-zero code: 1")
                         (init_state Samples.build_fails)))
           "app" "Dockerfile" "."); reflexivity.
Defined.

(** ** Runs: how they end *)

Lemma classify_failed (e : exc) : classify (msg_failed e) = None.
Proof. reflexivity. Qed.

Lemma cfg_getitem_missing_key (c : Config) (key value other : string) :
  cfg_getitem c "Docker" key = inr value ->
  has_option c "Docker" other = false ->
  cfg_getitem c "Docker" other = inl (KeyError other).
Proof.
  unfold cfg_getitem.
  destruct (negb ("Docker" =? DEFAULTSECT)%string && negb (has_section c "Docker"));
    [discriminate|].
  intros _ ->. reflexivity.
Qed.

(** X8: a config that cannot be read, or that has no [Tag] in section
    [Docker], ends the process before the [try]: the exception leaves
    [main] uncaught, the exit status is 1, no stage function is entered,
    no notification is sent, [rollback_deployment] is not called and the
    config file is left as it was. *)
Theorem X8_unreadable_config_is_uncaught (w : World) (e : exc) :
  w_config_read w = inl e
  \/ (exists c, w_config_read w = inr c /\ cfg_getitem c "Docker" "Tag" = inl e) ->
  fst (run w) = Raise e
  /\ run_exit w = 1%Z
  /\ stage_entered (run_trace w) = false
  /\ notifications (run_trace w) = []
  /\ rollbacks (run_trace w) = []
  /\ run_disk w = w_disk w.
Proof.
  intros Hwhy. unfold run_exit, run_trace, run_disk.
  destruct (run_shape w) as [e0 Hr Hwhy0 Hok Hdisk Hn Hb Hw Hs Hg Hrepo
                            |c c' prev repository version Hr Hcfg Htag
                            |c prev e0 Hr Hcfg Htag
                            |c prev repository e0 Hr Hcfg Htag
                            |c c' prev repository version e0 Hr Hcfg Htag];
    try (destruct Hwhy as [Hwhy|(c1 & Hc1 & Hwhy)]; congruence).
  assert (e0 = e) as ->.
  { destruct Hwhy as [Hwhy|(c1 & Hc1 & Hwhy)], Hwhy0 as [Hwhy0|(c0 & Hc0 & Hwhy0)];
      congruence. }
  rewrite Hr. repeat split; assumption.
Qed.

Lemma X8_unreadable_config_is_uncaught_witness :
  fst (run Samples.missing_config) = Raise (KeyError "Docker")
  /\ run_exit Samples.missing_config = 1%Z
  /\ stage_entered (run_trace Samples.missing_config) = false
  /\ notifications (run_trace Samples.missing_config) = []
  /\ rollbacks (run_trace Samples.missing_config) = []
  /\ run_disk Samples.missing_config = w_disk Samples.missing_config.
Proof.
  apply (X8_unreadable_config_is_uncaught Samples.missing_config (KeyError "Docker")).
  right. exists (mkConfig [] []). split; reflexivity.
Defined.

(** X9: a run sends one notification, two, or none.  It sends the
    success text alone exactly when every stage succeeded; otherwise it
    sends nothing (the config could not be read) or the failure text
    followed by one text on the rollback, and never the success text. *)
Theorem X9_notifications_of_a_run (w : World) :
  (stages_succeed w = true -> notifications (run_trace w) = [msg_success])
  /\ (stages_succeed w = false ->
      ~ In msg_success (notifications (run_trace w))
      /\ (notifications (run_trace w) = []
          \/ exists e m,
               notifications (run_trace w) = [msg_failed e; m]
               /\ (classify m = Some RolledBack \/ classify m = Some RollbackFailed)))
  /\ (length (notifications (run_trace w)) <= 2)%nat.
Proof.
  assert (Hne : forall e m, classify m <> Some Success ->
                            ~ In msg_success [msg_failed e; m]).
  { intros e m Hm [H|[H|[]]].
    - pose proof (classify_failed e) as Hc. rewrite H in Hc. discriminate.
    - apply Hm. now rewrite H. }
  unfold run_trace.
  destruct (run_shape w) as [e Hr Hwhy Hok Hdisk Hn Hb Hw Hs Hg Hrepo
                            |c c' prev repository version Hr Hcfg Htag Hrep Hver Hset
                               Hok Hearly Hdisk Hconf Hn Hb Hw Hs Hrepo
                            |c prev e Hr Hcfg Htag Hok Hdisk Hn Hb Hw Hs Hrepo
                            |c prev repository e Hr Hcfg Htag Hrep Hok Hearly Hdisk
                               Hn Hb Hw Hs Hrepo
                            |c c' prev repository version e Hr Hcfg Htag Hrep Hver Hset
                               Hok Hearly Hopen Hconf Hn Hb Hw Hs Hrepo];
    rewrite Hn, Hok; (split; [|split]); try discriminate; try (simpl; lia).
  - intros _. split; [intros [] | now left].
  - reflexivity.
  - intros _. split.
    + apply Hne. now rewrite classify_rollback_failed.
    + right. eexists _, _. split; [reflexivity|]. right. apply classify_rollback_failed.
  - intros _. split.
    + apply Hne. now rewrite classify_rolled_back.
    + right. eexists _, _. split; [reflexivity|]. left. apply classify_rolled_back.
  - intros _. split.
    + apply Hne. now rewrite classify_rolled_back.
    + right. eexists _, _. split; [reflexivity|]. left. apply classify_rolled_back.
Qed.

Lemma X9_notifications_of_a_run_witness :
  notifications (run_trace Samples.all_good) = [msg_success]
  /\ ~ In msg_success (notifications (run_trace Samples.push_fails)).
Proof.
  split.
  - apply (proj1 (X9_notifications_of_a_run Samples.all_good)). reflexivity.
  - apply (proj1 (proj2 (X9_notifications_of_a_run Samples.push_fails))). reflexivity.
Defined.

(** ** Runs: the order of the stages *)

Lemma build_entered_observe (t : list event) : build_entered (observe t) = build_entered t.
Proof.
  unfold observe. induction t as [|e t IH]; simpl; [reflexivity|].
  destruct e; simpl; rewrite ?IH; reflexivity.
Qed.

Lemma tag_entered_observe (t : list event) : tag_entered (observe t) = tag_entered t.
Proof.
  unfold observe. induction t as [|e t IH]; simpl; [reflexivity|].
  destruct e; simpl; rewrite ?IH; reflexivity.
Qed.

Lemma push_entered_observe (t : list event) : push_entered (observe t) = push_entered t.
Proof.
  unfold observe. induction t as [|e t IH]; simpl; [reflexivity|].
  destruct e; simpl; rewrite ?IH; reflexivity.
Qed.

Lemma opened_for_writing_observe (t : list event) :
  opened_for_writing (observe t) = opened_for_writing t.
Proof.
  unfold observe. induction t as [|e t IH]; simpl; [reflexivity|].
  destruct e; simpl; rewrite ?IH; reflexivity.
Qed.

Lemma existsb_writes (p : event -> bool) (chunks : list string) :
  (forall chunk, p (FpWrite chunk) = false) -> existsb p (map FpWrite chunks) = false.
Proof. intros Hp. induction chunks as [|c l IH]; simpl; [reflexivity|]. now rewrite Hp. Qed.

Lemma opened_for_writing_app (t t' : list event) :
  opened_for_writing (t ++ t') = opened_for_writing t ++ opened_for_writing t'.
Proof. apply flat_map_app. Qed.

Lemma opened_for_writing_writes (chunks : list string) :
  opened_for_writing (map FpWrite chunks) = [].
Proof. induction chunks; simpl; auto. Qed.

(** The runs of the skeleton, one failure point after the other; [leaf]
    closes each. *)
Ltac skeleton_cases w leaf :=
  unfold run_skeleton, main_skeleton, load_config_skeleton, pipeline_skeleton,
    on_failure_skeleton;
  cbv [bind stage emit try_except config_getitem config_setitem store_repository
       load_repository raise ret sys_exit is_Exception];
  cbv zeta; simpl;
  destruct (w_config_read w) as [e|c] eqn:Hcfg; simpl; [leaf|];
  destruct (cfg_getitem c "Docker" "Tag") as [e|prev] eqn:Htag; simpl; [leaf|];
  destruct (w_venv_create w) as [e|] eqn:Hvenv; simpl; [leaf|];
  unfold install_result;
  destruct (w_path_exists w (REQUIREMENTS_FILE w)) eqn:Hreq; simpl; [|leaf];
  unfold tests_result;
  destruct (w_os_system w
              (get_venv_python w (VENV_NAME w) +:+ " -m unittest discover " +:+ TEST_DIR w)
            =? 0)%Z eqn:Htest; simpl; [|leaf];
  destruct (cfg_getitem c "Docker" "ImageName") as [e|image_name] eqn:Himg; simpl;
    [leaf|];
  destruct (cfg_getitem c "Docker" "Repository") as [e|repository] eqn:Hrepo; simpl;
    [leaf|];
  destruct (cfg_getitem c "Docker" "Version") as [e|version] eqn:Hver; simpl;
    [leaf|];
  unfold build_result;
  destruct (w_from_env_build w) as [e|] eqn:Hfeb; simpl; [leaf|];
  destruct (w_images_build w) as [e|[image build_logs]] eqn:Hbuild; simpl; [leaf|];
  destruct (w_image_tag w) as [e|] eqn:Himgtag; simpl; [leaf|];
  unfold push_result;
  destruct (w_from_env_push w) as [e|] eqn:Hfep; simpl; [leaf|];
  destruct (w_login w) as [e|] eqn:Hlogin; simpl; [leaf|];
  destruct (snd (w_images_push w)) as [e|] eqn:Hpush; simpl; [leaf|];
  destruct (cfg_setitem c "Docker" "Tag" ("v" +:+ version)) as [e|c'] eqn:Hset; simpl;
    [leaf|];
  persist_cases; simpl; leaf.

Local Opaque with_open_w.

Ltac gate_fact :=
  unfold tests_pass, config_complete, built, pushed, test_cmd; use_equations; simpl;
  reflexivity.

Ltac gates_leaf :=
  unfold build_entered, tag_entered, push_entered; simpl;
  rewrite ?existsb_app, ?opened_for_writing_app, ?opened_for_writing_writes,
    ?(existsb_writes _ _ (fun _ => eq_refl));
  simpl;
  repeat match goal with
         | |- _ /\ _ => split
         | |- false = true -> _ => discriminate
         | |- true = true -> _ => intros _
         | |- forall path, False -> _ => intros ? []
         | |- forall path, _ \/ False -> _ => intros ? [<-|[]]
         | |- _ = true => gate_fact
         | |- _ = _ => reflexivity
         end.

Lemma skeleton_gates (w : World) :
  let t := st_trace (snd (run_skeleton w)) in
  (build_entered t = true -> tests_pass w && config_complete w = true)
  /\ (tag_entered t = true -> tests_pass w && config_complete w && built w = true)
  /\ (push_entered t = true ->
      tests_pass w && config_complete w && built w && is_none (w_image_tag w) = true)
  /\ (forall path, In path (opened_for_writing t) ->
      path = CONFIG_FILE w
      /\ tests_pass w && config_complete w && built w && is_none (w_image_tag w)
         && pushed w = true).
Proof.
  cbv zeta. skeleton_cases w gates_leaf.
Qed.

Lemma run_view (w : World) :
  fst (run w) = fst (run_skeleton w)
  /\ same_view (snd (run w)) (snd (run_skeleton w)).
Proof. apply (main_eqv w (init_state w) (init_state w) (same_view_refl _)). Qed.

Lemma run_observed (w : World) :
  observe (run_trace w) = observe (st_trace (snd (run_skeleton w))).
Proof. destruct (run_view w) as (_ & _ & _ & _ & Ht). exact Ht. Qed.

(** X10: the stages are gates.  [build_docker_image] is entered only
    when the environment was created, the manifest is there, the tests
    exited with 0 and the config holds its four keys; [tag_docker_image]
    only when, besides, the image was built; [push_docker_image] only
    when, besides, it was tagged; and the only file opened for writing is
    [CONFIG_FILE], only after the push went through to its end. *)
Theorem X10_stages_are_gates (w : World) :
  (build_entered (run_trace w) = true -> tests_pass w && config_complete w = true)
  /\ (tag_entered (run_trace w) = true ->
      tests_pass w && config_complete w && built w = true)
  /\ (push_entered (run_trace w) = true ->
      tests_pass w && config_complete w && built w && is_none (w_image_tag w) = true)
  /\ (forall path, In path (opened_for_writing (run_trace w)) ->
      path = CONFIG_FILE w
      /\ tests_pass w && config_complete w && built w && is_none (w_image_tag w)
         && pushed w = true).
Proof.
  rewrite <- (build_entered_observe (run_trace w)), <- (tag_entered_observe (run_trace w)),
    <- (push_entered_observe (run_trace w)), <- (opened_for_writing_observe (run_trace w)).
  rewrite run_observed.
  rewrite build_entered_observe, tag_entered_observe, push_entered_observe,
    opened_for_writing_observe.
  apply skeleton_gates.
Qed.

Lemma X10_stages_are_gates_witness :
  tests_pass Samples.push_fails && config_complete Samples.push_fails
  && built Samples.push_fails && is_none (w_image_tag Samples.push_fails) = true.
Proof.
  apply (proj1 (proj2 (proj2 (X10_stages_are_gates Samples.push_fails)))).
  vm_compute. reflexivity.
Defined.

Ltac order_leaf :=
  intros Hok;
  first
    [ exfalso;
      match type of Hok with
      | stages_succeed ?w = true =>
          assert (Hno : stages_succeed w = false) by world_fact;
          rewrite Hno in Hok; discriminate Hok
      end
    | do 7 eexists;
      repeat match goal with |- _ /\ _ => split end;
      try eassumption; try reflexivity;
      simpl; rewrite ?firstn_all, ?observe_app, ?observe_writes; simpl;
      rewrite ?app_nil_r; reflexivity ].

Lemma skeleton_successful_run_in_order (w : World) :
  stages_succeed w = true ->
  exists c c' image_name repository version image build_logs,
    w_config_read w = inr c
    /\ cfg_getitem c "Docker" "ImageName" = inr image_name
    /\ cfg_getitem c "Docker" "Repository" = inr repository
    /\ cfg_getitem c "Docker" "Version" = inr version
    /\ w_images_build w = inr (image, build_logs)
    /\ cfg_setitem c "Docker" "Tag" ("v" +:+ version) = inr c'
    /\ observe (st_trace (snd (run_skeleton w)))
       = [Call_load_config (CONFIG_FILE w);
          Call_create_venv (VENV_NAME w);
          Call_install_dependencies (get_venv_python w (VENV_NAME w)) (REQUIREMENTS_FILE w);
          Call_run_tests (get_venv_python w (VENV_NAME w)) (TEST_DIR w);
          Call_build_docker_image image_name (DOCKERFILE w) (BUILD_CONTEXT w);
          Call_tag_docker_image image repository ("v" +:+ version);
          Call_push_docker_image repository ("v" +:+ version)
            (DOCKER_USERNAME w) (DOCKER_PASSWORD w);
          OpenW (CONFIG_FILE w)]
         ++ map FpWrite (config_write c')
         ++ [Call_send_slack_notification msg_success].
Proof.
  skeleton_cases w order_leaf.
Qed.

(** X11: a run in which every stage succeeds enters each stage once and
    in this order: load the config, create the environment, install,
    test, build, tag, push, open the config file, write it, notify.  The
    image that is tagged is the one the build returned; tag and push get
    the same repository and the tag ["v"] followed by [Version]; the
    push gets the credentials of the environment. *)
Theorem X11_successful_run_in_order (w : World) :
  stages_succeed w = true ->
  exists c c' image_name repository version image build_logs,
    w_config_read w = inr c
    /\ cfg_getitem c "Docker" "ImageName" = inr image_name
    /\ cfg_getitem c "Docker" "Repository" = inr repository
    /\ cfg_getitem c "Docker" "Version" = inr version
    /\ w_images_build w = inr (image, build_logs)
    /\ cfg_setitem c "Docker" "Tag" ("v" +:+ version) = inr c'
    /\ observe (run_trace w)
       = [Call_load_config (CONFIG_FILE w);
          Call_create_venv (VENV_NAME w);
          Call_install_dependencies (get_venv_python w (VENV_NAME w)) (REQUIREMENTS_FILE w);
          Call_run_tests (get_venv_python w (VENV_NAME w)) (TEST_DIR w);
          Call_build_docker_image image_name (DOCKERFILE w) (BUILD_CONTEXT w);
          Call_tag_docker_image image repository ("v" +:+ version);
          Call_push_docker_image repository ("v" +:+ version)
            (DOCKER_USERNAME w) (DOCKER_PASSWORD w);
          OpenW (CONFIG_FILE w)]
         ++ map FpWrite (config_write c')
         ++ [Call_send_slack_notification msg_success].
Proof.
  intros Hok. rewrite run_observed. now apply skeleton_successful_run_in_order.
Qed.

Lemma X11_successful_run_in_order_witness :
  exists c c' image_name repository version image build_logs,
    w_config_read Samples.all_good = inr c
    /\ cfg_getitem c "Docker" "ImageName" = inr image_name
    /\ cfg_getitem c "Docker" "Repository" = inr repository
    /\ cfg_getitem c "Docker" "Version" = inr version
    /\ w_images_build Samples.all_good = inr (image, build_logs)
    /\ cfg_setitem c "Docker" "Tag" ("v" +:+ version) = inr c'
    /\ observe (run_trace Samples.all_good)
       = [Call_load_config (CONFIG_FILE Samples.all_good);
          Call_create_venv (VENV_NAME Samples.all_good);
          Call_install_dependencies
            (get_venv_python Samples.all_good (VENV_NAME Samples.all_good))
            (REQUIREMENTS_FILE Samples.all_good);
          Call_run_tests (get_venv_python Samples.all_good (VENV_NAME Samples.all_good))
            (TEST_DIR Samples.all_good);
          Call_build_docker_image image_name (DOCKERFILE Samples.all_good)
            (BUILD_CONTEXT Samples.all_good);
          Call_tag_docker_image image repository ("v" +:+ version);
          Call_push_docker_image repository ("v" +:+ version)
            (DOCKER_USERNAME Samples.all_good) (DOCKER_PASSWORD Samples.all_good);
          OpenW (CONFIG_FILE Samples.all_good)]
         ++ map FpWrite (config_write c')
         ++ [Call_send_slack_notification msg_success].
Proof. apply (X11_successful_run_in_order Samples.all_good). reflexivity. Defined.

Local Transparent with_open_w.

Lemma same_view_build_entered (st st' : state) :
  same_view st st' -> build_entered (st_trace st) = build_entered (st_trace st').
Proof.
  intros (_ & _ & _ & Ht).
  rewrite <- (build_entered_observe (st_trace st)), Ht. apply build_entered_observe.
Qed.

Lemma tests_pass_parts (w : World) :
  tests_pass w = true ->
  w_venv_create w = None
  /\ w_path_exists w (REQUIREMENTS_FILE w) = true
  /\ (w_os_system w
        (get_venv_python w (VENV_NAME w) +:+ " -m unittest discover " +:+ TEST_DIR w)
      =? 0)%Z = true.
Proof.
  unfold tests_pass, test_cmd. intros H.
  apply andb_true_iff in H as [H Htest]. apply andb_true_iff in H as [Hvenv Hreq].
  destruct (w_venv_create w); [discriminate|]. auto.
Qed.

(** Runs the skeleton under the equations at hand. *)
Ltac run_skeleton_with :=
  unfold run_skeleton, main_skeleton, load_config_skeleton, pipeline_skeleton,
    on_failure_skeleton;
  cbv [bind stage emit try_except config_getitem config_setitem store_repository
       load_repository raise ret sys_exit is_Exception
       install_result tests_result];
  cbv zeta; simpl;
  repeat (use_equations; simpl).

(** X12: a config that does not give one of the other keys of section
    [Docker] fails the run after the tests, before anything is built,
    with the error of that read: the [KeyError] of the key when the
    section has no such option.  Without [ImageName] or [Repository] the
    local [repository] is still unbound and the rollback raises; without
    [Version] it is bound, and [rollback_deployment] is entered with the
    repository and the old tag. *)
Theorem X12_missing_docker_key (w : World) (c : Config) (prev : string) :
  w_config_read w = inr c ->
  cfg_getitem c "Docker" "Tag" = inr prev ->
  tests_pass w = true ->
  (forall e,
      cfg_getitem c "Docker" "ImageName" = inl e ->
      notifications (run_trace w)
      = [msg_failed e; msg_rollback_failed (UnboundLocalError "repository")]
      /\ rollbacks (run_trace w) = []
      /\ build_entered (run_trace w) = false
      /\ (has_option c "Docker" "ImageName" = false -> e = KeyError "ImageName"))
  /\ (forall image_name e,
         cfg_getitem c "Docker" "ImageName" = inr image_name ->
         cfg_getitem c "Docker" "Repository" = inl e ->
         notifications (run_trace w)
         = [msg_failed e; msg_rollback_failed (UnboundLocalError "repository")]
         /\ rollbacks (run_trace w) = []
         /\ build_entered (run_trace w) = false
         /\ (has_option c "Docker" "Repository" = false -> e = KeyError "Repository"))
  /\ (forall image_name repository e,
         cfg_getitem c "Docker" "ImageName" = inr image_name ->
         cfg_getitem c "Docker" "Repository" = inr repository ->
         cfg_getitem c "Docker" "Version" = inl e ->
         notifications (run_trace w) = [msg_failed e; msg_rolled_back prev]
         /\ rollbacks (run_trace w) = [(repository, prev)]
         /\ build_entered (run_trace w) = false
         /\ (has_option c "Docker" "Version" = false -> e = KeyError "Version")).
Proof.
  intros Hcfg Htag Hpass.
  destruct (tests_pass_parts w Hpass) as (Hvenv & Hreq & Htest).
  destruct (run_view w) as (_ & Hv). unfold run_trace.
  rewrite (same_view_notifications _ _ Hv), (same_view_rollbacks _ _ Hv),
    (same_view_build_entered _ _ Hv).
  clear Hv.
  assert (Hkey : forall key e, cfg_getitem c "Docker" key = inl e ->
                               has_option c "Docker" key = false -> e = KeyError key).
  { intros key e He Hmiss. rewrite (cfg_getitem_missing_key _ _ _ _ Htag Hmiss) in He.
    congruence. }
  split; [|split].
  - intros e Himg. split; [|split; [|split]]; [..|now apply Hkey];
      run_skeleton_with; reflexivity.
  - intros image_name e Himg Hrepo. split; [|split; [|split]]; [..|now apply Hkey];
      run_skeleton_with; reflexivity.
  - intros image_name repository e Himg Hrepo Hver.
    split; [|split; [|split]]; [..|now apply Hkey]; run_skeleton_with; reflexivity.
Qed.

Lemma X12_missing_docker_key_witness :
  (notifications (run_trace Samples.no_image_name)
   = [msg_failed (KeyError "ImageName");
      msg_rollback_failed (UnboundLocalError "repository")]
   /\ rollbacks (run_trace Samples.no_image_name) = []
   /\ build_entered (run_trace Samples.no_image_name) = false)
  /\ (notifications (run_trace Samples.no_version)
      = [msg_failed (KeyError "Version"); msg_rolled_back "v1.0"]
      /\ rollbacks (run_trace Samples.no_version) = [("acme/app", "v1.0")]
      /\ build_entered (run_trace Samples.no_version) = false).
Proof.
  split.
  - destruct (proj1 (X12_missing_docker_key Samples.no_image_name
                       (mkConfig [] [("Docker", [("repository", "acme/app");
                                                 ("tag", "v1.0"); ("version", "2.0")])])
                       "v1.0" eq_refl eq_refl eq_refl)
                (KeyError "ImageName") eq_refl) as (Hn & Hr & Hb & _).
    split; [exact Hn | split; [exact Hr | exact Hb]].
  - destruct (proj2 (proj2 (X12_missing_docker_key Samples.no_version
                              (mkConfig [] [("Docker", [("imagename", "app");
                                                        ("repository", "acme/app");
                                                        ("tag", "v1.0")])])
                              "v1.0" eq_refl eq_refl eq_refl))
                "app" "acme/app" (KeyError "Version") eq_refl eq_refl eq_refl)
      as (Hn & Hr & Hb & _).
    split; [exact Hn | split; [exact Hr | exact Hb]].
Defined.

(** ** Properties of the trace that every step keeps *)

Lemma keeps_ret (I : list event -> Prop) {A} (a : A) : keeps I (ret a).
Proof. intros st H. exact H. Qed.

Lemma keeps_raise (I : list event -> Prop) {A} (e : exc) : keeps I (@raise A e).
Proof. intros st H. exact H. Qed.

Lemma keeps_sys_exit (I : list event -> Prop) {A} (code : Z) : keeps I (@sys_exit A code).
Proof. intros st H. exact H. Qed.

Lemma keeps_bind (I : list event -> Prop) {A B} (m : M A) (k : A -> M B) :
  keeps I m -> (forall a, keeps I (k a)) -> keeps I (bind m k).
Proof.
  intros Hm Hk st H. unfold bind. specialize (Hm st H).
  destruct (m st) as [[a|e|c] st']; simpl in *; [now apply Hk | assumption ..].
Qed.

Lemma keeps_try_except (I : list event -> Prop) {A} (catches : exc -> bool)
      (m : M A) (h : exc -> M A) :
  keeps I m -> (forall e, keeps I (h e)) -> keeps I (try_except catches m h).
Proof.
  intros Hm Hh st H. unfold try_except. specialize (Hm st H).
  destruct (m st) as [[a|e|c] st']; simpl in *; try assumption.
  destruct (catches e); [now apply Hh | assumption].
Qed.

Lemma keeps_for_each (I : list event -> Prop) {A} (l : list A) (body : A -> M unit) :
  (forall x, keeps I (body x)) -> keeps I (for_each l body).
Proof.
  intros Hb. induction l as [|x l IH]; simpl.
  - apply keeps_ret.
  - apply keeps_bind; [apply Hb | intros _; exact IH].
Qed.

Lemma keeps_emit (I : list event -> Prop) (e : event) :
  (forall t, I t -> I (t ++ [e])) -> keeps I (emit e).
Proof. intros He st H. simpl. now apply He. Qed.

(** A step that leaves the trace alone. *)
Lemma keeps_silent (I : list event -> Prop) {A} (m : M A) :
  (forall st, st_trace (snd (m st)) = st_trace st) -> keeps I m.
Proof. intros Hm st H. now rewrite Hm. Qed.

Lemma keeps_try_finally (I : list event -> Prop) {A} (m : M A) (cleanup : M unit) :
  keeps I m -> keeps I cleanup -> keeps I (try_finally m cleanup).
Proof.
  intros Hm Hc st H. unfold try_finally. specialize (Hm st H).
  destruct (m st) as [r st']. simpl in Hm. specialize (Hc st' Hm).
  destruct (cleanup st') as [[[]|e|c] st'']; simpl in *; assumption.
Qed.

Lemma keeps_config_write_file (I : list event -> Prop) (w : World) :
  (forall chunk, keeps I (fp_write w chunk)) -> keeps I (config_write_file w).
Proof.
  intros Hw st H. unfold config_write_file.
  now apply (keeps_for_each I (config_write (st_config st)) (fp_write w) Hw st).
Qed.

(** A stage function, known by what it shows of itself. *)
Lemma keeps_enters (I : list event -> Prop) {A} (cs : list event) (r : result A)
      (m : M A) :
  enters cs r m ->
  (forall t evs, I t -> observe evs = cs -> I (t ++ evs)) ->
  keeps I m.
Proof.
  intros Hm Hadd st H. destruct (Hm st) as (evs & n & -> & Hobs). simpl.
  now apply Hadd.
Qed.

Lemma keeps_config_getitem (I : list event -> Prop) (section key : string) :
  keeps I (config_getitem section key).
Proof.
  apply keeps_silent. intros st. unfold config_getitem.
  now destruct (cfg_getitem (st_config st) section key).
Qed.

Lemma keeps_config_setitem (I : list event -> Prop) (section key value : string) :
  keeps I (config_setitem section key value).
Proof.
  apply keeps_silent. intros st. unfold config_setitem.
  now destruct (cfg_setitem (st_config st) section key value).
Qed.

Lemma keeps_load_repository (I : list event -> Prop) : keeps I load_repository.
Proof.
  apply keeps_silent. intros st. unfold load_repository.
  now destruct (st_repository st).
Qed.

Lemma keeps_store_repository (I : list event -> Prop) (r : string) :
  keeps I (store_repository r).
Proof. apply keeps_silent. reflexivity. Qed.

Ltac silent_step :=
  apply keeps_silent; intros ?; simpl;
  repeat match goal with
         | |- context [match ?x with _ => _ end] => destruct x
         end;
  reflexivity.

(** Walks through [main]: [custom] settles the functions taken as a
    whole, [side] the events emitted one by one. *)
Ltac keeps_walk custom side :=
  repeat first
    [ custom
    | apply keeps_ret
    | apply keeps_raise
    | apply keeps_sys_exit
    | apply keeps_bind; [|intros ?]
    | apply keeps_try_except; [|intros ?]
    | apply keeps_try_finally
    | apply keeps_for_each; intros ?
    | apply keeps_config_write_file; intros ?
    | apply keeps_config_getitem
    | apply keeps_config_setitem
    | apply keeps_load_repository
    | apply keeps_store_repository
    | apply keeps_emit; side
    | match goal with
      | |- keeps _ (match ?x with _ => _ end) => destruct x
      end
    | progress (unfold main, pipeline, on_failure, load_config, create_venv,
                install_dependencies, run_tests, build_docker_image, tag_docker_image,
                push_docker_image, send_slack_notification, rollback_deployment,
                logger_info, logger_warning, logger_error, external, os_path_exists,
                os_system, requests_post, raise_for_status, with_open_w, open_w,
                fp_write, fp_close, load_global; cbv zeta)
    | silent_step ].

(** *** Posts and notifications *)

Lemma posts_app (t t' : list event) : posts (t ++ t') = posts t ++ posts t'.
Proof. apply flat_map_app. Qed.

Lemma posted_once_add (w : World) (t : list event) (e : event) :
  posts [e] = [] -> notifications [e] = [] ->
  posted_once w t -> posted_once w (t ++ [e]).
Proof.
  unfold posted_once. intros Hp Hn H.
  rewrite posts_app, notifications_app, Hp, Hn, !app_nil_r. exact H.
Qed.

Lemma posted_once_send (w : World) (message : string) :
  keeps (posted_once w) (send_slack_notification w message).
Proof.
  intros st H. unfold posted_once, webhook in *. unfold send_slack_notification.
  destruct (truthy (SLACK_WEBHOOK_URL w)) as [url|].
  - cbv [bind emit try_except requests_post raise_for_status logger_info logger_error
         raise ret]; simpl.
    destruct (w_post w (st_posts st)) as [code reason|msg]; simpl;
      [destruct ((400 <=? code)%Z && (code <? 500)%Z);
         [|destruct ((500 <=? code)%Z && (code <? 600)%Z)]; simpl|];
      rewrite !posts_app, !notifications_app, !map_app, H; simpl;
      rewrite ?app_nil_r; reflexivity.
  - unfold logger_warning. cbv [bind emit]. simpl.
    rewrite !posts_app. simpl. now rewrite !app_nil_r.
Qed.

Lemma posted_once_main (w : World) : keeps (posted_once w) (main w).
Proof.
  keeps_walk ltac:(apply posted_once_send)
             ltac:(intros ?; apply posted_once_add; reflexivity).
Qed.

(** X13: every notification of a run goes out as exactly one HTTP post,
    in the order of the notifications, to the configured webhook and with
    the notification as its text; nothing else is ever posted, nothing is
    posted twice, and nothing at all without a webhook.  A run makes at
    most two posts. *)
Theorem X13_one_post_per_notification (w : World) :
  posts (run_trace w)
  = match webhook w with
    | Some url => map (fun m => (url, m)) (notifications (run_trace w))
    | None => []
    end
  /\ (length (posts (run_trace w)) <= 2)%nat.
Proof.
  assert (H : posted_once w (run_trace w)).
  { apply posted_once_main. unfold posted_once. simpl. now destruct (webhook w). }
  split; [exact H|]. rewrite H.
  assert (Hlen : (length (notifications (run_trace w)) <= 2)%nat).
  { unfold run_trace.
    destruct (run_shape w) as [e Hr Hwhy Hok Hdisk Hn
                              |c c' prev repository version Hr Hcfg Htag Hrep Hver Hset
                                 Hok Hearly Hdisk Hconf Hn
                              |c prev e Hr Hcfg Htag Hok Hdisk Hn
                              |c prev repository e Hr Hcfg Htag Hrep Hok Hearly Hdisk Hn
                              |c c' prev repository version e Hr Hcfg Htag Hrep Hver Hset
                                 Hok Hearly Hopen Hconf Hn];
      rewrite Hn; simpl; lia. }
  destruct (webhook w); [now rewrite length_map | simpl; lia].
Qed.

(** A failing run with an unreachable webhook: two posts, both tried once. *)
Example two_posts_when_webhook_is_down :
  posts (run_trace (Samples.webhook_down Samples.build_fails))
  = [("https://hooks.example/T0",
      msg_failed (BuildError "The command returned a non-zero code: 1"));
     ("https://hooks.example/T0", msg_rolled_back "v1.0")].
Proof. vm_compute. reflexivity. Qed.

(** *** The Docker client *)

Lemma docker_contacted_app (t t' : list event) :
  docker_contacted (t ++ t') = docker_contacted t || docker_contacted t'.
Proof. apply existsb_app. Qed.

Lemma docker_stage_entered_app (t t' : list event) :
  docker_stage_entered (t ++ t') = docker_stage_entered t || docker_stage_entered t'.
Proof.
  unfold docker_stage_entered, build_entered, tag_entered, push_entered.
  rewrite !existsb_app.
  repeat match goal with |- context [existsb ?p ?l] => destruct (existsb p l) end;
    reflexivity.
Qed.

Lemma docker_stage_entered_observe (t : list event) :
  docker_stage_entered (observe t) = docker_stage_entered t.
Proof.
  unfold docker_stage_entered.
  now rewrite build_entered_observe, tag_entered_observe, push_entered_observe.
Qed.

Lemma docker_inside_stage_add (t : list event) (e : event) :
  is_docker_call e = false -> docker_inside_stage t -> docker_inside_stage (t ++ [e]).
Proof.
  unfold docker_inside_stage. intros He H Hc.
  rewrite docker_contacted_app in Hc. simpl in Hc. rewrite He in Hc. simpl in Hc.
  rewrite orb_false_r in Hc. rewrite docker_stage_entered_app, (H Hc). reflexivity.
Qed.

Lemma docker_inside_stage_enters {A} (c : event) (r : result A) (m : M A) :
  docker_stage_entered [c] = true -> enters [c] r m -> keeps docker_inside_stage m.
Proof.
  intros Hc Hm. apply (keeps_enters _ [c] r m Hm).
  intros t evs _ Hobs _.
  rewrite docker_stage_entered_app, <- (docker_stage_entered_observe evs), Hobs, Hc.
  apply orb_true_r.
Qed.

Lemma docker_inside_stage_main (w : World) : keeps docker_inside_stage (main w).
Proof.
  keeps_walk
    ltac:(eapply docker_inside_stage_enters;
          [| first [ apply build_docker_image_enters
                   | apply tag_docker_image_enters
                   | apply push_docker_image_enters ] ];
          reflexivity)
    ltac:(intros ?; apply docker_inside_stage_add; reflexivity).
Qed.

Lemma run_gates (w : World) :
  (build_entered (run_trace w) = true -> tests_pass w && config_complete w = true)
  /\ (tag_entered (run_trace w) = true ->
      tests_pass w && config_complete w && built w = true)
  /\ (push_entered (run_trace w) = true ->
      tests_pass w && config_complete w && built w && is_none (w_image_tag w) = true)
  /\ (forall path, In path (opened_for_writing (run_trace w)) ->
      path = CONFIG_FILE w
      /\ tests_pass w && config_complete w && built w && is_none (w_image_tag w)
         && pushed w = true).
Proof.
  rewrite <- (build_entered_observe (run_trace w)), <- (tag_entered_observe (run_trace w)),
    <- (push_entered_observe (run_trace w)), <- (opened_for_writing_observe (run_trace w)).
  rewrite run_observed.
  rewrite build_entered_observe, tag_entered_observe, push_entered_observe,
    opened_for_writing_observe.
  apply skeleton_gates.
Qed.

(** X14: the Docker client is never called, not even [docker.from_env],
    unless the environment was created, the manifest is there, the tests
    exited with 0 and the config holds its four keys. *)
Theorem X14_docker_only_after_tests (w : World) :
  docker_contacted (run_trace w) = true ->
  tests_pass w = true /\ config_complete w = true.
Proof.
  intros Hc.
  assert (H : docker_inside_stage (run_trace w))
    by (apply docker_inside_stage_main; intros Hn; discriminate Hn).
  specialize (H Hc). unfold docker_stage_entered in H.
  destruct (run_gates w) as (Hb & Ht & Hp & _).
  apply andb_true_iff.
  destruct (build_entered (run_trace w)); [now apply Hb|].
  destruct (tag_entered (run_trace w)).
  - specialize (Ht eq_refl). now apply andb_true_iff in Ht as [Ht _].
  - simpl in H. specialize (Hp H).
    apply andb_true_iff in Hp as [Hp _]. now apply andb_true_iff in Hp as [Hp _].
Qed.

Lemma X14_docker_only_after_tests_witness :
  tests_pass Samples.build_fails = true /\ config_complete Samples.build_fails = true.
Proof.
  apply (X14_docker_only_after_tests Samples.build_fails). vm_compute. reflexivity.
Defined.

(** With failing tests nothing of Docker is touched. *)
Example no_docker_after_failing_tests :
  docker_contacted (run_trace Samples.tests_fail) = false
  /\ docker_contacted (run_trace Samples.no_manifest) = false
  /\ docker_contacted (run_trace Samples.no_version) = false.
Proof. vm_compute. repeat split. Qed.

(** *** Shell commands *)

Lemma shell_commands_app (t t' : list event) :
  shell_commands (t ++ t') = shell_commands t ++ shell_commands t'.
Proof. apply flat_map_app. Qed.

Lemma commands_allowed_add (w : World) (t : list event) (e : event) :
  (forall cmd, In cmd (shell_commands [e]) -> allowed_command w cmd) ->
  commands_allowed w t -> commands_allowed w (t ++ [e]).
Proof.
  unfold commands_allowed. intros He H cmd Hin.
  rewrite shell_commands_app in Hin. apply in_app_or in Hin as [Hin|Hin]; auto.
Qed.

Lemma commands_allowed_install (w : World) :
  keeps (commands_allowed w)
        (install_dependencies w (get_venv_python w (VENV_NAME w)) (REQUIREMENTS_FILE w)).
Proof.
  intros st H. unfold install_dependencies, os_path_exists, os_system, logger_info.
  cbv [bind emit ret raise].
  destruct (w_path_exists w (REQUIREMENTS_FILE w)) eqn:Hreq; simpl.
  - repeat apply commands_allowed_add; try exact H;
      simpl; intros cmd Hin; try contradiction.
    destruct Hin as [<-|[]]. left. split; [reflexivity | exact Hreq].
  - repeat apply commands_allowed_add; try exact H;
      simpl; intros cmd Hin; contradiction.
Qed.

Lemma commands_allowed_main (w : World) : keeps (commands_allowed w) (main w).
Proof.
  keeps_walk
    ltac:(apply commands_allowed_install)
    ltac:(intros ?; apply commands_allowed_add;
          simpl; intros ? Hin;
          first [ contradiction
                | destruct Hin as [<-|[]]; right; reflexivity ]).
Qed.

(** X15: whatever a run hands to the shell is one of two commands:
    [pip install -r] on the manifest, and then the manifest is there, or
    [unittest discover] on the test directory, both through the
    interpreter of the virtual environment. *)
Theorem X15_only_pip_and_unittest (w : World) (cmd : string) :
  In cmd (shell_commands (run_trace w)) ->
  (cmd = get_venv_python w (VENV_NAME w) +:+ " -m pip install -r " +:+ REQUIREMENTS_FILE w
   /\ w_path_exists w (REQUIREMENTS_FILE w) = true)
  \/ cmd = get_venv_python w (VENV_NAME w) +:+ " -m unittest discover " +:+ TEST_DIR w.
Proof.
  intros Hin.
  assert (H : commands_allowed w (run_trace w))
    by (apply commands_allowed_main; intros c []).
  exact (H cmd Hin).
Qed.

Lemma X15_only_pip_and_unittest_witness :
  ("venv/bin/python -m pip install -r requirements.txt"
   = get_venv_python Samples.all_good (VENV_NAME Samples.all_good)
       +:+ " -m pip install -r " +:+ REQUIREMENTS_FILE Samples.all_good
   /\ w_path_exists Samples.all_good (REQUIREMENTS_FILE Samples.all_good) = true)
  \/ "venv/bin/python -m pip install -r requirements.txt"
     = get_venv_python Samples.all_good (VENV_NAME Samples.all_good)
         +:+ " -m unittest discover " +:+ TEST_DIR Samples.all_good.
Proof.
  apply (X15_only_pip_and_unittest Samples.all_good
           "venv/bin/python -m pip install -r requirements.txt").
  vm_compute. left. reflexivity.
Defined.

(** The commands of a successful run. *)
Example commands_of_a_successful_run :
  shell_commands (run_trace Samples.all_good)
  = ["venv/bin/python -m pip install -r requirements.txt";
     "venv/bin/python -m unittest discover tests"]
  /\ shell_commands (run_trace Samples.no_manifest) = [].
Proof. vm_compute. repeat split. Qed.

(** *** Registry credentials *)

Lemma logins_from_environ_add (w : World) (t : list event) (e : event) :
  (forall username password,
      e = Login username password ->
      username = w_environ w !! "DOCKER_USERNAME"
      /\ password = w_environ w !! "DOCKER_PASSWORD") ->
  logins_from_environ w t -> logins_from_environ w (t ++ [e]).
Proof.
  unfold logins_from_environ. intros He H username password Hin.
  apply in_app_or in Hin as [Hin|[Hin|[]]]; [now apply H | now apply He].
Qed.

Lemma logins_from_environ_main (w : World) : keeps (logins_from_environ w) (main w).
Proof.
  keeps_walk
    ltac:(fail)
    ltac:(intros ?; apply logins_from_environ_add;
          intros ? ? Heq; first [ discriminate Heq
                                | injection Heq as <- <-; split; reflexivity ]).
Qed.

(** X16: the registry credentials come from the environment and from
    nowhere else: every [client.login] of a run gets the values of
    [DOCKER_USERNAME] and [DOCKER_PASSWORD], [None] for a variable that
    is not set.  Nothing of the config file is used as a credential. *)
Theorem X16_credentials_from_environment (w : World) (username password : option string) :
  In (Login username password) (run_trace w) ->
  username = w_environ w !! "DOCKER_USERNAME"
  /\ password = w_environ w !! "DOCKER_PASSWORD".
Proof.
  intros Hin.
  assert (H : logins_from_environ w (run_trace w))
    by (apply logins_from_environ_main; intros u p []).
  exact (H username password Hin).
Qed.

Lemma X16_credentials_from_environment_witness :
  @None string = w_environ Samples.all_good !! "DOCKER_USERNAME"
  /\ @None string = w_environ Samples.all_good !! "DOCKER_PASSWORD".
Proof.
  apply (X16_credentials_from_environment Samples.all_good None None).
  vm_compute. repeat (first [left; reflexivity | right]).
Defined.

(** *** The failure handler *)

Lemma forward_events_app (t t' : list event) :
  forward_events (t ++ t') = forward_events t ++ forward_events t'.
Proof. apply List.filter_app. Qed.

Lemma forward_events_add (v t : list event) (e : event) :
  is_forward e = false -> forward_events t = v -> forward_events (t ++ [e]) = v.
Proof.
  intros He H. rewrite forward_events_app. simpl. rewrite He. now rewrite app_nil_r.
Qed.

Lemma forward_events_on_failure (w : World) (v : list event) (previous_tag : string)
      (e : exc) :
  keeps (fun t => forward_events t = v) (on_failure w previous_tag e).
Proof.
  keeps_walk ltac:(fail)
             ltac:(intros ?; apply forward_events_add; reflexivity).
Qed.

(** X17: the [except] clause of [main] only notifies and rolls back.
    From any state and for any exception it ends in [sys.exit(1)], sends
    the failure text and then exactly one text on the rollback: rolled
    back when [repository] is bound, rollback failed when it is not.  It
    leaves the config object and the config file as they are, and makes
    no call to the shell, to Docker, to [venv] or to the file system. *)
Theorem X17_handler_only_notifies_and_rolls_back (w : World) (previous_tag : string)
        (e : exc) (st : state) :
  let st' := snd (on_failure w previous_tag e st) in
  fst (on_failure w previous_tag e st) = Exit 1
  /\ st_config st' = st_config st
  /\ st_disk st' = st_disk st
  /\ st_repository st' = st_repository st
  /\ forward_events (st_trace st') = forward_events (st_trace st)
  /\ notifications (st_trace st')
     = notifications (st_trace st)
         ++ [msg_failed e;
             match st_repository st with
             | Some _ => msg_rolled_back previous_tag
             | None => msg_rollback_failed (UnboundLocalError "repository")
             end]
  /\ rollbacks (st_trace st')
     = rollbacks (st_trace st)
         ++ match st_repository st with
            | Some repository => [(repository, previous_tag)]
            | None => []
            end.
Proof.
  intros st'. subst st'.
  pose proof (forward_events_on_failure w _ previous_tag e st eq_refl) as Hf.
  destruct (on_failure_eqv w previous_tag e st st (same_view_refl st)) as (Hr & Hv).
  rewrite Hr, (same_view_notifications _ _ Hv), (same_view_rollbacks _ _ Hv).
  destruct Hv as (Hc & Hd & Hrepo & _).
  assert (Hdisk : st_disk (snd (on_failure w previous_tag e st))
                  = st_disk (snd (on_failure_skeleton previous_tag e st)))
    by (unfold file_of in Hd; congruence).
  rewrite Hc, Hdisk, Hrepo. clear Hr Hc Hd Hdisk Hrepo.
  unfold on_failure_skeleton.
  cbv [bind stage emit try_except load_repository sys_exit is_Exception]. simpl.
  destruct (st_repository st) as [repository|] eqn:Erepo; simpl;
    rewrite !notifications_app, !rollbacks_app; simpl;
    rewrite <- ?app_assoc, ?app_nil_r; repeat split; assumption.
Qed.
